(** * The MCP connection hub (src/services/mcp/McpHub.ts)

    A shallow embedding of the [McpHub] class: the connection registry, the
    reconciler [updateServerConnections], the invocation interface
    ([callTool], [readResource]), the notification router and the settings
    gateway, followed by the properties of the specification that concern
    them.

    Methods of the class are computations in a state-and-exception monad
    over the hub's fields.  Calls that leave the process (the protocol
    client, the transports, the host bridge, the file system) are recorded
    in the [effects] log of the state, and what they answer is read from a
    [World]. *)

From stdpp Require Import base strings list gmap sorting pretty.
From Stdlib Require Import ZArith.
Local Open Scope Z_scope.

(** ** JavaScript values *)

(** [JSON.stringify] and [JSON.parse].  A JSON text is represented by the
    value it denotes, so parsing what was serialised gives the value back. *)
Record JSONText (A : Type) := JSON_stringify { JSON_parse : A }.
Arguments JSON_stringify {A} _.
Arguments JSON_parse {A} _.

#[global] Instance JSONText_eq_dec {A} `{EqDecision A} : EqDecision (JSONText A).
Proof. solve_decision. Defined.

(** Truthiness of an optional boolean and of an optional string
    ([undefined], [false] and the empty string are falsy). *)
Definition truthy_bool (b : option bool) : bool :=
  match b with Some true => true | _ => false end.

Definition truthy_string (s : option string) : bool :=
  match s with Some s => negb (bool_decide (s = EmptyString)) | None => false end.

(** [s || d] on strings. *)
Definition or_string (s : option string) (d : string) : string :=
  match s with
  | Some v => if bool_decide (v = EmptyString) then d else v
  | None => d
  end.

(** The characters of a template literal that a string constant does not
    hold: the line feed and the double quote. *)
Definition newline : string :=
  String (Ascii.Ascii false true false true false false false false) EmptyString.

Definition dquote : string :=
  String (Ascii.Ascii false true false false false true false false) EmptyString.

Definition quoted (s : string) : string := dquote +:+ s +:+ dquote.

(** [l || []] and [l ?? []] on arrays (an array is always truthy). *)
Definition or_empty {A} (l : option (list A)) : list A := default [] l.

(** A plain object used as a record of entries: the keys in
    [Object.keys] order, each with its value. *)
Definition Object (V : Type) := list (string * V).

Definition Object_keys {V} (o : Object V) : list string := o.*1.

Definition Object_entries {V} (o : Object V) : list (string * V) := o.

(** [o[k]] *)
Fixpoint obj_get {V} (o : Object V) (k : string) : option V :=
  match o with
  | [] => None
  | (k', v) :: o' => if bool_decide (k' = k) then Some v else obj_get o' k
  end.

(** [o[k] = v]: an existing key keeps its place, a new key goes last. *)
Fixpoint obj_set {V} (o : Object V) (k : string) (v : V) : Object V :=
  match o with
  | [] => [(k, v)]
  | (k', v') :: o' =>
      if bool_decide (k' = k) then (k, v) :: o' else (k', v') :: obj_set o' k v
  end.

(** [Array.prototype.indexOf]: the first position, [-1] when absent. *)
Fixpoint indexOf (l : list string) (x : string) : Z :=
  match l with
  | [] => -1
  | y :: l' =>
      if bool_decide (y = x) then 0
      else let i := indexOf l' x in if i <? 0 then -1 else 1 + i
  end.

(** [Array.prototype.includes] *)
Definition includes (l : list string) (x : string) : bool := bool_decide (x ∈ l).

(** [Array.prototype.splice(i, 1)] *)
Definition splice1 {A} (i : Z) (l : list A) : list A :=
  if i <? 0 then l else delete (Z.to_nat i) l.

(** [String.prototype.includes] *)
Fixpoint String_includes (s sub : string) : bool :=
  String.prefix sub s ||
  match s with
  | EmptyString => false
  | String _ s' => String_includes s' sub
  end.

(** [Array.prototype.sort] with a comparator.  The sort is stable: of two
    elements the comparator does not separate, the one that came first
    stays first. *)
Fixpoint sort_insert {A} (cmp : A → A → Z) (x : A) (l : list A) : list A :=
  match l with
  | [] => [x]
  | y :: l' => if 0 <? cmp x y then y :: sort_insert cmp x l' else x :: l
  end.

Definition Array_sort {A} (cmp : A → A → Z) (l : list A) : list A :=
  foldr (sort_insert cmp) [] l.

(** [new Set(l)] iterated: the elements in order of first occurrence. *)
Fixpoint Set_of (l : list string) : list string :=
  match l with
  | [] => []
  | x :: l' => x :: filter (λ y, y ≠ x) (Set_of l')
  end.

(** ** Data model (src/services/mcp/types.ts, @shared/mcp) *)

Inductive McpServerStatus := connected | connecting | disconnected.

#[global] Instance McpServerStatus_eq_dec : EqDecision McpServerStatus.
Proof. solve_decision. Defined.

(** A server definition of the settings file.  A field that is absent in
    the JSON object is [None]. *)
Record McpServerConfig := {
  cfg_type : option string;
  cfg_command : option string;
  cfg_args : option (list string);
  cfg_cwd : option string;
  cfg_env : option (gmap string string);
  cfg_url : option string;
  cfg_headers : option (gmap string string);
  cfg_disabled : option bool;
  cfg_timeout : option Z;
  cfg_autoApprove : option (list string)
}.

#[global] Instance McpServerConfig_eq_dec : EqDecision McpServerConfig.
Proof. solve_decision. Defined.

(** [deepEqual] of fast-deep-equal on two configurations: equality of
    structure, where the order of an object's keys does not count. *)
Definition deepEqual (a b : McpServerConfig) : bool := bool_decide (a = b).

Record McpTool := {
  tool_name : string;
  tool_description : option string;
  tool_autoApprove : option bool
}.

Record McpResource := { resource_uri : string; resource_name : string }.

Record McpResourceTemplate := { template_uriTemplate : string; template_name : string }.

#[global] Instance McpTool_eq_dec : EqDecision McpTool.
Proof. solve_decision. Defined.
#[global] Instance McpResource_eq_dec : EqDecision McpResource.
Proof. solve_decision. Defined.
#[global] Instance McpResourceTemplate_eq_dec : EqDecision McpResourceTemplate.
Proof. solve_decision. Defined.

Record McpServer := {
  server_name : string;
  server_config : JSONText McpServerConfig;
  server_status : McpServerStatus;
  server_error : option string;
  server_tools : option (list McpTool);
  server_resources : option (list McpResource);
  server_resourceTemplates : option (list McpResourceTemplate);
  server_disabled : option bool
}.

#[global] Instance McpServer_eq_dec : EqDecision McpServer.
Proof. solve_decision. Defined.

(** The protocol client and the three transports of the SDK. *)
Record Client := { client_name : string; client_version : string }.

Inductive Transport :=
| StdioClientTransport (command : option string) (args : option (list string))
| SSEClientTransport (url : option string)
| StreamableHTTPClientTransport (url : option string).

#[global] Instance Client_eq_dec : EqDecision Client.
Proof. solve_decision. Defined.
#[global] Instance Transport_eq_dec : EqDecision Transport.
Proof. solve_decision. Defined.

(** [client] and [transport] are [null] for a disabled server. *)
Record McpConnection := {
  server : McpServer;
  client : option Client;
  transport : option Transport
}.

#[global] Instance McpConnection_eq_dec : EqDecision McpConnection.
Proof. solve_decision. Defined.

Record Notification := {
  n_serverName : string;
  n_level : string;
  n_message : string;
  n_timestamp : Z
}.

(** The [params] of a [notifications/message] notification. *)
Record NotificationParams := {
  p_level : option string;
  p_logger : option string;
  p_data : option string;
  p_message : option string
}.

(** The settings file: [{ "mcpServers": { name: config } }]. *)
Record SettingsJson := { mcpServers : option (Object McpServerConfig) }.

(** What the settings file holds: text that is not JSON, or a JSON text. *)
Inductive FileContent :=
| NotJSON
| JSONFile (text : JSONText SettingsJson).

(** ** Requests and responses of the protocol client *)

Inductive Request :=
| tools_list
| resources_list
| resources_templates_list
| resources_read (uri : string)
| tools_call (name : string) (arguments : option (Object string)) (timeout : Z).

Record Response := {
  r_tools : option (list McpTool);
  r_resources : option (list McpResource);
  r_resourceTemplates : option (list McpResourceTemplate);
  r_contents : option (list string);
  r_content : option (list string);
  r_isError : option bool
}.

(** ** Results and the outside world *)

(** A call returns or throws an [Error] with the given message. *)
Inductive Result (A : Type) :=
| Ok (a : A)
| Throw (message : string).
Arguments Ok {A} a.
Arguments Throw {A} message.

(** The identity of a registered notification callback. *)
Definition Callback := nat.

Inductive ShowMessageType := ERROR | INFORMATION.

(** What the hub does outside of its own fields, in order. *)
Inductive Effect :=
| transport_start (name : string)
| client_connect (name : string)
| client_request (name : string) (req : Request)
| transport_close (name : string)
| client_close (name : string)
| fs_writeFile (content : FileContent)
| console_error (message : string)
| showMessage (type : ShowMessageType) (message : string)
| call_notificationCallback (cb : Callback) (serverName level message : string)
| postMessageToWebview (serverName level data logger : string) (timestamp : Z)
| sendMcpServersUpdate (servers : list McpServer)
| chokidar_watch (name filePath : string)
| watcher_close (name : string)
| setTimeoutPromise (ms : Z).

(** What the collaborators answer.  The schemas of ./schemas and the
    constants of @shared/mcp and @utils/time are not part of the hub, they
    are taken as they come. *)
Record World := {
  McpSettingsSchema_safeParse : SettingsJson → option (Object McpServerConfig);
  ServerConfigSchema_parse : McpServerConfig → Result McpServerConfig;
  url_safeParse : string → bool;
  timeout_safeParse : Z → bool;
  DEFAULT_MCP_TIMEOUT_SECONDS : Z;
  MIN_MCP_TIMEOUT_SECONDS : Z;
  secondsToMs : Z → Z;
  new_URL : option string → Result unit;
  on_transport_start : string → Result unit;
  on_client_connect : string → Result unit;
  on_client_request : string → Request → Result Response;
  on_transport_close : string → Result unit;
  on_client_close : string → Result unit;
  Date_now : Z
}.

(** ** The hub *)

(** The fields of the class, then the settings file on disk and the log of
    effects. *)
Record McpHub := {
  clientVersion : string;
  fileWatchers : Object string;
  connections : list McpConnection;
  isConnecting : bool;
  pendingNotifications : list Notification;
  notificationCallback : option Callback;
  settingsFile : option FileContent;
  effects : list Effect
}.

Definition set_connections (f : list McpConnection → list McpConnection) (h : McpHub) : McpHub :=
  {| clientVersion := clientVersion h; fileWatchers := fileWatchers h;
     connections := f (connections h); isConnecting := isConnecting h;
     pendingNotifications := pendingNotifications h;
     notificationCallback := notificationCallback h;
     settingsFile := settingsFile h; effects := effects h |}.

Definition set_isConnecting (b : bool) (h : McpHub) : McpHub :=
  {| clientVersion := clientVersion h; fileWatchers := fileWatchers h;
     connections := connections h; isConnecting := b;
     pendingNotifications := pendingNotifications h;
     notificationCallback := notificationCallback h;
     settingsFile := settingsFile h; effects := effects h |}.

Definition set_fileWatchers (f : Object string → Object string) (h : McpHub) : McpHub :=
  {| clientVersion := clientVersion h; fileWatchers := f (fileWatchers h);
     connections := connections h; isConnecting := isConnecting h;
     pendingNotifications := pendingNotifications h;
     notificationCallback := notificationCallback h;
     settingsFile := settingsFile h; effects := effects h |}.

Definition set_pendingNotifications (l : list Notification) (h : McpHub) : McpHub :=
  {| clientVersion := clientVersion h; fileWatchers := fileWatchers h;
     connections := connections h; isConnecting := isConnecting h;
     pendingNotifications := l;
     notificationCallback := notificationCallback h;
     settingsFile := settingsFile h; effects := effects h |}.

Definition set_notificationCallback (cb : option Callback) (h : McpHub) : McpHub :=
  {| clientVersion := clientVersion h; fileWatchers := fileWatchers h;
     connections := connections h; isConnecting := isConnecting h;
     pendingNotifications := pendingNotifications h;
     notificationCallback := cb;
     settingsFile := settingsFile h; effects := effects h |}.

Definition set_settingsFile (c : option FileContent) (h : McpHub) : McpHub :=
  {| clientVersion := clientVersion h; fileWatchers := fileWatchers h;
     connections := connections h; isConnecting := isConnecting h;
     pendingNotifications := pendingNotifications h;
     notificationCallback := notificationCallback h;
     settingsFile := c; effects := effects h |}.

Definition add_effect (e : Effect) (h : McpHub) : McpHub :=
  {| clientVersion := clientVersion h; fileWatchers := fileWatchers h;
     connections := connections h; isConnecting := isConnecting h;
     pendingNotifications := pendingNotifications h;
     notificationCallback := notificationCallback h;
     settingsFile := settingsFile h; effects := effects h ++ [e] |}.

(** ** The monad of the methods: state and exceptions *)

Definition M (A : Type) : Type := McpHub → Result A * McpHub.

Definition ret {A} (a : A) : M A := λ h, (Ok a, h).

Definition throw {A} (message : string) : M A := λ h, (Throw message, h).

Definition bind {A B} (m : M A) (k : A → M B) : M B :=
  λ h, match m h with
       | (Ok a, h') => k a h'
       | (Throw e, h') => (Throw e, h')
       end.

Notation "x <- m ;; k" := (bind m (λ x, k))
  (at level 100, m at next level, k at level 200, right associativity).

(** [try { m } catch (error) { handler error }] *)
Definition try_catch {A} (m : M A) (handler : string → M A) : M A :=
  λ h, match m h with
       | (Ok a, h') => (Ok a, h')
       | (Throw e, h') => handler e h'
       end.

Definition get : M McpHub := λ h, (Ok h, h).

Definition modify (f : McpHub → McpHub) : M unit := λ h, (Ok tt, f h).

Definition perform (e : Effect) : M unit := modify (add_effect e).

(** An outside call: it is recorded, then it returns or throws as the world
    says. *)
Definition call {A} (e : Effect) (r : Result A) : M A :=
  λ h, (r, add_effect e h).

Definition lift {A} (r : Result A) : M A := λ h, (r, h).

(** [for (const x of l) { body x }] *)
Fixpoint for_of {A} (l : list A) (body : A → M unit) : M unit :=
  match l with
  | [] => ret tt
  | x :: l' => _ <- body x ;; for_of l' body
  end.

Definition when (b : bool) (m : M unit) : M unit := if b then m else ret tt.

(** The hub after a method has run, and what the method answered. *)
Definition exec {A} (m : M A) (h : McpHub) : McpHub := (m h).2.
Definition result {A} (m : M A) (h : McpHub) : Result A := (m h).1.

(** ** Methods of [McpHub] *)

Inductive Source := rpc | internal.

(** The content [getMcpSettingsFilePath] gives a settings file it creates. *)
Definition emptySettings : FileContent :=
  JSONFile (JSON_stringify {| mcpServers := Some [] |}).

(** [/INFO/i.test(output)] *)
Definition lower_ascii (c : Ascii.ascii) : Ascii.ascii :=
  let n := Ascii.N_of_ascii c in
  if ((65 <=? n) && (n <=? 90))%N then Ascii.ascii_of_N (n + 32) else c.

Fixpoint lower (s : string) : string :=
  match s with
  | EmptyString => EmptyString
  | String c s' => String (lower_ascii c) (lower s')
  end.

Definition isInfoLog (output : string) : bool := String_includes (lower output) "info".

Definition with_server (f : McpServer → McpServer) (conn : McpConnection) : McpConnection :=
  {| server := f (server conn); client := client conn; transport := transport conn |}.

Definition with_status (st : McpServerStatus) (conn : McpConnection) : McpConnection :=
  with_server (λ s,
    {| server_name := server_name s; server_config := server_config s;
       server_status := st; server_error := server_error s;
       server_tools := server_tools s; server_resources := server_resources s;
       server_resourceTemplates := server_resourceTemplates s;
       server_disabled := server_disabled s |}) conn.

Definition with_error (e : option string) (conn : McpConnection) : McpConnection :=
  with_server (λ s,
    {| server_name := server_name s; server_config := server_config s;
       server_status := server_status s; server_error := e;
       server_tools := server_tools s; server_resources := server_resources s;
       server_resourceTemplates := server_resourceTemplates s;
       server_disabled := server_disabled s |}) conn.

Definition with_tools (l : option (list McpTool)) (conn : McpConnection) : McpConnection :=
  with_server (λ s,
    {| server_name := server_name s; server_config := server_config s;
       server_status := server_status s; server_error := server_error s;
       server_tools := l; server_resources := server_resources s;
       server_resourceTemplates := server_resourceTemplates s;
       server_disabled := server_disabled s |}) conn.

Definition with_resources (l : option (list McpResource)) (conn : McpConnection) : McpConnection :=
  with_server (λ s,
    {| server_name := server_name s; server_config := server_config s;
       server_status := server_status s; server_error := server_error s;
       server_tools := server_tools s; server_resources := l;
       server_resourceTemplates := server_resourceTemplates s;
       server_disabled := server_disabled s |}) conn.

Definition with_resourceTemplates (l : option (list McpResourceTemplate)) (conn : McpConnection) : McpConnection :=
  with_server (λ s,
    {| server_name := server_name s; server_config := server_config s;
       server_status := server_status s; server_error := server_error s;
       server_tools := server_tools s; server_resources := server_resources s;
       server_resourceTemplates := l;
       server_disabled := server_disabled s |}) conn.

Definition with_disabled (d : option bool) (conn : McpConnection) : McpConnection :=
  with_server (λ s,
    {| server_name := server_name s; server_config := server_config s;
       server_status := server_status s; server_error := server_error s;
       server_tools := server_tools s; server_resources := server_resources s;
       server_resourceTemplates := server_resourceTemplates s;
       server_disabled := d |}) conn.

Definition conn_name (conn : McpConnection) : string := server_name (server conn).

(** [connections.find((conn) => conn.server.name === name)] *)
Definition find_connection (name : string) (conns : list McpConnection) : option McpConnection :=
  List.find (λ conn, bool_decide (conn_name conn = name)) conns.

(** [connections.filter((conn) => conn.server.name !== name)] *)
Definition without (name : string) (conns : list McpConnection) : list McpConnection :=
  filter (λ conn, conn_name conn ≠ name) conns.

(** Assignments to the fields of the connection object that [find]
    returned: the object stays where it is in the array. *)
Fixpoint update_found (name : string) (f : McpConnection → McpConnection)
    (conns : list McpConnection) : list McpConnection :=
  match conns with
  | [] => []
  | conn :: conns' =>
      if bool_decide (conn_name conn = name) then f conn :: conns'
      else conn :: update_found name f conns'
  end.

(** [appendErrorMessage] *)
Definition appendErrorMessage (error : string) (conn : McpConnection) : McpConnection :=
  let newError :=
    if truthy_string (server_error (server conn))
    then default EmptyString (server_error (server conn)) +:+ newline +:+ error
    else error in
  with_error (Some newError) conn.

(** [getSortedMcpServers], on [this.connections] *)
Definition getSortedMcpServers (serverOrder : list string) (conns : list McpConnection) : list McpServer :=
  server <$> Array_sort
    (λ a b, let indexA := indexOf serverOrder (conn_name a) in
            let indexB := indexOf serverOrder (conn_name b) in
            indexA - indexB) conns.

(** [getServers] *)
Definition getServers (h : McpHub) : list McpServer :=
  server <$> filter (λ conn, truthy_bool (server_disabled (server conn)) = false) (connections h).

Definition JSON_parse_file (content : FileContent) : Result SettingsJson :=
  match content with
  | NotJSON => Throw "Unexpected token in JSON"
  | JSONFile text => Ok (JSON_parse text)
  end.

Definition fs_write (content : FileContent) : M unit :=
  _ <- perform (fs_writeFile content) ;;
  modify (set_settingsFile (Some content)).

Definition fs_readFile : M FileContent :=
  h <- get ;;
  match settingsFile h with
  | Some content => ret content
  | None => throw "ENOENT: no such file or directory"
  end.

(** [getMcpSettingsFilePath]: the path is fixed; a missing file is created. *)
Definition getMcpSettingsFilePath : M unit :=
  h <- get ;;
  match settingsFile h with
  | None => fs_write emptySettings
  | Some _ => ret tt
  end.

Definition findConnection (name : string) (source : Source) : M (option McpConnection) :=
  h <- get ;; ret (find_connection name (connections h)).

(** [connection.server.f = v] on the connection found under [name] *)
Definition assign (name : string) (f : McpConnection → McpConnection) : M unit :=
  modify (set_connections (update_found name f)).

(** [setNotificationCallback], [clearNotificationCallback] *)
Definition setNotificationCallback (callback : Callback) : M unit :=
  modify (set_notificationCallback (Some callback)).

Definition clearNotificationCallback : M unit :=
  modify (set_notificationCallback None).

(** [getPendingNotifications] *)
Definition getPendingNotifications : M (list Notification) :=
  h <- get ;;
  let notifications := pendingNotifications h in
  _ <- modify (set_pendingNotifications []) ;;
  ret notifications.

(** [removeAllFileWatchers] *)
Definition removeAllFileWatchers : M unit :=
  h <- get ;;
  _ <- for_of (fileWatchers h) (λ watcher, perform (watcher_close watcher.1)) ;;
  modify (set_fileWatchers (λ _, [])).

(** [setupFileWatcher] *)
Definition setupFileWatcher (name : string) (config : McpServerConfig) : M unit :=
  match List.find (λ arg, String_includes arg "build/index.js") (or_empty (cfg_args config)) with
  | Some filePath =>
      if bool_decide (filePath = EmptyString) then ret tt
      else
        _ <- perform (chokidar_watch name filePath) ;;
        modify (set_fileWatchers (λ ws, obj_set ws name filePath))
  | None => ret tt
  end.

(** [{ ...tool, autoApprove: autoApprove.includes(tool.name) }] *)
Definition markAutoApprove (autoApprove : list string) (tool : McpTool) : McpTool :=
  {| tool_name := tool_name tool; tool_description := tool_description tool;
     tool_autoApprove := Some (includes autoApprove (tool_name tool)) |}.

(** The fields the notification handler reads off a notification:
    [params.level || "info"], [params.data || params.message || ""],
    [params.logger || ""], and the message it forms from them. *)
Definition notification_params (params : option NotificationParams) : NotificationParams :=
  default {| p_level := None; p_logger := None; p_data := None; p_message := None |} params.

Definition notification_level (params : option NotificationParams) : string :=
  or_string (p_level (notification_params params)) "info".

Definition notification_data (params : option NotificationParams) : string :=
  or_string (p_data (notification_params params))
    (or_string (p_message (notification_params params)) EmptyString).

Definition notification_logger (params : option NotificationParams) : string :=
  or_string (p_logger (notification_params params)) EmptyString.

Definition notification_message (params : option NotificationParams) : string :=
  let data := notification_data params in
  let logger := notification_logger params in
  if bool_decide (logger = EmptyString) then data else "[" +:+ logger +:+ "] " +:+ data.

Section Methods.

Variable w : World.

(** [readAndValidateMcpSettingsFile]: the validated [mcpServers], or
    [undefined]. *)
Definition readAndValidateMcpSettingsFile : M (option (Object McpServerConfig)) :=
  try_catch
    (_ <- getMcpSettingsFilePath ;;
     content <- fs_readFile ;;
     match JSON_parse_file content with
     | Throw _ =>
         _ <- perform (showMessage ERROR
                "Invalid MCP settings format. Please ensure your settings follow the correct JSON format.") ;;
         ret None
     | Ok config =>
         match McpSettingsSchema_safeParse w config with
         | None =>
             _ <- perform (showMessage ERROR "Invalid MCP settings schema.") ;;
             ret None
         | Some data => ret (Some data)
         end
     end)
    (λ error,
       _ <- perform (console_error ("Failed to read MCP settings: " +:+ error)) ;;
       ret None).

(** [notifyWebviewOfServerChanges] *)
Definition notifyWebviewOfServerChanges : M unit :=
  _ <- getMcpSettingsFilePath ;;
  content <- fs_readFile ;;
  config <- lift (JSON_parse_file content) ;;
  let serverOrder := Object_keys (default [] (mcpServers config)) in
  h <- get ;;
  let sortedServers := getSortedMcpServers serverOrder (connections h) in
  perform (sendMcpServersUpdate sortedServers).

Definition sendLatestMcpServers : M unit := notifyWebviewOfServerChanges.

(** [getLatestMcpServersRPC] *)
Definition getLatestMcpServersRPC : M (list McpServer) :=
  settings <- readAndValidateMcpSettingsFile ;;
  match settings with
  | None => ret []
  | Some mcpServers =>
      let serverOrder := Object_keys mcpServers in
      h <- get ;; ret (getSortedMcpServers serverOrder (connections h))
  end.

(** The handlers [connectToServer] installs on a transport. *)
Definition transport_onerror (name : string) (source : Source) (error : string) : M unit :=
  _ <- perform (console_error ("Transport error for " +:+ quoted name +:+ ": " +:+ error)) ;;
  connection <- findConnection name source ;;
  _ <- match connection with
       | Some _ => assign name (λ conn, appendErrorMessage error (with_status disconnected conn))
       | None => ret tt
       end ;;
  notifyWebviewOfServerChanges.

Definition transport_onclose (name : string) (source : Source) : M unit :=
  connection <- findConnection name source ;;
  _ <- match connection with
       | Some _ => assign name (with_status disconnected)
       | None => ret tt
       end ;;
  notifyWebviewOfServerChanges.

Definition stderr_on_data (name : string) (source : Source) (output : string) : M unit :=
  if isInfoLog output then ret tt
  else
    _ <- perform (console_error ("Server " +:+ quoted name +:+ " stderr: " +:+ output)) ;;
    connection <- findConnection name source ;;
    match connection with
    | Some _ =>
        _ <- assign name (appendErrorMessage output) ;;
        connection <- findConnection name source ;;
        match connection with
        | Some conn =>
            if bool_decide (server_status (server conn) = disconnected)
            then notifyWebviewOfServerChanges else ret tt
        | None => ret tt
        end
    | None => ret tt
    end.

(** The handler [connectToServer] registers for [notifications/message]. *)
Definition notificationHandler (name : string) (params : option NotificationParams) : M unit :=
  let level := notification_level params in
  let data := notification_data params in
  let logger := notification_logger params in
  let message := notification_message params in
  h <- get ;;
  _ <- match notificationCallback h with
       | Some callback => perform (call_notificationCallback callback name level message)
       | None =>
           modify (set_pendingNotifications
             (pendingNotifications h ++
                [ {| n_serverName := name; n_level := level; n_message := message;
                     n_timestamp := Date_now w |} ]))
       end ;;
  perform (postMessageToWebview name level data logger (Date_now w)).

(** [fetchToolsList] *)
Definition fetchToolsList (serverName : string) : M (list McpTool) :=
  try_catch
    (h <- get ;;
     match find_connection serverName (connections h) with
     | None => throw ("No connection found for server: " +:+ serverName)
     | Some connection =>
         if truthy_bool (server_disabled (server connection)) || negb (bool_decide (is_Some (client connection)))
         then ret []
         else
           response <- call (client_request serverName tools_list)
                            (on_client_request w serverName tools_list) ;;
           _ <- getMcpSettingsFilePath ;;
           content <- fs_readFile ;;
           config <- lift (JSON_parse_file content) ;;
           match mcpServers config with
           | None => throw "TypeError: Cannot read properties of undefined"
           | Some servers =>
               let autoApproveConfig :=
                 or_empty (obj_get servers serverName ≫= cfg_autoApprove) in
               let tools := markAutoApprove autoApproveConfig <$> or_empty (r_tools response) in
               ret tools
           end
     end)
    (λ error,
       _ <- perform (console_error ("Failed to fetch tools for " +:+ serverName +:+ ": " +:+ error)) ;;
       ret []).

(** [fetchResourcesList] *)
Definition fetchResourcesList (serverName : string) : M (list McpResource) :=
  try_catch
    (h <- get ;;
     match find_connection serverName (connections h) with
     | None => ret []
     | Some connection =>
         if truthy_bool (server_disabled (server connection)) || negb (bool_decide (is_Some (client connection)))
         then ret []
         else
           response <- call (client_request serverName resources_list)
                            (on_client_request w serverName resources_list) ;;
           ret (or_empty (r_resources response))
     end)
    (λ error, ret []).

(** [fetchResourceTemplatesList] *)
Definition fetchResourceTemplatesList (serverName : string) : M (list McpResourceTemplate) :=
  try_catch
    (h <- get ;;
     match find_connection serverName (connections h) with
     | None => ret []
     | Some connection =>
         if truthy_bool (server_disabled (server connection)) || negb (bool_decide (is_Some (client connection)))
         then ret []
         else
           response <- call (client_request serverName resources_templates_list)
                            (on_client_request w serverName resources_templates_list) ;;
           ret (or_empty (r_resourceTemplates response))
     end)
    (λ error, ret []).

(** The connection object [connectToServer] registers for a disabled
    server. *)
Definition disabledConnection (name : string) (config : McpServerConfig) : McpConnection :=
  {| server := {| server_name := name; server_config := JSON_stringify config;
                  server_status := disconnected; server_error := None;
                  server_tools := None; server_resources := None;
                  server_resourceTemplates := None; server_disabled := Some true |};
     client := None; transport := None |}.

(** [new Client({ name: "Cline", version }, ...)] *)
Definition new_Client (version : string) : Client :=
  {| client_name := "Cline"; client_version := version |}.

(** The [switch (config.type)] of [connectToServer]: the transport is
    constructed and, for stdio, started. *)
Definition openTransport (name : string) (config : McpServerConfig) : M Transport :=
  if bool_decide (cfg_type config = Some "stdio") then
    let transport := StdioClientTransport (cfg_command config) (cfg_args config) in
    _ <- call (transport_start name) (on_transport_start w name) ;;
    ret transport
  else if bool_decide (cfg_type config = Some "sse") then
    _ <- lift (new_URL w (cfg_url config)) ;;
    ret (SSEClientTransport (cfg_url config))
  else if bool_decide (cfg_type config = Some "streamableHttp") then
    _ <- lift (new_URL w (cfg_url config)) ;;
    ret (StreamableHTTPClientTransport (cfg_url config))
  else throw ("Unknown transport type: " +:+ default "undefined" (cfg_type config)).

(** The connection object [connectToServer] registers before the
    handshake. *)
Definition newConnection (version name : string) (config : McpServerConfig)
    (transport : Transport) : McpConnection :=
  {| server := {| server_name := name; server_config := JSON_stringify config;
                  server_status := connecting; server_error := None;
                  server_tools := None; server_resources := None;
                  server_resourceTemplates := None;
                  server_disabled := cfg_disabled config |};
     client := Some (new_Client version); transport := Some transport |}.

(** [connectToServer] *)
Definition connectToServer (name : string) (config : McpServerConfig) (source : Source) : M unit :=
  _ <- modify (set_connections (without name)) ;;
  if truthy_bool (cfg_disabled config) then
    modify (set_connections (λ conns, conns ++ [disabledConnection name config]))
  else
    try_catch
      (h <- get ;;
       transport <- openTransport name config ;;
       let connection := newConnection (clientVersion h) name config transport in
       _ <- modify (set_connections (λ conns, conns ++ [connection])) ;;
       _ <- call (client_connect name) (on_client_connect w name) ;;
       _ <- assign name (λ conn, with_error (Some EmptyString) (with_status connected conn)) ;;
       tools <- fetchToolsList name ;;
       _ <- assign name (with_tools (Some tools)) ;;
       resources <- fetchResourcesList name ;;
       _ <- assign name (with_resources (Some resources)) ;;
       resourceTemplates <- fetchResourceTemplatesList name ;;
       assign name (with_resourceTemplates (Some resourceTemplates)))
      (λ error,
         connection <- findConnection name source ;;
         _ <- match connection with
              | Some _ => assign name (λ conn, appendErrorMessage error (with_status disconnected conn))
              | None => ret tt
              end ;;
         throw error).

(** [deleteConnection] *)
Definition deleteConnection (name : string) : M unit :=
  h <- get ;;
  match find_connection name (connections h) with
  | Some connection =>
      _ <- try_catch
             (_ <- match transport connection with
                   | Some _ => call (transport_close name) (on_transport_close w name)
                   | None => ret tt
                   end ;;
              match client connection with
              | Some _ => call (client_close name) (on_client_close w name)
              | None => ret tt
              end)
             (λ error, perform (console_error ("Failed to close transport for " +:+ name +:+ ": " +:+ error))) ;;
      modify (set_connections (without name))
  | None => ret tt
  end.

(** The first loop of [updateServerConnections]: delete removed servers. *)
Definition deleteRemovedServers (newServers : Object McpServerConfig) : M unit :=
  h <- get ;;
  let currentNames := Set_of (conn_name <$> connections h) in
  let newNames := Set_of (Object_keys newServers) in
  for_of currentNames (λ name,
    if negb (includes newNames name) then deleteConnection name else ret tt).

(** The body of the second loop: update or add one server. *)
Definition updateOrAddServer (source : Source) (entry : string * McpServerConfig) : M unit :=
  let '(name, config) := entry in
  h <- get ;;
  match find_connection name (connections h) with
  | None =>
      try_catch
        (_ <- when (bool_decide (cfg_type config = Some "stdio")) (setupFileWatcher name config) ;;
         connectToServer name config source)
        (λ error, perform (console_error ("Failed to connect to new MCP server " +:+ name +:+ ": " +:+ error)))
  | Some currentConnection =>
      if negb (deepEqual (JSON_parse (server_config (server currentConnection))) config) then
        try_catch
          (_ <- when (bool_decide (cfg_type config = Some "stdio")) (setupFileWatcher name config) ;;
           _ <- deleteConnection name ;;
           connectToServer name config source)
          (λ error, perform (console_error ("Failed to reconnect MCP server " +:+ name +:+ ": " +:+ error)))
      else ret tt
  end.

(** [updateServerConnectionsRPC] *)
Definition updateServerConnectionsRPC (newServers : Object McpServerConfig) : M unit :=
  _ <- modify (set_isConnecting true) ;;
  _ <- removeAllFileWatchers ;;
  _ <- deleteRemovedServers newServers ;;
  _ <- for_of (Object_entries newServers) (updateOrAddServer rpc) ;;
  modify (set_isConnecting false).

(** [updateServerConnections] *)
Definition updateServerConnections (newServers : Object McpServerConfig) : M unit :=
  _ <- modify (set_isConnecting true) ;;
  _ <- removeAllFileWatchers ;;
  _ <- deleteRemovedServers newServers ;;
  _ <- for_of (Object_entries newServers) (updateOrAddServer internal) ;;
  _ <- notifyWebviewOfServerChanges ;;
  modify (set_isConnecting false).

(** [restartConnectionRPC] *)
Definition restartConnectionRPC (serverName : string) : M (list McpServer) :=
  _ <- modify (set_isConnecting true) ;;
  h <- get ;;
  _ <- match find_connection serverName (connections h) with
       | Some connection =>
           let inMemoryConfig := server_config (server connection) in
           _ <- assign serverName (λ conn, with_error (Some EmptyString) (with_status connecting conn)) ;;
           _ <- perform (setTimeoutPromise 500) ;;
           try_catch
             (_ <- deleteConnection serverName ;;
              connectToServer serverName (JSON_parse inMemoryConfig) rpc)
             (λ error, perform (console_error
                ("Failed to restart connection for " +:+ serverName +:+ ": " +:+ error)))
       | None => ret tt
       end ;;
  _ <- modify (set_isConnecting false) ;;
  config <- readAndValidateMcpSettingsFile ;;
  match config with
  | None => throw "Failed to read or validate MCP settings"
  | Some mcpServers =>
      let serverOrder := Object_keys mcpServers in
      h <- get ;; ret (getSortedMcpServers serverOrder (connections h))
  end.

(** [restartConnection] *)
Definition restartConnection (serverName : string) : M unit :=
  _ <- modify (set_isConnecting true) ;;
  h <- get ;;
  _ <- match find_connection serverName (connections h) with
       | Some connection =>
           let config := server_config (server connection) in
           _ <- perform (showMessage INFORMATION ("Restarting " +:+ serverName +:+ " MCP server...")) ;;
           _ <- assign serverName (λ conn, with_error (Some EmptyString) (with_status connecting conn)) ;;
           _ <- notifyWebviewOfServerChanges ;;
           _ <- perform (setTimeoutPromise 500) ;;
           try_catch
             (_ <- deleteConnection serverName ;;
              _ <- connectToServer serverName (JSON_parse config) internal ;;
              perform (showMessage INFORMATION (serverName +:+ " MCP server connected")))
             (λ error,
                _ <- perform (console_error
                       ("Failed to restart connection for " +:+ serverName +:+ ": " +:+ error)) ;;
                perform (showMessage ERROR ("Failed to connect to " +:+ serverName +:+ " MCP server")))
       | None => ret tt
       end ;;
  _ <- notifyWebviewOfServerChanges ;;
  modify (set_isConnecting false).

Definition with_cfg_disabled (d : option bool) (c : McpServerConfig) : McpServerConfig :=
  {| cfg_type := cfg_type c; cfg_command := cfg_command c; cfg_args := cfg_args c;
     cfg_cwd := cfg_cwd c; cfg_env := cfg_env c; cfg_url := cfg_url c;
     cfg_headers := cfg_headers c; cfg_disabled := d; cfg_timeout := cfg_timeout c;
     cfg_autoApprove := cfg_autoApprove c |}.

Definition with_cfg_timeout (t : option Z) (c : McpServerConfig) : McpServerConfig :=
  {| cfg_type := cfg_type c; cfg_command := cfg_command c; cfg_args := cfg_args c;
     cfg_cwd := cfg_cwd c; cfg_env := cfg_env c; cfg_url := cfg_url c;
     cfg_headers := cfg_headers c; cfg_disabled := cfg_disabled c; cfg_timeout := t;
     cfg_autoApprove := cfg_autoApprove c |}.

Definition with_cfg_autoApprove (l : option (list string)) (c : McpServerConfig) : McpServerConfig :=
  {| cfg_type := cfg_type c; cfg_command := cfg_command c; cfg_args := cfg_args c;
     cfg_cwd := cfg_cwd c; cfg_env := cfg_env c; cfg_url := cfg_url c;
     cfg_headers := cfg_headers c; cfg_disabled := cfg_disabled c;
     cfg_timeout := cfg_timeout c; cfg_autoApprove := l |}.

(** [toggleServerDisabledRPC] *)
Definition toggleServerDisabledRPC (serverName : string) (disabled : bool) : M (list McpServer) :=
  try_catch
    (config <- readAndValidateMcpSettingsFile ;;
     match config with
     | None => throw "Failed to read or validate MCP settings"
     | Some mcpServers =>
         match obj_get mcpServers serverName with
         | Some entry =>
             let mcpServers := obj_set mcpServers serverName (with_cfg_disabled (Some disabled) entry) in
             _ <- getMcpSettingsFilePath ;;
             _ <- fs_write (JSONFile (JSON_stringify {| mcpServers := Some mcpServers |})) ;;
             connection <- findConnection serverName rpc ;;
             _ <- match connection with
                  | Some _ => assign serverName (with_disabled (Some disabled))
                  | None => ret tt
                  end ;;
             let serverOrder := Object_keys mcpServers in
             h <- get ;; ret (getSortedMcpServers serverOrder (connections h))
         | None =>
             _ <- perform (console_error
                    ("Server " +:+ quoted serverName +:+ " not found in MCP configuration")) ;;
             throw ("Server " +:+ quoted serverName +:+ " not found in MCP configuration")
         end
     end)
    (λ error,
       _ <- perform (console_error ("Failed to update server disabled state: " +:+ error)) ;;
       _ <- perform (console_error ("Error details: " +:+ error)) ;;
       _ <- perform (showMessage ERROR ("Failed to update server state: " +:+ error)) ;;
       throw error).

(** [connection.client.request]: the client of a disabled server is [null]. *)
Definition client_request_of (connection : McpConnection) (req : Request) : M Response :=
  match client connection with
  | Some _ => call (client_request (conn_name connection) req)
                   (on_client_request w (conn_name connection) req)
  | None => throw "TypeError: Cannot read properties of null (reading 'request')"
  end.

(** [readResource] *)
Definition readResource (serverName uri : string) : M Response :=
  h <- get ;;
  match find_connection serverName (connections h) with
  | None => throw ("No connection found for server: " +:+ serverName)
  | Some connection =>
      if truthy_bool (server_disabled (server connection))
      then throw ("Server " +:+ quoted serverName +:+ " is disabled")
      else client_request_of connection (resources_read uri)
  end.

(** [callTool].  [ServerConfigSchema] gives [timeout] its default, so the
    parsed configuration always has one. *)
Definition callTool (serverName toolName : string) (toolArguments : option (Object string)) : M Response :=
  h <- get ;;
  match find_connection serverName (connections h) with
  | None =>
      throw ("No connection found for server: " +:+ serverName +:+
             ". Please make sure to use MCP servers available under 'Connected MCP Servers'.")
  | Some connection =>
      if truthy_bool (server_disabled (server connection))
      then throw ("Server " +:+ quoted serverName +:+ " is disabled and cannot be used")
      else
        timeout <- try_catch
          (let config := JSON_parse (server_config (server connection)) in
           parsedConfig <- lift (ServerConfigSchema_parse w config) ;;
           ret (secondsToMs w (default (DEFAULT_MCP_TIMEOUT_SECONDS w) (cfg_timeout parsedConfig))))
          (λ error,
             _ <- perform (console_error
                    ("Failed to parse timeout configuration for server " +:+ serverName +:+ ": " +:+ error)) ;;
             ret (secondsToMs w (DEFAULT_MCP_TIMEOUT_SECONDS w))) ;;
        result <- client_request_of connection (tools_call toolName toolArguments timeout) ;;
        ret {| r_tools := r_tools result; r_resources := r_resources result;
               r_resourceTemplates := r_resourceTemplates result;
               r_contents := r_contents result;
               r_content := Some (or_empty (r_content result));
               r_isError := r_isError result |}
  end.

(** One round of the loop over [toolNames] in [toggleToolAutoApprove]. *)
Definition toggleTool (shouldAllow : bool) (autoApprove : list string) (toolName : string) : list string :=
  let toolIndex := indexOf autoApprove toolName in
  if shouldAllow && (toolIndex =? -1) then autoApprove ++ [toolName]
  else if negb shouldAllow && negb (toolIndex =? -1) then splice1 toolIndex autoApprove
  else autoApprove.

(** What both variants of [toggleToolAutoApprove] do to the settings file:
    the file is read, the [autoApprove] array of the server is updated in
    place and the file is written back.  The updated array is returned with
    the configuration. *)
Definition writeAutoApprove (serverName : string) (toolNames : list string) (shouldAllow : bool)
    : M (Object McpServerConfig * list string) :=
  _ <- getMcpSettingsFilePath ;;
  content <- fs_readFile ;;
  config <- lift (JSON_parse_file content) ;;
  match mcpServers config ≫= (λ servers, obj_get servers serverName) with
  | None => throw "TypeError: Cannot read properties of undefined (reading 'autoApprove')"
  | Some entry =>
      let servers := default [] (mcpServers config) in
      let autoApprove := fold_left (toggleTool shouldAllow) toolNames (or_empty (cfg_autoApprove entry)) in
      let servers := obj_set servers serverName (with_cfg_autoApprove (Some autoApprove) entry) in
      _ <- fs_write (JSONFile (JSON_stringify {| mcpServers := Some servers |})) ;;
      ret (servers, autoApprove)
  end.

(** [toggleToolAutoApproveRPC] *)
Definition toggleToolAutoApproveRPC (serverName : string) (toolNames : list string) (shouldAllow : bool)
    : M (list McpServer) :=
  try_catch
    (written <- writeAutoApprove serverName toolNames shouldAllow ;;
     let '(servers, autoApprove) := written in
     h <- get ;;
     _ <- match find_connection serverName (connections h) with
          | Some connection =>
              match server_tools (server connection) with
              | Some tools => assign serverName (with_tools (Some (markAutoApprove autoApprove <$> tools)))
              | None => ret tt
              end
          | None => ret tt
          end ;;
     let serverOrder := Object_keys servers in
     h <- get ;; ret (getSortedMcpServers serverOrder (connections h)))
    (λ error,
       _ <- perform (console_error ("Failed to update autoApprove settings: " +:+ error)) ;;
       throw error).

(** [toggleToolAutoApprove] *)
Definition toggleToolAutoApprove (serverName : string) (toolNames : list string) (shouldAllow : bool)
    : M unit :=
  try_catch
    (written <- writeAutoApprove serverName toolNames shouldAllow ;;
     let '(servers, autoApprove) := written in
     h <- get ;;
     match find_connection serverName (connections h) with
     | Some connection =>
         match server_tools (server connection) with
         | Some tools =>
             _ <- assign serverName (with_tools (Some (markAutoApprove autoApprove <$> tools))) ;;
             notifyWebviewOfServerChanges
         | None => ret tt
         end
     | None => ret tt
     end)
    (λ error,
       _ <- perform (console_error ("Failed to update autoApprove settings: " +:+ error)) ;;
       _ <- perform (showMessage ERROR "Failed to update autoApprove settings") ;;
       throw error).

(** The server definition [addRemoteServer] writes. *)
Definition remoteServerConfig (serverUrl : string) : McpServerConfig :=
  {| cfg_type := None; cfg_command := None; cfg_args := None; cfg_cwd := None;
     cfg_env := None; cfg_url := Some serverUrl; cfg_headers := None;
     cfg_disabled := Some false; cfg_timeout := None; cfg_autoApprove := Some [] |}.

(** [addRemoteServer] *)
Definition addRemoteServer (serverName serverUrl : string) : M (list McpServer) :=
  try_catch
    (settings <- readAndValidateMcpSettingsFile ;;
     match settings with
     | None => throw "Failed to read MCP settings"
     | Some mcpServers =>
         if bool_decide (is_Some (obj_get mcpServers serverName))
         then throw ("An MCP server with the name " +:+ quoted serverName +:+ " already exists")
         else if negb (url_safeParse w serverUrl)
         then throw ("Invalid server URL: " +:+ serverUrl +:+ ". Please provide a valid URL.")
         else
           let serverConfig := remoteServerConfig serverUrl in
           parsedConfig <- lift (ServerConfigSchema_parse w serverConfig) ;;
           let mcpServers := obj_set mcpServers serverName parsedConfig in
           _ <- getMcpSettingsFilePath ;;
           _ <- fs_write (JSONFile (JSON_stringify
                  {| mcpServers := Some (obj_set mcpServers serverName serverConfig) |})) ;;
           _ <- updateServerConnectionsRPC mcpServers ;;
           let serverOrder := Object_keys mcpServers in
           h <- get ;; ret (getSortedMcpServers serverOrder (connections h))
     end)
    (λ error,
       _ <- perform (console_error ("Failed to add remote MCP server: " +:+ error)) ;;
       throw error).

(** [delete o[k]] *)
Definition obj_delete {V} (o : Object V) (k : string) : Object V :=
  filter (λ e, e.1 ≠ k) o.

(** [deleteServerRPC] *)
Definition deleteServerRPC (serverName : string) : M (list McpServer) :=
  try_catch
    (_ <- getMcpSettingsFilePath ;;
     content <- fs_readFile ;;
     config <- lift (JSON_parse_file content) ;;
     let servers := default [] (mcpServers config) in
     match obj_get servers serverName with
     | Some _ =>
         let servers := obj_delete servers serverName in
         _ <- fs_write (JSONFile (JSON_stringify {| mcpServers := Some servers |})) ;;
         _ <- updateServerConnectionsRPC servers ;;
         let serverOrder := Object_keys servers in
         h <- get ;; ret (getSortedMcpServers serverOrder (connections h))
     | None => throw (serverName +:+ " not found in MCP configuration")
     end)
    (λ error,
       _ <- perform (console_error ("Failed to delete MCP server: " +:+ error)) ;;
       throw error).

(** [updateServerTimeoutRPC] *)
Definition updateServerTimeoutRPC (serverName : string) (timeout : Z) : M (list McpServer) :=
  try_catch
    (if negb (timeout_safeParse w timeout)
     then throw ("Invalid timeout value: " +:+ pretty timeout +:+ ". Must be at minimum " +:+
                 pretty (MIN_MCP_TIMEOUT_SECONDS w) +:+ " seconds.")
     else
       _ <- getMcpSettingsFilePath ;;
       content <- fs_readFile ;;
       config <- lift (JSON_parse_file content) ;;
       match mcpServers config ≫= (λ servers, obj_get servers serverName) with
       | None => throw ("Server " +:+ quoted serverName +:+ " not found in settings")
       | Some entry =>
           let servers := obj_set (default [] (mcpServers config)) serverName
                            (with_cfg_timeout (Some timeout) entry) in
           _ <- fs_write (JSONFile (JSON_stringify {| mcpServers := Some servers |})) ;;
           _ <- updateServerConnectionsRPC servers ;;
           let serverOrder := Object_keys servers in
           h <- get ;; ret (getSortedMcpServers serverOrder (connections h))
       end)
    (λ error,
       _ <- perform (console_error ("Failed to update server timeout: " +:+ error)) ;;
       _ <- perform (console_error ("Error details: " +:+ error)) ;;
       _ <- perform (showMessage ERROR ("Failed to update server timeout: " +:+ error)) ;;
       throw error).

(** [dispose] *)
Definition dispose : M unit :=
  _ <- removeAllFileWatchers ;;
  h <- get ;;
  _ <- for_of (connections h) (λ connection,
         try_catch (deleteConnection (conn_name connection))
           (λ error, perform (console_error
              ("Failed to close connection for " +:+ conn_name connection +:+ ": " +:+ error)))) ;;
  modify (set_connections (λ _, [])).

(** [initializeMcpServers] *)
Definition initializeMcpServers : M unit :=
  settings <- readAndValidateMcpSettingsFile ;;
  match settings with
  | Some mcpServers => updateServerConnections mcpServers
  | None => ret tt
  end.

(** [watchMcpSettingsFile]: the file is located (and created when
    missing), then watched. *)
Definition watchMcpSettingsFile : M unit := getMcpSettingsFilePath.

(** The [onResponse] handler of [watchMcpSettingsFile], for an event of
    type CHANGED. *)
Definition onSettingsFileChanged : M unit :=
  settings <- readAndValidateMcpSettingsFile ;;
  match settings with
  | Some mcpServers =>
      try_catch (updateServerConnections mcpServers)
        (λ error, perform (console_error ("Failed to process MCP settings change: " +:+ error)))
  | None => ret tt
  end.

End Methods.

(** [new McpHub(...)], before [watchMcpSettingsFile] and
    [initializeMcpServers] have run. *)
Definition new_McpHub (version : string) (file : option FileContent) : McpHub :=
  {| clientVersion := version; fileWatchers := []; connections := [];
     isConnecting := false; pendingNotifications := [];
     notificationCallback := None; settingsFile := file; effects := [] |}.

(** ** Operations on a hub *)

(** What can happen to a hub: a call of one of its methods, or a handler
    it installed being run. *)
Inductive Op :=
| op_watchMcpSettingsFile
| op_initializeMcpServers
| op_onSettingsFileChanged
| op_connectToServer (name : string) (config : McpServerConfig) (source : Source)
| op_deleteConnection (name : string)
| op_updateServerConnections (newServers : Object McpServerConfig)
| op_updateServerConnectionsRPC (newServers : Object McpServerConfig)
| op_restartConnection (serverName : string)
| op_restartConnectionRPC (serverName : string)
| op_sendLatestMcpServers
| op_getLatestMcpServersRPC
| op_toggleServerDisabledRPC (serverName : string) (disabled : bool)
| op_readResource (serverName uri : string)
| op_callTool (serverName toolName : string) (toolArguments : option (Object string))
| op_toggleToolAutoApprove (serverName : string) (toolNames : list string) (shouldAllow : bool)
| op_toggleToolAutoApproveRPC (serverName : string) (toolNames : list string) (shouldAllow : bool)
| op_addRemoteServer (serverName serverUrl : string)
| op_deleteServerRPC (serverName : string)
| op_updateServerTimeoutRPC (serverName : string) (timeout : Z)
| op_getPendingNotifications
| op_setNotificationCallback (callback : Callback)
| op_clearNotificationCallback
| op_dispose
| op_transport_onerror (name : string) (source : Source) (error : string)
| op_transport_onclose (name : string) (source : Source)
| op_stderr_on_data (name : string) (source : Source) (output : string)
| op_notificationHandler (name : string) (params : option NotificationParams).

(** The hub after an operation, in a given world. *)
Definition run (w : World) (op : Op) : McpHub → McpHub :=
  match op with
  | op_watchMcpSettingsFile => exec watchMcpSettingsFile
  | op_initializeMcpServers => exec (initializeMcpServers w)
  | op_onSettingsFileChanged => exec (onSettingsFileChanged w)
  | op_connectToServer name config source => exec (connectToServer w name config source)
  | op_deleteConnection name => exec (deleteConnection w name)
  | op_updateServerConnections newServers => exec (updateServerConnections w newServers)
  | op_updateServerConnectionsRPC newServers => exec (updateServerConnectionsRPC w newServers)
  | op_restartConnection serverName => exec (restartConnection w serverName)
  | op_restartConnectionRPC serverName => exec (restartConnectionRPC w serverName)
  | op_sendLatestMcpServers => exec sendLatestMcpServers
  | op_getLatestMcpServersRPC => exec (getLatestMcpServersRPC w)
  | op_toggleServerDisabledRPC serverName disabled => exec (toggleServerDisabledRPC w serverName disabled)
  | op_readResource serverName uri => exec (readResource w serverName uri)
  | op_callTool serverName toolName toolArguments => exec (callTool w serverName toolName toolArguments)
  | op_toggleToolAutoApprove serverName toolNames shouldAllow =>
      exec (toggleToolAutoApprove serverName toolNames shouldAllow)
  | op_toggleToolAutoApproveRPC serverName toolNames shouldAllow =>
      exec (toggleToolAutoApproveRPC serverName toolNames shouldAllow)
  | op_addRemoteServer serverName serverUrl => exec (addRemoteServer w serverName serverUrl)
  | op_deleteServerRPC serverName => exec (deleteServerRPC w serverName)
  | op_updateServerTimeoutRPC serverName timeout => exec (updateServerTimeoutRPC w serverName timeout)
  | op_getPendingNotifications => exec getPendingNotifications
  | op_setNotificationCallback callback => exec (setNotificationCallback callback)
  | op_clearNotificationCallback => exec clearNotificationCallback
  | op_dispose => exec (dispose w)
  | op_transport_onerror name source error => exec (transport_onerror name source error)
  | op_transport_onclose name source => exec (transport_onclose name source)
  | op_stderr_on_data name source output => exec (stderr_on_data name source output)
  | op_notificationHandler name params => exec (notificationHandler w name params)
  end.

(** ** Notions the properties are stated with *)

(** The registry entries under one name. *)
Definition only (name : string) (conns : list McpConnection) : list McpConnection :=
  filter (λ conn, conn_name conn = name) conns.

(** The settings file as the hub reads it: a missing file is created empty
    before it is read. *)
Definition ensure (file : option FileContent) : FileContent := default emptySettings file.

(** A method keeps an invariant of the hub, however it ends. *)
Definition preserves {A} (I : McpHub → Prop) (m : M A) : Prop :=
  ∀ h, I h → I (exec m h).

(** A disabled connection holds no protocol client and no transport. *)
Definition disabled_ok (conn : McpConnection) : Prop :=
  truthy_bool (server_disabled (server conn)) = true →
  client conn = None ∧ transport conn = None.

Definition disabled_inv (h : McpHub) : Prop := Forall disabled_ok (connections h).

(** The hub's own fields that a connection depends on are the same in two
    states, and the settings file reads the same. *)
Definition steady (h h' : McpHub) : Prop :=
  connections h' = connections h ∧ clientVersion h' = clientVersion h ∧
  ensure (settingsFile h') = ensure (settingsFile h).

(** What [readAndValidateMcpSettingsFile] answers for a settings file. *)
Definition validated (w : World) (file : option FileContent) : option (Object McpServerConfig) :=
  match ensure file with
  | NotJSON => None
  | JSONFile text => McpSettingsSchema_safeParse w (JSON_parse text)
  end.

(** What the three discovery calls answer for a connected server. *)
Definition fetched_tools (w : World) (file : option FileContent) (name : string) : list McpTool :=
  match on_client_request w name tools_list with
  | Throw _ => []
  | Ok response =>
      match ensure file with
      | NotJSON => []
      | JSONFile text =>
          match mcpServers (JSON_parse text) with
          | None => []
          | Some servers =>
              markAutoApprove (or_empty (obj_get servers name ≫= cfg_autoApprove))
                <$> or_empty (r_tools response)
          end
      end
  end.

Definition fetched_resources (w : World) (name : string) : list McpResource :=
  match on_client_request w name resources_list with
  | Throw _ => []
  | Ok response => or_empty (r_resources response)
  end.

Definition fetched_resourceTemplates (w : World) (name : string) : list McpResourceTemplate :=
  match on_client_request w name resources_templates_list with
  | Throw _ => []
  | Ok response => or_empty (r_resourceTemplates response)
  end.

(** Whether the transport of a server opens, and which one it is. *)
Definition opened (w : World) (name : string) (config : McpServerConfig) : Result Transport :=
  if bool_decide (cfg_type config = Some "stdio") then
    match on_transport_start w name with
    | Ok _ => Ok (StdioClientTransport (cfg_command config) (cfg_args config))
    | Throw e => Throw e
    end
  else if bool_decide (cfg_type config = Some "sse") then
    match new_URL w (cfg_url config) with
    | Ok _ => Ok (SSEClientTransport (cfg_url config))
    | Throw e => Throw e
    end
  else if bool_decide (cfg_type config = Some "streamableHttp") then
    match new_URL w (cfg_url config) with
    | Ok _ => Ok (StreamableHTTPClientTransport (cfg_url config))
    | Throw e => Throw e
    end
  else Throw ("Unknown transport type: " +:+ default "undefined" (cfg_type config)).

(** The registry entry of a server after its handshake and discovery. *)
Definition connectedConnection (w : World) (version : string) (file : option FileContent)
    (name : string) (config : McpServerConfig) (t : Transport) : McpConnection :=
  with_resourceTemplates (Some (fetched_resourceTemplates w name))
    (with_resources (Some (fetched_resources w name))
      (with_tools (Some (fetched_tools w file name))
        (with_error (Some EmptyString)
          (with_status connected (newConnection version name config t))))).

(** The registry entry [connectToServer] leaves under the name, if any. *)
Definition connect_outcome (w : World) (version : string) (file : option FileContent)
    (name : string) (config : McpServerConfig) : option McpConnection :=
  if truthy_bool (cfg_disabled config) then Some (disabledConnection name config)
  else
    match opened w name config with
    | Throw _ => None
    | Ok t =>
        match on_client_connect w name with
        | Throw e =>
            Some (appendErrorMessage e
                    (with_status disconnected (newConnection version name config t)))
        | Ok _ => Some (connectedConnection w version file name config t)
        end
    end.

(** What [connectToServer] answers. *)
Definition connect_result (w : World) (name : string) (config : McpServerConfig) : Result unit :=
  if truthy_bool (cfg_disabled config) then Ok tt
  else match opened w name config with
       | Throw e => Throw e
       | Ok _ => on_client_connect w name
       end.

(** The effects of closing a connection in [deleteConnection]: the
    transport, then the client, up to the first [close()] that throws,
    which is logged. *)
Definition closeFailed (name error : string) : Effect :=
  console_error ("Failed to close transport for " +:+ name +:+ ": " +:+ error).

Definition closing_client (w : World) (name : string) (conn : McpConnection) : list Effect :=
  match client conn with
  | Some _ =>
      client_close name ::
      match on_client_close w name with
      | Ok _ => []
      | Throw e => [closeFailed name e]
      end
  | None => []
  end.

Definition closing (w : World) (name : string) (conn : McpConnection) : list Effect :=
  match transport conn with
  | Some _ =>
      transport_close name ::
      match on_transport_close w name with
      | Ok _ => closing_client w name conn
      | Throw e => [closeFailed name e]
      end
  | None => closing_client w name conn
  end.

(** The registry entry of a desired server after a reconciliation pass,
    given its entry before the pass. *)
Definition reconciled (w : World) (version : string) (file : option FileContent)
    (name : string) (config : McpServerConfig) (current : option McpConnection)
    : option McpConnection :=
  match current with
  | Some conn =>
      if deepEqual (JSON_parse (server_config (server conn))) config then Some conn
      else connect_outcome w version file name config
  | None => connect_outcome w version file name config
  end.

(** Traffic with a server: a transport or a client is started, used or
    closed. *)
Definition is_peer_effect (e : Effect) : bool :=
  match e with
  | transport_start _ | client_connect _ | client_request _ _
  | transport_close _ | client_close _ => true
  | _ => false
  end.

(** The entry of a server in the settings file, and the auto-approved tool
    names read back from it. *)
Definition settings_entry (h : McpHub) (serverName : string) : option McpServerConfig :=
  match settingsFile h with
  | Some (JSONFile text) => mcpServers (JSON_parse text) ≫= (λ servers, obj_get servers serverName)
  | _ => None
  end.

Definition read_autoApprove (h : McpHub) (serverName : string) : list string :=
  or_empty (settings_entry h serverName ≫= cfg_autoApprove).

(** The settings file after [toggleToolAutoApprove]: the entry of the
    server has its array replaced, in place. *)
Definition toggled_file (servers : Object McpServerConfig) (serverName : string)
    (toolNames : list string) (shouldAllow : bool) (entry : McpServerConfig) : FileContent :=
  JSONFile (JSON_stringify
    {| mcpServers := Some (obj_set servers serverName
         (with_cfg_autoApprove
            (Some (fold_left (toggleTool shouldAllow) toolNames (or_empty (cfg_autoApprove entry))))
            entry)) |}).

(** The error [addRemoteServer] throws before it writes anything. *)
Definition addRemoteServer_refusal (w : World) (servers : Object McpServerConfig)
    (serverName serverUrl : string) : option string :=
  if bool_decide (is_Some (obj_get servers serverName))
  then Some ("An MCP server with the name " +:+ quoted serverName +:+ " already exists")
  else if negb (url_safeParse w serverUrl)
  then Some ("Invalid server URL: " +:+ serverUrl +:+ ". Please provide a valid URL.")
  else None.

(** Notifications of servers arriving one after the other. *)
Definition deliver (w : World) (arrivals : list (string * option NotificationParams))
    (h : McpHub) : McpHub :=
  foldl (λ h arrival, exec (notificationHandler w arrival.1 arrival.2) h) h arrivals.

(** The pending notification a server's message becomes. *)
Definition pending_of (w : World) (arrival : string * option NotificationParams) : Notification :=
  {| n_serverName := arrival.1; n_level := notification_level arrival.2;
     n_message := notification_message arrival.2; n_timestamp := Date_now w |}.

(** The key [getSortedMcpServers] sorts a connection by. *)
Definition order_index (serverOrder : list string) (conn : McpConnection) : Z :=
  indexOf serverOrder (conn_name conn).

(** ** A small hub, for the examples *)

Definition sample_stdio (command : string) (disabled : option bool) : McpServerConfig :=
  {| cfg_type := Some "stdio"; cfg_command := Some command;
     cfg_args := Some ["server/build/index.js"]; cfg_cwd := None; cfg_env := None;
     cfg_url := None; cfg_headers := None; cfg_disabled := disabled;
     cfg_timeout := Some 60; cfg_autoApprove := Some ["read"] |}.

Definition sample_tool (name : string) : McpTool :=
  {| tool_name := name; tool_description := None; tool_autoApprove := None |}.

Definition sample_response : Response :=
  {| r_tools := Some [sample_tool "read"; sample_tool "write"];
     r_resources := Some [ {| resource_uri := "file:///a"; resource_name := "a" |} ];
     r_resourceTemplates := Some [ {| template_uriTemplate := "file:///{p}"; template_name := "p" |} ];
     r_contents := None; r_content := None; r_isError := None |}.

(** A world given by what starting a transport, the handshake, a request
    and closing a transport answer; the rest succeeds. *)
Definition sample_world (start connect : string → Result unit)
    (request : string → Request → Result Response) (close : string → Result unit) : World :=
  {| McpSettingsSchema_safeParse := mcpServers;
     ServerConfigSchema_parse := Ok;
     url_safeParse := String.prefix "http";
     timeout_safeParse := λ t, 1 <=? t;
     DEFAULT_MCP_TIMEOUT_SECONDS := 60;
     MIN_MCP_TIMEOUT_SECONDS := 1;
     secondsToMs := λ s, s * 1000;
     new_URL := λ url, match url with Some _ => Ok tt | None => Throw "Invalid URL" end;
     on_transport_start := start;
     on_client_connect := connect;
     on_client_request := request;
     on_transport_close := close;
     on_client_close := λ _, Ok tt;
     Date_now := 1000 |}.

Definition healthy : World :=
  sample_world (λ _, Ok tt) (λ _, Ok tt) (λ _ _, Ok sample_response) (λ _, Ok tt).

Definition sample_servers : Object McpServerConfig :=
  [("a", sample_stdio "node" None); ("b", sample_stdio "python" (Some true))].

Definition sample_file (servers : Object McpServerConfig) : option FileContent :=
  Some (JSONFile (JSON_stringify {| mcpServers := Some servers |})).

(** A hub that has reconciled [sample_servers] in a healthy world: [a] is
    connected, [b] is registered as disabled. *)
Definition sample_hub : McpHub :=
  exec (updateServerConnections healthy sample_servers)
       (new_McpHub "3.0" (sample_file sample_servers)).

(** Worlds in which one of the calls fails. *)
Definition handshake_fails : World :=
  sample_world (λ _, Ok tt)
    (λ name, if bool_decide (name = "a") then Throw "Connection closed" else Ok tt)
    (λ _ _, Ok sample_response) (λ _, Ok tt).

Definition spawn_fails : World :=
  sample_world (λ _, Throw "spawn node ENOENT") (λ _, Ok tt)
    (λ _ _, Ok sample_response) (λ _, Ok tt).


Definition close_throws : World :=
  sample_world (λ _, Ok tt) (λ _, Ok tt) (λ _ _, Ok sample_response) (λ _, Throw "EPIPE").

(** ** Further notions *)

(** At most one connection per server name. *)
Definition unique_names (h : McpHub) : Prop := NoDup (conn_name <$> connections h).

(** What the two reconciliation methods share: the flag is raised, the
    file watchers are removed, then the two loops run. *)
Definition reconcile_loops (w : World) (source : Source)
    (newServers : Object McpServerConfig) : M unit :=
  _ <- modify (set_isConnecting true) ;;
  _ <- removeAllFileWatchers ;;
  _ <- deleteRemovedServers w newServers ;;
  for_of (Object_entries newServers) (updateOrAddServer w source).

(** The servers are published to the webview. *)
Definition is_publish (e : Effect) : bool :=
  match e with sendMcpServersUpdate _ => true | _ => false end.

(** A file watcher under [name] was there before ([W]) or is the one of
    the server [n]. *)
Definition watched_by (W : Object string) (n name : string) (h : McpHub) : Prop :=
  is_Some (obj_get (fileWatchers h) name) → is_Some (obj_get W name) ∨ name = n.

(** A reconciliation pass over the hub connects [name] anew: it has no
    registry entry, or one whose stored configuration differs from
    [config]. *)
Definition connected_anew (name : string) (config : McpServerConfig) (h : McpHub) : Prop :=
  ∀ conn, find_connection name (connections h) = Some conn →
          deepEqual (JSON_parse (server_config (server conn))) config = false.

(** The registry after [serverName] was restarted: its entry is the one
    [connectToServer] creates from the configuration stored in the entry. *)
Definition restarted (w : World) (serverName : string) (h : McpHub) : list McpConnection :=
  match find_connection serverName (connections h) with
  | Some conn =>
      without serverName (connections h) ++
      option_list (connect_outcome w (clientVersion h) (settingsFile h) serverName
                     (JSON_parse (server_config (server conn))))
  | None => connections h
  end.

(** The timeout [callTool] passes with a request: that of the stored
    configuration, the default one when the configuration does not parse. *)
Definition call_timeout (w : World) (conn : McpConnection) : Z :=
  match ServerConfigSchema_parse w (JSON_parse (server_config (server conn))) with
  | Ok parsedConfig =>
      secondsToMs w (default (DEFAULT_MCP_TIMEOUT_SECONDS w) (cfg_timeout parsedConfig))
  | Throw _ => secondsToMs w (DEFAULT_MCP_TIMEOUT_SECONDS w)
  end.

(** What [callTool] logs before the request. *)
Definition call_timeout_log (w : World) (serverName : string) (conn : McpConnection) : list Effect :=
  match ServerConfigSchema_parse w (JSON_parse (server_config (server conn))) with
  | Ok _ => []
  | Throw error =>
      [console_error ("Failed to parse timeout configuration for server " +:+ serverName +:+
                      ": " +:+ error)]
  end.

(** [{ ...result, content: result.content ?? [] }] *)
Definition with_content (result : Response) : Response :=
  {| r_tools := r_tools result; r_resources := r_resources result;
     r_resourceTemplates := r_resourceTemplates result;
     r_contents := r_contents result;
     r_content := Some (or_empty (r_content result));
     r_isError := r_isError result |}.

(** ** The log of effects *)

(** Since the log was [log], the effects of [seg] were performed, one
    after the other, among others. *)
Definition happened_since (log seg : list Effect) (h : McpHub) : Prop :=
  ∃ before after, effects h = log ++ before ++ seg ++ after.

(** Since the log was [log], effects were performed, none of them traffic
    with a server. *)
Definition quiet_after (log : list Effect) (h : McpHub) : Prop :=
  ∃ added, effects h = log ++ added ∧ Forall (λ e, is_peer_effect e = false) added.

(** ** The handshake, with the events of the transport *)





(** [connectToServer] registers a connection for the configuration: the
    server is disabled, or its transport can be constructed and, for
    stdio, started. *)
Definition registers (w : World) (name : string) (config : McpServerConfig) : Prop :=
  truthy_bool (cfg_disabled config) = true ∨ ∃ t, opened w name config = Ok t.

(** Since the log was [log], effects were performed, none of them a
    publication of the servers. *)
Definition unpublished_after (log : list Effect) (h : McpHub) : Prop :=
  ∃ added, effects h = log ++ added ∧ Forall (λ e, is_publish e = false) added.

(** * Properties *)

(** ** The registry as a list *)

Lemma find_connection_Some name conns conn :
  find_connection name conns = Some conn → conn ∈ conns ∧ conn_name conn = name.
Proof.
  unfold find_connection. intros H. apply find_some in H as [Hin Hn].
  split; [by apply list_elem_of_In | by apply bool_decide_eq_true in Hn].
Qed.

Lemma find_connection_None name conns :
  find_connection name conns = None ↔ ∀ conn, conn ∈ conns → conn_name conn ≠ name.
Proof.
  unfold find_connection. induction conns as [|c conns IH]; simpl.
  - split; [intros _ conn Hin; inversion Hin | done].
  - case_bool_decide as Hc.
    + split; [done | intros H; exfalso; apply (H c); [left | done]].
    + rewrite IH. split.
      * intros H conn Hin. apply elem_of_cons in Hin as [-> | Hin]; auto.
      * intros H conn Hin. apply H. by right.
Qed.

Lemma find_connection_only name conns :
  find_connection name conns = head (only name conns).
Proof.
  unfold find_connection, only. induction conns as [|c conns IH]; [done |].
  simpl. rewrite filter_cons. case_bool_decide; rewrite decide_bool_decide.
  - by rewrite bool_decide_true.
  - by rewrite bool_decide_false.
Qed.

Lemma filter_none {A} (P : A → Prop) `{!∀ x, Decision (P x)} (l : list A) :
  (∀ x, x ∈ l → ¬ P x) → filter P l = [].
Proof.
  induction l as [|x l IH]; intros Hl; [done |].
  rewrite filter_cons, decide_False; [| apply Hl; left].
  apply IH. intros y Hy. apply Hl. by right.
Qed.

Lemma filter_all {A} (P : A → Prop) `{!∀ x, Decision (P x)} (l : list A) :
  (∀ x, x ∈ l → P x) → filter P l = l.
Proof.
  induction l as [|x l IH]; intros Hl; [done |].
  rewrite filter_cons, decide_True; [| apply Hl; left].
  f_equal. apply IH. intros y Hy. apply Hl. by right.
Qed.

Lemma without_fresh name conns c : c ∈ without name conns → conn_name c ≠ name.
Proof. unfold without. rewrite list_elem_of_filter. tauto. Qed.

Lemma only_without_eq name conns : only name (without name conns) = [].
Proof. apply filter_none. intros c Hin. by apply without_fresh in Hin. Qed.

Lemma only_without_ne name name' conns :
  name ≠ name' → only name (without name' conns) = only name conns.
Proof.
  intros Hne. unfold only, without. rewrite list_filter_filter.
  apply list_filter_iff. intros c. split; [tauto | intros Hc; split; [done | congruence]].
Qed.

Lemma only_app name l1 l2 : only name (l1 ++ l2) = only name l1 ++ only name l2.
Proof. apply filter_app. Qed.

Lemma only_singleton_eq name conn : conn_name conn = name → only name [conn] = [conn].
Proof. intros H. unfold only. rewrite filter_cons. by rewrite decide_True. Qed.

Lemma only_singleton_ne name conn : conn_name conn ≠ name → only name [conn] = [].
Proof. intros H. unfold only. rewrite filter_cons. by rewrite decide_False. Qed.

Lemma only_update_found_ne name name' f conns :
  name ≠ name' → (∀ conn, conn_name (f conn) = conn_name conn) →
  only name (update_found name' f conns) = only name conns.
Proof.
  intros Hne Hf. unfold only. induction conns as [|c conns IH]; [done |].
  simpl. case_bool_decide as Hc.
  - rewrite !filter_cons. rewrite !decide_False; [done | congruence |].
    rewrite Hf. congruence.
  - rewrite !filter_cons. rewrite IH. done.
Qed.

Lemma update_found_fresh name f conns conn :
  (∀ c, c ∈ conns → conn_name c ≠ name) → conn_name conn = name →
  update_found name f (conns ++ [conn]) = conns ++ [f conn].
Proof.
  intros Hfresh Hn. induction conns as [|c conns IH]; simpl.
  - by rewrite bool_decide_true.
  - rewrite bool_decide_false; [| apply Hfresh; left].
    rewrite IH; [done |]. intros c' Hin. apply Hfresh. by right.
Qed.

Lemma find_connection_fresh name conns conn :
  (∀ c, c ∈ conns → conn_name c ≠ name) → conn_name conn = name →
  find_connection name (conns ++ [conn]) = Some conn.
Proof.
  intros Hfresh Hn. rewrite find_connection_only, only_app.
  replace (only name conns) with (@nil McpConnection).
  - by rewrite only_singleton_eq.
  - symmetry. apply filter_none. intros c Hin. by apply Hfresh.
Qed.

Lemma without_without name name' conns :
  without name (without name' conns) = without name' (without name conns).
Proof.
  unfold without. rewrite !list_filter_filter. apply list_filter_iff. tauto.
Qed.

Lemma without_idemp name conns : without name (without name conns) = without name conns.
Proof. unfold without. apply list_filter_filter_l. tauto. Qed.

Lemma without_app name l1 l2 : without name (l1 ++ l2) = without name l1 ++ without name l2.
Proof. apply filter_app. Qed.

Lemma without_id name conns :
  (∀ c, c ∈ conns → conn_name c ≠ name) → without name conns = conns.
Proof.
  intros H. by apply filter_all.
Qed.

(** ** The monad *)

Lemma exec_bind {A B} (m : M A) (k : A → M B) h :
  exec (bind m k) h =
    match result m h with
    | Ok a => exec (k a) (exec m h)
    | Throw _ => exec m h
    end.
Proof. unfold exec, result, bind. by destruct (m h) as [[a|e] h']. Qed.

Lemma result_bind {A B} (m : M A) (k : A → M B) h :
  result (bind m k) h =
    match result m h with
    | Ok a => result (k a) (exec m h)
    | Throw e => Throw e
    end.
Proof. unfold exec, result, bind. by destruct (m h) as [[a|e] h']. Qed.

Lemma exec_try_catch {A} (m : M A) (handler : string → M A) h :
  exec (try_catch m handler) h =
    match result m h with
    | Ok _ => exec m h
    | Throw e => exec (handler e) (exec m h)
    end.
Proof. unfold exec, result, try_catch. by destruct (m h) as [[a|e] h']. Qed.

Lemma result_try_catch {A} (m : M A) (handler : string → M A) h :
  result (try_catch m handler) h =
    match result m h with
    | Ok a => Ok a
    | Throw e => result (handler e) (exec m h)
    end.
Proof. unfold exec, result, try_catch. by destruct (m h) as [[a|e] h']. Qed.

(** ** Invariants of methods *)

Section Preserves.
Context (I : McpHub → Prop).

Lemma preserves_ret {A} (a : A) : preserves I (ret a).
Proof. by intros h. Qed.

Lemma preserves_throw {A} e : preserves I (@throw A e).
Proof. by intros h. Qed.

Lemma preserves_lift {A} (r : Result A) : preserves I (lift r).
Proof. by intros h. Qed.

Lemma preserves_get : preserves I get.
Proof. by intros h. Qed.

Lemma preserves_modify f : (∀ h, I h → I (f h)) → preserves I (modify f).
Proof. intros Hf h. apply Hf. Qed.

Lemma preserves_perform e : (∀ h, I h → I (add_effect e h)) → preserves I (perform e).
Proof. intros Hf h. apply Hf. Qed.

Lemma preserves_call {A} e (r : Result A) :
  (∀ h, I h → I (add_effect e h)) → preserves I (call e r).
Proof. intros Hf h. apply Hf. Qed.

Lemma preserves_bind {A B} (m : M A) (k : A → M B) :
  preserves I m → (∀ a, preserves I (k a)) → preserves I (bind m k).
Proof.
  intros Hm Hk h Hh. rewrite exec_bind.
  destruct (result m h); [apply Hk |]; by apply Hm.
Qed.

Lemma preserves_try_catch {A} (m : M A) handler :
  preserves I m → (∀ e, preserves I (handler e)) → preserves I (try_catch m handler).
Proof.
  intros Hm Hk h Hh. rewrite exec_try_catch.
  destruct (result m h); [| apply Hk]; by apply Hm.
Qed.

Lemma preserves_for_of {A} (l : list A) body :
  (∀ x, preserves I (body x)) → preserves I (for_of l body).
Proof.
  intros Hb. induction l as [|x l IH]; simpl.
  - apply preserves_ret.
  - apply preserves_bind; [apply Hb | by intros _].
Qed.

Lemma preserves_when b m : preserves I m → preserves I (when b m).
Proof. intros Hm. destruct b; [done | apply preserves_ret]. Qed.
End Preserves.

Create HintDb hub_methods.

#[export] Hint Unfold
  fs_write fs_readFile getMcpSettingsFilePath findConnection assign
  setNotificationCallback clearNotificationCallback getPendingNotifications
  removeAllFileWatchers setupFileWatcher readAndValidateMcpSettingsFile
  notifyWebviewOfServerChanges sendLatestMcpServers getLatestMcpServersRPC
  transport_onerror transport_onclose stderr_on_data notificationHandler
  fetchToolsList fetchResourcesList fetchResourceTemplatesList openTransport
  connectToServer deleteConnection deleteRemovedServers updateOrAddServer
  updateServerConnectionsRPC updateServerConnections restartConnectionRPC
  restartConnection toggleServerDisabledRPC client_request_of readResource
  callTool writeAutoApprove toggleToolAutoApproveRPC toggleToolAutoApprove
  addRemoteServer deleteServerRPC updateServerTimeoutRPC dispose
  initializeMcpServers watchMcpSettingsFile onSettingsFileChanged : hub_methods.

(** A method keeps an invariant when each assignment to the hub's fields
    does: [leaf] proves it of one assignment. *)
Ltac preserves_with leaf :=
  repeat lazymatch goal with
  | |- preserves _ (ret _) => apply preserves_ret
  | |- preserves _ (throw _) => apply preserves_throw
  | |- preserves _ (lift _) => apply preserves_lift
  | |- preserves _ get => apply preserves_get
  | |- preserves _ (bind _ _) => apply preserves_bind; [| intros ?]
  | |- preserves _ (try_catch _ _) => apply preserves_try_catch; [| intros ?]
  | |- preserves _ (for_of _ _) => apply preserves_for_of; intros ?
  | |- preserves _ (when _ _) => apply preserves_when
  | |- preserves _ (modify _) => apply preserves_modify; leaf
  | |- preserves _ (perform _) => apply preserves_perform; leaf
  | |- preserves _ (call _ _) => apply preserves_call; leaf
  | |- preserves _ (match ?x with _ => _ end) => destruct x eqn:?
  | |- preserves _ (if ?b then _ else _) => destruct b eqn:?
  | |- preserves _ _ => progress autounfold with hub_methods
  end.

(** *** The log of effects only grows *)

Ltac logged_leaf :=
  intros ? ?; simpl; try (apply elem_of_app; left); assumption.

Lemma deleteConnection_logged w name e :
  preserves (λ h, e ∈ effects h) (deleteConnection w name).
Proof. preserves_with logged_leaf. Qed.

Lemma connectToServer_logged w name config source e :
  preserves (λ h, e ∈ effects h) (connectToServer w name config source).
Proof. preserves_with logged_leaf. Qed.

Lemma updateServerConnections_logged w newServers e :
  preserves (λ h, e ∈ effects h) (updateServerConnections w newServers).
Proof. preserves_with logged_leaf. Qed.

(** *** Disabled connections hold no client and no transport *)

Lemma Forall_update_found (P : McpConnection → Prop) name f conns :
  (∀ conn, P conn → P (f conn)) → Forall P conns → Forall P (update_found name f conns).
Proof.
  intros Hf. induction 1 as [|c conns Hc Hconns IH]; simpl; [done |].
  case_bool_decide; constructor; auto.
Qed.

Lemma Forall_without (P : McpConnection → Prop) name conns :
  Forall P conns → Forall P (without name conns).
Proof.
  rewrite !Forall_forall. intros H c Hc. apply H.
  unfold without in Hc. apply list_elem_of_filter in Hc. tauto.
Qed.

Lemma disabled_ok_fields conn conn' :
  server_disabled (server conn') = server_disabled (server conn) →
  client conn' = client conn → transport conn' = transport conn →
  disabled_ok conn → disabled_ok conn'.
Proof. unfold disabled_ok. intros -> -> ->. done. Qed.

Ltac disabled_leaf :=
  let h := fresh "h" in
  let Hh := fresh "Hh" in
  intros h Hh; unfold disabled_inv in *; simpl;
  first
    [ exact Hh
    | by constructor
    | apply Forall_without; exact Hh
    | apply Forall_update_found; [| exact Hh];
      let c := fresh "c" in intros c; by apply disabled_ok_fields
    | apply Forall_app; split; [exact Hh |];
      apply Forall_singleton; unfold disabled_ok; simpl;
      first [ by intros | intros; congruence ] ].

Lemma connectToServer_disabled_inv w name config source :
  preserves disabled_inv (connectToServer w name config source).
Proof. preserves_with disabled_leaf. Qed.

Lemma deleteConnection_disabled_inv w name :
  preserves disabled_inv (deleteConnection w name).
Proof. preserves_with disabled_leaf. Qed.

Lemma updateServerConnections_disabled_inv w newServers :
  preserves disabled_inv (updateServerConnections w newServers).
Proof. preserves_with disabled_leaf. Qed.

Lemma updateServerConnectionsRPC_disabled_inv w newServers :
  preserves disabled_inv (updateServerConnectionsRPC w newServers).
Proof. preserves_with disabled_leaf. Qed.

Lemma restartConnection_disabled_inv w name :
  preserves disabled_inv (restartConnection w name).
Proof. preserves_with disabled_leaf. Qed.

Lemma addRemoteServer_disabled_inv w name url :
  preserves disabled_inv (addRemoteServer w name url).
Proof. preserves_with disabled_leaf. Qed.

(** ** What the methods compute *)

Lemma steady_refl h : steady h h.
Proof. done. Qed.

Lemma steady_trans h1 h2 h3 : steady h1 h2 → steady h2 h3 → steady h1 h3.
Proof. unfold steady. intros (-> & -> & ->) (-> & -> & ->). done. Qed.

Ltac run_monad :=
  unfold exec, result, bind, try_catch, ret, throw, get, modify, perform, call, lift, when; simpl.

Lemma getMcpSettingsFilePath_run h :
  ∃ h', getMcpSettingsFilePath h = (Ok tt, h') ∧ steady h h' ∧
        settingsFile h' = Some (ensure (settingsFile h)).
Proof.
  unfold getMcpSettingsFilePath, fs_write. run_monad.
  destruct (settingsFile h) eqn:Hf; eexists; (split; [reflexivity |]); unfold steady; simpl;
    rewrite ?Hf; done.
Qed.

Lemma readAndValidateMcpSettingsFile_run w h :
  ∃ h', readAndValidateMcpSettingsFile w h = (Ok (validated w (settingsFile h)), h') ∧
        steady h h' ∧ settingsFile h' = Some (ensure (settingsFile h)).
Proof.
  unfold readAndValidateMcpSettingsFile, validated.
  destruct (getMcpSettingsFilePath_run h) as (h1 & Hrun & Hst & Hfile).
  unfold try_catch, bind at 1. rewrite Hrun.
  unfold fs_readFile. run_monad. rewrite Hfile.
  destruct (ensure (settingsFile h)) as [|text] eqn:He; simpl.
  - eexists; split; [reflexivity |]. destruct Hst as (? & ? & ?). unfold steady. simpl.
    by rewrite Hfile.
  - destruct (McpSettingsSchema_safeParse w (JSON_parse text)); simpl;
      (eexists; split; [reflexivity |]); destruct Hst as (? & ? & ?); unfold steady; simpl;
      by rewrite ?Hfile.
Qed.

Lemma openTransport_run w name config h :
  ∃ h', openTransport w name config h = (opened w name config, h') ∧ steady h h'.
Proof.
  unfold openTransport, opened.
  repeat case_bool_decide; run_monad.
  - destruct (on_transport_start w name) as [[]|e]; eexists; split; reflexivity || done.
  - destruct (new_URL w (cfg_url config)) as [[]|e]; eexists; split; reflexivity || done.
  - destruct (new_URL w (cfg_url config)) as [[]|e]; eexists; split; reflexivity || done.
  - eexists; split; reflexivity || done.
Qed.

Section Fetch.
Context (w : World) (name : string) (h : McpHub) (conn : McpConnection).
Hypothesis Hfind : find_connection name (connections h) = Some conn.
Hypothesis Henabled : truthy_bool (server_disabled (server conn)) = false.
Hypothesis Hclient : is_Some (client conn).

Lemma fetchToolsList_run :
  ∃ h', fetchToolsList w name h = (Ok (fetched_tools w (settingsFile h) name), h') ∧ steady h h'.
Proof.
  unfold fetchToolsList, fetched_tools. unfold try_catch, bind at 1, get. rewrite Hfind, Henabled.
  rewrite bool_decide_true by done. simpl.
  unfold bind at 1, call.
  destruct (on_client_request w name tools_list) as [response|e].
  - set (h1 := add_effect _ h).
    destruct (getMcpSettingsFilePath_run h1) as (h2 & Hrun & Hst & Hfile).
    unfold bind at 1. rewrite Hrun.
    unfold fs_readFile. run_monad. rewrite Hfile. subst h1. simpl.
    destruct (ensure (settingsFile h)) as [|text]; simpl.
    + eexists; split; [reflexivity |]. unfold steady in *. simpl. done.
    + destruct (mcpServers (JSON_parse text)); simpl;
        (eexists; split; [reflexivity |]); unfold steady in *; simpl; done.
  - run_monad. eexists; split; [reflexivity |]. done.
Qed.

Lemma fetchResourcesList_run :
  ∃ h', fetchResourcesList w name h = (Ok (fetched_resources w name), h') ∧ steady h h'.
Proof.
  unfold fetchResourcesList, fetched_resources. run_monad. rewrite Hfind, Henabled.
  rewrite bool_decide_true by done. simpl.
  destruct (on_client_request w name resources_list); eexists; split; reflexivity || done.
Qed.

Lemma fetchResourceTemplatesList_run :
  ∃ h', fetchResourceTemplatesList w name h = (Ok (fetched_resourceTemplates w name), h') ∧ steady h h'.
Proof.
  unfold fetchResourceTemplatesList, fetched_resourceTemplates. run_monad. rewrite Hfind, Henabled.
  rewrite bool_decide_true by done. simpl.
  destruct (on_client_request w name resources_templates_list); eexists; split; reflexivity || done.
Qed.
End Fetch.

Lemma bind_run {A B} (m : M A) (k : A → M B) h a h1 :
  m h = (Ok a, h1) → bind m k h = k a h1.
Proof. unfold bind. by intros ->. Qed.

Lemma bind_run_throw {A B} (m : M A) (k : A → M B) h e h1 :
  m h = (Throw e, h1) → bind m k h = (Throw e, h1).
Proof. unfold bind. by intros ->. Qed.

Lemma try_catch_run {A} (m : M A) handler h a h1 :
  m h = (Ok a, h1) → try_catch m handler h = (Ok a, h1).
Proof. unfold try_catch. by intros ->. Qed.

Lemma try_catch_run_throw {A} (m : M A) handler h e h1 :
  m h = (Throw e, h1) → try_catch m handler h = handler e h1.
Proof. unfold try_catch. by intros ->. Qed.

Lemma fetched_tools_ensure w file file' name :
  ensure file = ensure file' → fetched_tools w file name = fetched_tools w file' name.
Proof. unfold fetched_tools. by intros ->. Qed.

Lemma connect_outcome_ensure w version file file' name config :
  ensure file = ensure file' →
  connect_outcome w version file name config = connect_outcome w version file' name config.
Proof.
  intros He. unfold connect_outcome, connectedConnection.
  by rewrite (fetched_tools_ensure _ _ _ _ He).
Qed.

Lemma connect_outcome_name w version file name config conn :
  connect_outcome w version file name config = Some conn → conn_name conn = name.
Proof.
  unfold connect_outcome. destruct (truthy_bool _); [by intros [= <-] |].
  destruct (opened _ _ _); [| done]. destruct (on_client_connect _ _); by intros [= <-].
Qed.

Lemma connectToServer_run w name config source h :
  ∃ h', connectToServer w name config source h = (connect_result w name config, h') ∧
        connections h' =
          without name (connections h) ++
          option_list (connect_outcome w (clientVersion h) (settingsFile h) name config) ∧
        clientVersion h' = clientVersion h ∧
        ensure (settingsFile h') = ensure (settingsFile h).
Proof.
  unfold connectToServer, connect_result, connect_outcome.
  unfold bind at 1, modify at 1.
  assert (Hfresh : ∀ c, c ∈ without name (connections h) → conn_name c ≠ name)
    by (intros c; apply without_fresh).
  destruct (truthy_bool (cfg_disabled config)) eqn:Hdis.
  { eexists. split; [reflexivity |]. done. }
  unfold try_catch, bind at 1, get.
  destruct (openTransport_run w name config (set_connections (without name) h))
    as (h1 & Hopen & Hc1 & Hv1 & Hf1).
  simpl in Hc1, Hv1, Hf1.
  unfold bind at 1. rewrite Hopen.
  destruct (opened w name config) as [t|e].
  2: { unfold findConnection. run_monad. rewrite Hc1.
       rewrite (proj2 (find_connection_None name _)) by done.
       eexists. split; [reflexivity |]. simpl. rewrite Hc1, app_nil_r. done. }
  unfold bind at 1, modify at 1. simpl clientVersion.
  set (nc := newConnection (clientVersion h) name config t).
  unfold bind at 1, call at 1.
  destruct (on_client_connect w name) as [[]|e].
  2: { unfold findConnection. run_monad. rewrite Hc1.
       rewrite find_connection_fresh by done. run_monad.
       eexists. split; [reflexivity |]. simpl. rewrite Hc1.
       rewrite update_found_fresh by done. done. }
  unfold bind at 1, assign at 1, modify at 1.
  set (c1 := with_error (Some EmptyString) (with_status connected nc)).
  match goal with |- context [bind (fetchToolsList w name) _ ?hx] => set (h3 := hx) end.
  assert (Hc3 : connections h3 = without name (connections h) ++ [c1]).
  { subst h3. simpl. rewrite Hc1. by rewrite update_found_fresh. }
  assert (Hv3 : clientVersion h3 = clientVersion h) by done.
  assert (Hf3 : ensure (settingsFile h3) = ensure (settingsFile h)) by done.
  clearbody h3.
  destruct (fetchToolsList_run w name h3 c1) as (h4 & Htools & Hc4 & Hv4 & Hf4).
  { rewrite Hc3. by apply find_connection_fresh. }
  { done. }
  { done. }
  rewrite (bind_run _ _ _ _ _ Htools).
  unfold bind at 1, assign at 1, modify at 1.
  set (c2 := with_tools (Some (fetched_tools w (settingsFile h3) name)) c1).
  match goal with |- context [bind (fetchResourcesList w name) _ ?hx] => set (h5 := hx) end.
  assert (Hc5 : connections h5 = without name (connections h) ++ [c2]).
  { subst h5. simpl. rewrite Hc4, Hc3. by rewrite update_found_fresh. }
  assert (Hv5 : clientVersion h5 = clientVersion h) by (subst h5; simpl; congruence).
  assert (Hf5 : ensure (settingsFile h5) = ensure (settingsFile h)) by (subst h5; simpl; congruence).
  clearbody h5.
  destruct (fetchResourcesList_run w name h5 c2) as (h6 & Hres & Hc6 & Hv6 & Hf6).
  { rewrite Hc5. by apply find_connection_fresh. }
  { done. }
  { done. }
  rewrite (bind_run _ _ _ _ _ Hres).
  unfold bind at 1, assign at 1, modify at 1.
  set (c3 := with_resources (Some (fetched_resources w name)) c2).
  match goal with |- context [bind (fetchResourceTemplatesList w name) _ ?hx] => set (h7 := hx) end.
  assert (Hc7 : connections h7 = without name (connections h) ++ [c3]).
  { subst h7. simpl. rewrite Hc6, Hc5. by rewrite update_found_fresh. }
  assert (Hv7 : clientVersion h7 = clientVersion h) by (subst h7; simpl; congruence).
  assert (Hf7 : ensure (settingsFile h7) = ensure (settingsFile h)) by (subst h7; simpl; congruence).
  clearbody h7.
  destruct (fetchResourceTemplatesList_run w name h7 c3) as (h8 & Htpl & Hc8 & Hv8 & Hf8).
  { rewrite Hc7. by apply find_connection_fresh. }
  { done. }
  { done. }
  rewrite (bind_run _ _ _ _ _ Htpl).
  unfold assign, modify.
  eexists. split; [reflexivity |]. simpl.
  rewrite Hc8, Hc7, update_found_fresh by done.
  split; [| split; congruence].
  do 2 f_equal. subst c3 c2 c1 nc. unfold connectedConnection.
  by rewrite (fetched_tools_ensure w _ _ name Hf3).
Qed.

Lemma deleteConnection_run w name h :
  ∃ h', deleteConnection w name h = (Ok tt, h') ∧
        connections h' = without name (connections h) ∧
        clientVersion h' = clientVersion h ∧
        settingsFile h' = settingsFile h ∧
        effects h' = effects h ++
          from_option (closing w name) [] (find_connection name (connections h)).
Proof.
  unfold deleteConnection. unfold bind at 1, get.
  destruct (find_connection name (connections h)) as [conn|] eqn:Hfind.
  2: { eexists. split; [reflexivity |]. simpl. rewrite app_nil_r.
       pose proof (proj1 (find_connection_None _ _) Hfind). by rewrite without_id. }
  unfold closing, closing_client, closeFailed. run_monad.
  destruct (transport conn), (client conn); simpl;
    repeat match goal with
    | |- context [on_transport_close w name] => destruct (on_transport_close w name) as [[]|?]
    | |- context [on_client_close w name] => destruct (on_client_close w name) as [[]|?]
    end; simpl;
    (eexists; split; [reflexivity |]); simpl; rewrite <- ?app_assoc, ?app_nil_r; done.
Qed.

(** ** The reconciliation pass *)

Lemma elem_of_Set_of x l : x ∈ Set_of l ↔ x ∈ l.
Proof.
  induction l as [|y l IH]; simpl; [done |].
  rewrite !elem_of_cons, list_elem_of_filter, IH.
  destruct (decide (x = y)); tauto.
Qed.

Lemma removeAllFileWatchers_run h :
  ∃ h', removeAllFileWatchers h = (Ok tt, h') ∧ steady h h' ∧
        settingsFile h' = settingsFile h ∧
        effects h' = effects h ++ (watcher_close <$> Object_keys (fileWatchers h)).
Proof.
  unfold removeAllFileWatchers. unfold bind at 1, get.
  assert (Hloop : ∀ (l : Object string) h0,
    ∃ h1, for_of l (λ watcher, perform (watcher_close watcher.1)) h0 = (Ok tt, h1) ∧
          steady h0 h1 ∧ settingsFile h1 = settingsFile h0 ∧
          effects h1 = effects h0 ++ (watcher_close <$> Object_keys l)).
  { induction l as [|[k v] l IH]; intros h0; simpl.
    - eexists. split; [reflexivity |]. by rewrite app_nil_r.
    - destruct (IH (add_effect (watcher_close k) h0)) as (h1 & Hrun & Hst & Hf & He).
      rewrite (bind_run _ _ _ tt (add_effect (watcher_close k) h0)) by done. rewrite Hrun.
      eexists. split; [reflexivity |]. unfold steady in *. simpl in *.
      rewrite He, <- app_assoc. done. }
  destruct (Hloop (fileWatchers h) h) as (h1 & Hrun & Hst & Hf & He).
  rewrite (bind_run _ _ _ _ _ Hrun). unfold modify.
  eexists. split; [reflexivity |]. done.
Qed.

Lemma setupFileWatcher_run name config h :
  ∃ h', setupFileWatcher name config h = (Ok tt, h') ∧ steady h h' ∧
        settingsFile h' = settingsFile h ∧
        ∃ added, effects h' = effects h ++ added ∧
                 ∀ e, e ∈ added → ∃ filePath, e = chokidar_watch name filePath.
Proof.
  unfold setupFileWatcher.
  destruct (List.find _ _) as [filePath|]; [case_bool_decide |]; run_monad;
    (eexists; split; [reflexivity |]); (split; [done |]); (split; [done |]).
  - exists []. rewrite app_nil_r. split; [done |]. by intros e ?%elem_of_nil.
  - eexists. split; [reflexivity |]. intros e ->%list_elem_of_singleton. eauto.
  - exists []. rewrite app_nil_r. split; [done |]. by intros e ?%elem_of_nil.
Qed.

(** The registry entry of a desired server after the pass: a new server is
    connected, a server whose configuration changed is reconnected, one
    whose configuration is the same is kept. *)
Lemma updateOrAddServer_run w source name config h :
  ∃ h', updateOrAddServer w source (name, config) h = (Ok tt, h') ∧
        connections h' =
          match find_connection name (connections h) with
          | Some conn =>
              if deepEqual (JSON_parse (server_config (server conn))) config
              then connections h
              else without name (connections h) ++
                   option_list (connect_outcome w (clientVersion h) (settingsFile h) name config)
          | None =>
              without name (connections h) ++
              option_list (connect_outcome w (clientVersion h) (settingsFile h) name config)
          end ∧
        clientVersion h' = clientVersion h ∧
        ensure (settingsFile h') = ensure (settingsFile h) ∧
        (∀ conn e, find_connection name (connections h) = Some conn →
           deepEqual (JSON_parse (server_config (server conn))) config = false →
           e ∈ closing w name conn → e ∈ effects h').
Proof.
  unfold updateOrAddServer. unfold bind at 1, get.
  assert (Hwatch : ∀ h0, ∃ h1,
    when (bool_decide (cfg_type config = Some "stdio")) (setupFileWatcher name config) h0 = (Ok tt, h1) ∧
    steady h0 h1 ∧ settingsFile h1 = settingsFile h0 ∧ ∀ e, e ∈ effects h0 → e ∈ effects h1).
  { intros h0. unfold when. case_bool_decide.
    - destruct (setupFileWatcher_run name config h0) as (h1 & Hrun & Hst & Hf & added & He & _).
      exists h1. repeat split; try done; try apply Hst. intros e He'. rewrite He. apply elem_of_app. by left.
    - exists h0. done. }
  destruct (find_connection name (connections h)) as [conn|] eqn:Hfind.
  - destruct (deepEqual _ _) eqn:Heq; simpl.
    { eexists. split; [reflexivity |]. repeat split; try done.
      intros conn' e [= <-]. congruence. }
    destruct (Hwatch h) as (h1 & Hrun1 & (Hc1 & Hv1 & Hf1) & Hs1 & He1).
    destruct (deleteConnection_run w name h1) as (h2 & Hrun2 & Hc2 & Hv2 & Hf2 & He2).
    destruct (connectToServer_run w name config source h2) as (h3 & Hrun3 & Hc3 & Hv3 & Hf3).
    assert (Hclosed : ∀ e, e ∈ closing w name conn → e ∈ effects h3).
    { intros e He.
      pose proof (connectToServer_logged w name config source e h2) as Hl.
      unfold exec in Hl. rewrite Hrun3 in Hl. apply Hl.
      rewrite He2, Hc1, Hfind. simpl. apply elem_of_app. by right. }
    unfold try_catch.
    rewrite (bind_run _ _ _ _ _ Hrun1), (bind_run _ _ _ _ _ Hrun2), Hrun3.
    rewrite Hc2, Hc1, without_idemp, Hv2, Hv1, Hf2, Hs1 in Hc3.
    destruct (connect_result w name config) as [[]|e].
    + eexists. split; [reflexivity |]. repeat split; try done; try congruence.
      intros conn' e [= <-] _. apply Hclosed.
    + unfold perform, modify. eexists. split; [reflexivity |]. simpl.
      repeat split; try done; try congruence.
      intros conn' e' [= <-] _ He'. apply elem_of_app. left. by apply Hclosed.
  - destruct (Hwatch h) as (h1 & Hrun1 & (Hc1 & Hv1 & Hf1) & Hs1 & He1).
    destruct (connectToServer_run w name config source h1) as (h3 & Hrun3 & Hc3 & Hv3 & Hf3).
    unfold try_catch.
    rewrite (bind_run _ _ _ _ _ Hrun1), Hrun3.
    rewrite Hc1, Hv1, Hs1 in Hc3.
    destruct (connect_result w name config) as [[]|e].
    + eexists. split; [reflexivity |]. repeat split; try done; congruence.
    + unfold perform, modify. eexists. split; [reflexivity |]. simpl.
      repeat split; try done; congruence.
Qed.

Lemma only_option_list_ne name name' (o : option McpConnection) :
  name ≠ name' → (∀ conn, o = Some conn → conn_name conn = name') →
  only name (option_list o) = [].
Proof.
  intros Hne Ho. destruct o as [conn|]; [| done]. simpl.
  apply only_singleton_ne. rewrite (Ho conn); done.
Qed.

Lemma find_connection_without_app name conns (o : option McpConnection) :
  (∀ conn, o = Some conn → conn_name conn = name) →
  find_connection name (without name conns ++ option_list o) = o.
Proof.
  intros Ho. rewrite find_connection_only, only_app, only_without_eq. simpl.
  destruct o as [conn|]; [| done]. simpl. rewrite only_singleton_eq; [done | by apply Ho].
Qed.

Lemma for_of_logged {A} (l : list A) (body : A → M unit) e :
  (∀ x, preserves (λ h, e ∈ effects h) (body x)) →
  preserves (λ h, e ∈ effects h) (for_of l body).
Proof. apply preserves_for_of. Qed.

Lemma updateOrAddServer_logged w source entry e :
  preserves (λ h, e ∈ effects h) (updateOrAddServer w source entry).
Proof. destruct entry. preserves_with logged_leaf. Qed.

(** The second loop of a pass, over the entries of the desired servers. *)
Lemma updateOrAddServers_run w source (entries : Object McpServerConfig) :
  NoDup (Object_keys entries) →
  ∀ h, ∃ h',
    for_of entries (updateOrAddServer w source) h = (Ok tt, h') ∧
    clientVersion h' = clientVersion h ∧
    ensure (settingsFile h') = ensure (settingsFile h) ∧
    (∀ name, name ∉ Object_keys entries →
       only name (connections h') = only name (connections h)) ∧
    (∀ name config, (name, config) ∈ entries →
       find_connection name (connections h') =
         reconciled w (clientVersion h) (settingsFile h) name config
           (find_connection name (connections h)) ∧
       (∀ conn e, find_connection name (connections h) = Some conn →
          deepEqual (JSON_parse (server_config (server conn))) config = false →
          e ∈ closing w name conn → e ∈ effects h')).
Proof.
  unfold Object_keys.
  induction entries as [|[n cfg] entries IH]; intros Hnodup h.
  { exists h. split; [done |]. split; [done |]. split; [done |]. split; [done |].
    by intros name config ?%elem_of_nil. }
  apply NoDup_cons in Hnodup as [Hn Hnodup]. simpl in Hn.
  destruct (updateOrAddServer_run w source n cfg h) as (h1 & Hrun1 & Hc1 & Hv1 & Hf1 & He1).
  destruct (IH Hnodup h1) as (h2 & Hrun2 & Hv2 & Hf2 & Hframe & Hentries).
  assert (Hother : ∀ name, name ≠ n → only name (connections h1) = only name (connections h)).
  { intros name Hne. rewrite Hc1.
    destruct (find_connection n (connections h)) as [conn|];
      [destruct (deepEqual _ _); [done |] |];
      rewrite only_app, only_without_ne, (only_option_list_ne name n), app_nil_r;
        eauto using connect_outcome_name. }
  exists h2. simpl. rewrite (bind_run _ _ _ _ _ Hrun1).
  split; [done |]. split; [congruence |]. split; [congruence |]. split.
  - intros name Hname. apply not_elem_of_cons in Hname as [Hne Hname].
    rewrite Hframe by done. by apply Hother.
  - intros name config Hin. apply elem_of_cons in Hin as [[= -> ->] | Hin].
    + split.
      * rewrite find_connection_only, Hframe, <- find_connection_only by done.
        rewrite Hc1. unfold reconciled.
        destruct (find_connection n (connections h)) as [conn|] eqn:Hfind;
          [destruct (deepEqual _ _); [done |] |];
          apply find_connection_without_app; eauto using connect_outcome_name.
      * intros conn e Hfind Hneq He.
        pose proof (for_of_logged entries (updateOrAddServer w source) e
                      (λ x, updateOrAddServer_logged w source x e) h1) as Hl.
        unfold exec in Hl. rewrite Hrun2 in Hl. apply Hl. eauto.
    + assert (Hne : name ≠ n).
      { intros ->. apply Hn. apply list_elem_of_fmap. by exists (n, config). }
      destruct (Hentries name config Hin) as [Hfind Hclose].
      assert (Hsame : find_connection name (connections h1) = find_connection name (connections h)).
      { rewrite !find_connection_only. by rewrite Hother. }
      rewrite Hsame in Hfind, Hclose. split; [| done].
      rewrite Hfind, Hv1. unfold reconciled.
      by rewrite (connect_outcome_ensure w _ _ _ name config Hf1).
Qed.

(** The first loop of a pass: the connections of the servers that are no
    longer desired are deleted. *)
Lemma deleteRemovedServers_run w (newServers : Object McpServerConfig) h :
  ∃ h', deleteRemovedServers w newServers h = (Ok tt, h') ∧
        connections h' =
          filter (λ conn, conn_name conn ∈ Object_keys newServers) (connections h) ∧
        clientVersion h' = clientVersion h ∧
        settingsFile h' = settingsFile h.
Proof.
  unfold deleteRemovedServers. unfold bind at 1, get.
  set (newNames := Set_of (Object_keys newServers)).
  assert (Hloop : ∀ (names : list string) h0, ∃ h1,
    for_of names (λ name, if negb (includes newNames name)
                          then deleteConnection w name else ret tt) h0 = (Ok tt, h1) ∧
    connections h1 =
      filter (λ conn, conn_name conn ∈ names → conn_name conn ∈ Object_keys newServers)
        (connections h0) ∧
    clientVersion h1 = clientVersion h0 ∧ settingsFile h1 = settingsFile h0).
  { induction names as [|name names IH]; intros h0; simpl.
    - exists h0. split; [done |]. split; [| done].
      symmetry. apply filter_all. by intros c _ ?%elem_of_nil.
    - assert (Hbody : ∃ h1,
        (if negb (includes newNames name) then deleteConnection w name else ret tt) h0 = (Ok tt, h1) ∧
        connections h1 =
          filter (λ conn, conn_name conn = name → conn_name conn ∈ Object_keys newServers)
            (connections h0) ∧
        clientVersion h1 = clientVersion h0 ∧ settingsFile h1 = settingsFile h0).
      { unfold includes. case_bool_decide as Hin; simpl.
        - exists h0. split; [done |]. split; [| done].
          symmetry. apply filter_all. intros c _ Hc. rewrite Hc.
          by apply (elem_of_Set_of name (Object_keys newServers)).
        - destruct (deleteConnection_run w name h0) as (h1 & Hrun & Hc & Hv & Hf & _).
          exists h1. split; [done |]. split; [| done]. rewrite Hc. unfold without.
          apply list_filter_iff. intros c. split; [done |].
          intros Hc' Hn. apply Hin. apply (elem_of_Set_of name (Object_keys newServers)).
          rewrite <- Hn. by apply Hc'. }
      destruct Hbody as (h1 & Hrun1 & Hc1 & Hv1 & Hf1).
      destruct (IH h1) as (h2 & Hrun2 & Hc2 & Hv2 & Hf2).
      exists h2. rewrite (bind_run _ _ _ _ _ Hrun1). split; [done |].
      split; [| split; congruence]. rewrite Hc2, Hc1, list_filter_filter.
      apply list_filter_iff. intros c. rewrite elem_of_cons. tauto. }
  destruct (Hloop (Set_of (conn_name <$> connections h)) h) as (h1 & Hrun & Hc & Hv & Hf).
  exists h1. split; [done |]. split; [| done]. rewrite Hc.
  assert (Hall : ∀ c, c ∈ connections h → conn_name c ∈ Set_of (conn_name <$> connections h)).
  { intros c Hin. apply elem_of_Set_of, list_elem_of_fmap. eauto. }
  revert Hall. generalize (Set_of (conn_name <$> connections h)).
  generalize (connections h). clear. intros conns names.
  induction conns as [|c conns IH]; intros Hall; [done |].
  rewrite !filter_cons.
  assert (Hc' : conn_name c ∈ names) by (apply Hall; left).
  rewrite IH by (intros c' Hin; apply Hall; by right).
  destruct (decide (conn_name c ∈ Object_keys newServers)).
  - rewrite decide_True by done. done.
  - rewrite decide_False by tauto. done.
Qed.

Lemma notifyWebviewOfServerChanges_logged e :
  preserves (λ h, e ∈ effects h) notifyWebviewOfServerChanges.
Proof. preserves_with logged_leaf. Qed.

Lemma notifyWebviewOfServerChanges_run h :
  ∃ r h', notifyWebviewOfServerChanges h = (r, h') ∧ steady h h' ∧
          settingsFile h' = Some (ensure (settingsFile h)) ∧
          ∀ e, e ∈ effects h → e ∈ effects h'.
Proof.
  pose proof (λ e, notifyWebviewOfServerChanges_logged e h) as Hlog.
  unfold exec in Hlog. revert Hlog.
  unfold notifyWebviewOfServerChanges.
  destruct (getMcpSettingsFilePath_run h) as (h1 & Hrun & Hst & Hfile).
  rewrite (bind_run _ _ _ _ _ Hrun).
  unfold fs_readFile. run_monad. rewrite Hfile.
  destruct (ensure (settingsFile h)); simpl; intros Hlog;
    do 2 eexists; (split; [reflexivity |]); simpl; done.
Qed.

(** The registry after a reconciliation pass, one server at a time. *)
Lemma updateServerConnections_run w (newServers : Object McpServerConfig) h :
  NoDup (Object_keys newServers) →
  ∃ r h', updateServerConnections w newServers h = (r, h') ∧
    clientVersion h' = clientVersion h ∧
    ensure (settingsFile h') = ensure (settingsFile h) ∧
    (∀ name, name ∉ Object_keys newServers → find_connection name (connections h') = None) ∧
    (∀ name config, (name, config) ∈ newServers →
       find_connection name (connections h') =
         reconciled w (clientVersion h) (settingsFile h) name config
           (find_connection name (connections h)) ∧
       (∀ conn e, find_connection name (connections h) = Some conn →
          deepEqual (JSON_parse (server_config (server conn))) config = false →
          e ∈ closing w name conn → e ∈ effects h')).
Proof.
  intros Hnodup. unfold updateServerConnections.
  unfold bind at 1, modify at 1.
  destruct (removeAllFileWatchers_run (set_isConnecting true h))
    as (h1 & Hrun1 & (Hc1 & Hv1 & Hf1) & Hs1 & _).
  simpl in Hc1, Hv1, Hf1, Hs1.
  destruct (deleteRemovedServers_run w newServers h1) as (h2 & Hrun2 & Hc2 & Hv2 & Hs2).
  destruct (updateOrAddServers_run w internal newServers Hnodup h2)
    as (h3 & Hrun3 & Hv3 & Hf3 & Hframe & Hentries).
  destruct (notifyWebviewOfServerChanges_run h3) as (r & h4 & Hrun4 & (Hc4 & Hv4 & Hf4) & _ & Hlog4).
  rewrite (bind_run _ _ _ _ _ Hrun1), (bind_run _ _ _ _ _ Hrun2).
  unfold Object_entries. rewrite (bind_run _ _ _ _ _ Hrun3).
  assert (Hdeleted : ∀ name, name ∉ Object_keys newServers →
            find_connection name (connections h3) = None).
  { intros name Hname. rewrite find_connection_only, Hframe by done.
    rewrite <- find_connection_only, Hc2. apply find_connection_None.
    intros c Hc%list_elem_of_filter. intros <-. tauto. }
  assert (Hkept : ∀ name, name ∈ Object_keys newServers →
            find_connection name (connections h2) = find_connection name (connections h)).
  { intros name Hname. rewrite !find_connection_only, Hc2, Hc1. f_equal.
    unfold only. rewrite list_filter_filter. apply list_filter_iff.
    intros c. split; [tauto | intros Hc; split; [done | by rewrite Hc]]. }
  assert (Hgoal : ∀ hx, connections hx = connections h3 → clientVersion hx = clientVersion h3 →
            ensure (settingsFile hx) = ensure (settingsFile h3) →
            (∀ e, e ∈ effects h3 → e ∈ effects hx) →
    clientVersion hx = clientVersion h ∧
    ensure (settingsFile hx) = ensure (settingsFile h) ∧
    (∀ name, name ∉ Object_keys newServers → find_connection name (connections hx) = None) ∧
    (∀ name config, (name, config) ∈ newServers →
       find_connection name (connections hx) =
         reconciled w (clientVersion h) (settingsFile h) name config
           (find_connection name (connections h)) ∧
       (∀ conn e, find_connection name (connections h) = Some conn →
          deepEqual (JSON_parse (server_config (server conn))) config = false →
          e ∈ closing w name conn → e ∈ effects hx))).
  { intros hx Hcx Hvx Hfx Hlx. rewrite Hcx.
    split; [congruence |]. split; [rewrite Hfx, Hf3, Hs2; congruence |].
    split; [done |]. intros name config Hin.
    assert (Hname : name ∈ Object_keys newServers).
    { apply list_elem_of_fmap. by exists (name, config). }
    destruct (Hentries name config Hin) as [Hfind Hclose].
    rewrite (Hkept name Hname) in Hfind, Hclose. split.
    - rewrite Hfind, Hv2, Hv1. unfold reconciled.
      rewrite (connect_outcome_ensure w _ (settingsFile h2) (settingsFile h)); [done |].
      rewrite Hs2. done.
    - intros conn e ? ? ?. apply Hlx. eauto. }
  unfold bind. rewrite Hrun4. destruct r as [[]|e].
  - unfold modify. do 2 eexists. split; [reflexivity |]. apply Hgoal; simpl; done.
  - do 2 eexists. split; [reflexivity |]. apply Hgoal; done.
Qed.

(** ** Deleting connections *)

Lemma no_connection_nil (conns : list McpConnection) :
  (∀ name, find_connection name conns = None) → conns = [].
Proof.
  destruct conns as [|c conns]; [done |]. intros H. specialize (H (conn_name c)).
  unfold find_connection in H. simpl in H. by rewrite bool_decide_true in H.
Qed.

Lemma exec_run {A} (m : M A) h r h' : m h = (r, h') → exec m h = h'.
Proof. unfold exec. by intros ->. Qed.

Lemma result_run {A} (m : M A) h r h' : m h = (r, h') → result m h = r.
Proof. unfold result. by intros ->. Qed.

(** C3: reconciling an empty desired mapping leaves the registry empty,
    whatever the transports and clients answer when they are closed; and
    [deleteConnection] never throws, always removes the entry of the name
    and keeps the other entries, and logs the error of a [close()] that
    throws: of the transport's, or of the client's when the transport's
    did not throw. *)
Theorem reconcile_empty_removes_all (w : World) (h : McpHub) (name : string) :
  connections (exec (updateServerConnections w []) h) = [] ∧
  result (deleteConnection w name) h = Ok tt ∧
  find_connection name (connections (exec (deleteConnection w name) h)) = None ∧
  connections (exec (deleteConnection w name) h) = without name (connections h) ∧
  (∀ conn e,
     find_connection name (connections h) = Some conn →
     is_Some (transport conn) → on_transport_close w name = Throw e →
     effects (exec (deleteConnection w name) h) =
       effects h ++ [transport_close name; closeFailed name e]) ∧
  (∀ conn e,
     find_connection name (connections h) = Some conn →
     is_Some (client conn) →
     (is_Some (transport conn) → on_transport_close w name = Ok tt) →
     on_client_close w name = Throw e →
     closeFailed name e ∈ effects (exec (deleteConnection w name) h)).
Proof.
  split.
  { destruct (updateServerConnections_run w [] h) as (r & h' & Hrun & _ & _ & Hnone & _).
    { constructor. }
    rewrite (exec_run _ _ _ _ Hrun). apply no_connection_nil.
    intros n. apply Hnone. apply not_elem_of_nil. }
  destruct (deleteConnection_run w name h) as (h' & Hrun & Hc & _ & _ & He).
  rewrite (exec_run _ _ _ _ Hrun), (result_run _ _ _ _ Hrun).
  split; [done |]. split.
  { rewrite Hc. apply find_connection_None. apply without_fresh. }
  split; [done |]. split.
  - intros conn e Hfind [t Ht] Hclose. rewrite He, Hfind. simpl.
    unfold closing. by rewrite Ht, Hclose.
  - intros conn e Hfind [c Hcl] Htransport Hclose. rewrite He, Hfind. simpl.
    apply elem_of_app. right. unfold closing, closing_client. rewrite Hcl, Hclose.
    destruct (transport conn) as [t|].
    + rewrite Htransport by done. set_solver.
    + set_solver.
Qed.

(** ** The invocation interface *)

(** C5: [readResource] and [callTool] throw their not-found error for a
    name without registry entry and their disabled error for an entry that
    is disabled, and leave the hub as it is: nothing is sent to a server,
    no effect at all is performed. *)
Theorem invocation_is_guarded (w : World) (serverName uri toolName : string)
    (toolArguments : option (Object string)) (h : McpHub) :
  (find_connection serverName (connections h) = None →
     readResource w serverName uri h =
       (Throw ("No connection found for server: " +:+ serverName), h) ∧
     callTool w serverName toolName toolArguments h =
       (Throw ("No connection found for server: " +:+ serverName +:+
               ". Please make sure to use MCP servers available under 'Connected MCP Servers'."), h)) ∧
  (∀ conn, find_connection serverName (connections h) = Some conn →
     server_disabled (server conn) = Some true →
     readResource w serverName uri h =
       (Throw ("Server " +:+ quoted serverName +:+ " is disabled"), h) ∧
     callTool w serverName toolName toolArguments h =
       (Throw ("Server " +:+ quoted serverName +:+ " is disabled and cannot be used"), h)).
Proof.
  split.
  - intros Hfind. unfold readResource, callTool, bind, get, throw. by rewrite Hfind.
  - intros conn Hfind Hdis. unfold readResource, callTool, bind, get, throw.
    by rewrite Hfind, Hdis.
Qed.

(** ** Discovery *)



(** ** Reconciliation *)

Lemma for_of_skip {A} (l : list A) (body : A → M unit) h :
  (∀ x, x ∈ l → body x h = (Ok tt, h)) → for_of l body h = (Ok tt, h).
Proof.
  induction l as [|x l IH]; intros Hbody; simpl; [done |].
  rewrite (bind_run _ _ _ tt h) by (apply Hbody; left).
  apply IH. intros y Hy. apply Hbody. by right.
Qed.

(** *** What a pass adds to the log *)

Ltac grown_leaf :=
  idtac;
  let h := fresh "h" in
  let k := fresh "k" in
  let Hk := fresh "Hk" in
  intros h [k Hk]; simpl;
  first
    [ by exists k
    | eexists (k ++ [_]); rewrite Hk, <- app_assoc; reflexivity ].

Lemma connectToServer_grown w name config source log :
  preserves (λ h, log `prefix_of` effects h) (connectToServer w name config source).
Proof. preserves_with grown_leaf. Qed.

Lemma updateOrAddServer_grown w source entry log :
  preserves (λ h, log `prefix_of` effects h) (updateOrAddServer w source entry).
Proof. destruct entry. preserves_with grown_leaf. Qed.

Lemma updateOrAddServers_grown w source (entries : Object McpServerConfig) log :
  preserves (λ h, log `prefix_of` effects h) (for_of entries (updateOrAddServer w source)).
Proof. apply preserves_for_of. intros x. apply updateOrAddServer_grown. Qed.

Lemma deleteRemovedServers_grown w newServers log :
  preserves (λ h, log `prefix_of` effects h) (deleteRemovedServers w newServers).
Proof. preserves_with grown_leaf. Qed.

Lemma notifyWebviewOfServerChanges_grown log :
  preserves (λ h, log `prefix_of` effects h) notifyWebviewOfServerChanges.
Proof. preserves_with grown_leaf. Qed.

Lemma happened_since_before log seg h h' :
  log `prefix_of` effects h → happened_since (effects h) seg h' → happened_since log seg h'.
Proof.
  intros [k Hk] (before & after & He). exists (k ++ before), after.
  by rewrite He, Hk, <- !app_assoc.
Qed.

Lemma happened_since_after log seg h h' :
  happened_since log seg h → effects h `prefix_of` effects h' → happened_since log seg h'.
Proof.
  intros (before & after & He) [k Hk]. exists before, (after ++ k).
  by rewrite Hk, He, <- !app_assoc.
Qed.

Lemma updateOrAddServer_closing w source name config h conn :
  find_connection name (connections h) = Some conn →
  deepEqual (JSON_parse (server_config (server conn))) config = false →
  happened_since (effects h) (closing w name conn)
    (exec (updateOrAddServer w source (name, config)) h).
Proof.
  intros Hfind Hneq. unfold updateOrAddServer, exec. unfold bind at 1, get.
  rewrite Hfind, Hneq. cbn [negb].
  assert (Hwatch : ∃ h1 added,
    when (bool_decide (cfg_type config = Some "stdio")) (setupFileWatcher name config) h =
      (Ok tt, h1) ∧
    connections h1 = connections h ∧ effects h1 = effects h ++ added).
  { unfold when. case_bool_decide.
    - destruct (setupFileWatcher_run name config h) as (h1 & Hrun & (Hc & _) & _ & added & He & _).
      by exists h1, added.
    - exists h, []. by rewrite app_nil_r. }
  destruct Hwatch as (h1 & added & Hrun1 & Hc1 & He1).
  destruct (deleteConnection_run w name h1) as (h2 & Hrun2 & _ & _ & _ & He2).
  rewrite Hc1, Hfind in He2. simpl in He2.
  pose proof (connectToServer_grown w name config source (effects h2) h2 (reflexivity _)) as Hgrown.
  unfold exec in Hgrown.
  destruct (connectToServer w name config source h2) as [r h3] eqn:Hrun3.
  destruct Hgrown as [k Hk]. simpl in Hk.
  unfold try_catch. rewrite (bind_run _ _ _ _ _ Hrun1), (bind_run _ _ _ _ _ Hrun2), Hrun3.
  destruct r as [[]|e]; simpl.
  - exists added, k. by rewrite Hk, He2, He1, <- !app_assoc.
  - unfold perform, modify. eexists added, (k ++ [_]). simpl.
    rewrite Hk, He2, He1, <- !app_assoc. reflexivity.
Qed.

Lemma updateOrAddServers_closing w source (entries : Object McpServerConfig) :
  NoDup (Object_keys entries) →
  ∀ h name config conn,
    (name, config) ∈ entries →
    find_connection name (connections h) = Some conn →
    deepEqual (JSON_parse (server_config (server conn))) config = false →
    happened_since (effects h) (closing w name conn)
      (exec (for_of entries (updateOrAddServer w source)) h).
Proof.
  unfold Object_keys.
  induction entries as [|[n cfg] entries IH]; intros Hnodup h name config conn Hin Hfind Hneq.
  { by apply elem_of_nil in Hin. }
  apply NoDup_cons in Hnodup as [Hn Hnodup]. simpl in Hn.
  destruct (updateOrAddServer_run w source n cfg h) as (h1 & Hrun1 & Hc1 & _).
  assert (Hexec : exec (for_of ((n, cfg) :: entries) (updateOrAddServer w source)) h =
                  exec (for_of entries (updateOrAddServer w source)) h1).
  { unfold exec. simpl. by rewrite (bind_run _ _ _ _ _ Hrun1). }
  rewrite Hexec.
  apply elem_of_cons in Hin as [[= -> ->] | Hin].
  - apply (happened_since_after _ _ h1).
    + pose proof (updateOrAddServer_closing w source n cfg h conn Hfind Hneq) as Hseg.
      by rewrite (exec_run _ _ _ _ Hrun1) in Hseg.
    + by apply (updateOrAddServers_grown w source entries (effects h1) h1).
  - assert (Hne : name ≠ n).
    { intros ->. apply Hn. apply list_elem_of_fmap. by exists (n, config). }
    apply (happened_since_before _ _ h1).
    + pose proof (updateOrAddServer_grown w source (n, cfg) (effects h) h (reflexivity _)) as Hg.
      by rewrite (exec_run _ _ _ _ Hrun1) in Hg.
    + apply (IH Hnodup h1 name config conn Hin); [| done].
      assert (Hother : only name (connections h1) = only name (connections h)).
      { rewrite Hc1.
        destruct (find_connection n (connections h)) as [c|];
          [destruct (deepEqual (JSON_parse (server_config (server c))) cfg); [done |] |];
          rewrite only_app, only_without_ne, (only_option_list_ne name n), app_nil_r;
            eauto using connect_outcome_name. }
      by rewrite <- Hfind, !find_connection_only, Hother.
Qed.

Lemma updateServerConnections_closing w (newServers : Object McpServerConfig) h name config conn :
  NoDup (Object_keys newServers) →
  (name, config) ∈ newServers →
  find_connection name (connections h) = Some conn →
  deepEqual (JSON_parse (server_config (server conn))) config = false →
  happened_since (effects h) (closing w name conn) (exec (updateServerConnections w newServers) h).
Proof.
  intros Hnodup Hin Hfind Hneq.
  unfold updateServerConnections, exec. unfold bind at 1, modify at 1.
  set (h0 := set_isConnecting true h).
  destruct (removeAllFileWatchers_run h0) as (h1 & Hrun1 & (Hc1 & _) & _ & He1).
  pose proof (deleteRemovedServers_grown w newServers (effects h1) h1 (reflexivity _)) as Hg2.
  destruct (deleteRemovedServers_run w newServers h1) as (h2 & Hrun2 & Hc2 & _).
  rewrite (exec_run _ _ _ _ Hrun2) in Hg2.
  assert (Hfind2 : find_connection name (connections h2) = Some conn).
  { rewrite <- Hfind, Hc2, Hc1. simpl. rewrite !find_connection_only. f_equal.
    unfold only. rewrite list_filter_filter. apply list_filter_iff.
    intros c. split; [tauto |]. intros Hc. split; [done |]. rewrite Hc.
    apply list_elem_of_fmap. by exists (name, config). }
  pose proof (updateOrAddServers_closing w internal (Object_entries newServers) Hnodup
                h2 name config conn Hin Hfind2 Hneq) as Hseg.
  destruct (updateOrAddServers_run w internal newServers Hnodup h2) as (h3 & Hrun3 & _).
  unfold Object_entries in *. rewrite (exec_run _ _ _ _ Hrun3) in Hseg.
  pose proof (notifyWebviewOfServerChanges_grown (effects h3) h3 (reflexivity _)) as Hg4.
  unfold exec in Hg4.
  rewrite (bind_run _ _ _ _ _ Hrun1), (bind_run _ _ _ _ _ Hrun2), (bind_run _ _ _ _ _ Hrun3).
  assert (Hlog : effects h `prefix_of` effects h2).
  { transitivity (effects h1); [| done]. rewrite He1. by apply prefix_app_r. }
  apply (happened_since_before _ _ h2); [done |].
  apply (happened_since_after _ _ h3); [done |].
  unfold bind. destruct (notifyWebviewOfServerChanges h3) as [[[]|e] h4]; exact Hg4.
Qed.

Ltac quiet_after_leaf :=
  idtac;
  let h := fresh "h" in
  let added := fresh "added" in
  let Heq := fresh "Heq" in
  let Hq := fresh "Hq" in
  intros h (added & Heq & Hq); unfold quiet_after; simpl;
  first
    [ by exists added
    | eexists (added ++ [_]); split;
      [ rewrite Heq, <- app_assoc; reflexivity
      | apply Forall_app; split; [exact Hq | by repeat constructor] ] ].

Lemma notifyWebviewOfServerChanges_quiet_after log :
  preserves (quiet_after log) notifyWebviewOfServerChanges.
Proof. preserves_with quiet_after_leaf. Qed.

Lemma removeAllFileWatchers_quiet_after log :
  preserves (quiet_after log) removeAllFileWatchers.
Proof. preserves_with quiet_after_leaf. Qed.

Lemma updateServerConnections_unchanged w (newServers : Object McpServerConfig) h :
  (∀ name config, (name, config) ∈ newServers →
     ∃ conn, find_connection name (connections h) = Some conn ∧
             deepEqual (JSON_parse (server_config (server conn))) config = true) →
  (∀ conn, conn ∈ connections h → conn_name conn ∈ Object_keys newServers) →
  connections (exec (updateServerConnections w newServers) h) = connections h ∧
  quiet_after (effects h) (exec (updateServerConnections w newServers) h).
Proof.
  intros Hsame Hall.
  cut (∃ r h', updateServerConnections w newServers h = (r, h') ∧
               connections h' = connections h ∧ quiet_after (effects h) h').
  { intros (r & h' & Hrun & ? & ?). by rewrite (exec_run _ _ _ _ Hrun). }
  unfold updateServerConnections. unfold bind at 1, modify at 1.
  set (h0 := set_isConnecting true h).
  assert (Hq0 : quiet_after (effects h) h0).
  { exists []. by rewrite app_nil_r. }
  pose proof (removeAllFileWatchers_quiet_after (effects h) h0 Hq0) as Hq1.
  destruct (removeAllFileWatchers_run h0) as (h1 & Hrun1 & (Hc1 & _) & _).
  unfold exec in Hq1. rewrite Hrun1 in Hq1. simpl in Hc1, Hq1.
  assert (Hrun2 : deleteRemovedServers w newServers h1 = (Ok tt, h1)).
  { unfold deleteRemovedServers. unfold bind at 1, get. apply for_of_skip.
    intros name Hname. apply elem_of_Set_of, list_elem_of_fmap in Hname as (conn & -> & Hconn).
    unfold includes. rewrite bool_decide_true; [done |].
    apply elem_of_Set_of, Hall. by rewrite <- Hc1. }
  assert (Hrun3 : for_of (Object_entries newServers) (updateOrAddServer w internal) h1 = (Ok tt, h1)).
  { apply for_of_skip. intros [name config] Hin.
    destruct (Hsame name config Hin) as (conn & Hfind & Heq).
    unfold updateOrAddServer. unfold bind at 1, get. by rewrite Hc1, Hfind, Heq. }
  pose proof (notifyWebviewOfServerChanges_quiet_after (effects h) h1 Hq1) as Hq4.
  destruct (notifyWebviewOfServerChanges_run h1) as (r & h4 & Hrun4 & (Hc4 & _) & _).
  unfold exec in Hq4. rewrite Hrun4 in Hq4. simpl in Hq4.
  rewrite (bind_run _ _ _ _ _ Hrun1), (bind_run _ _ _ _ _ Hrun2), (bind_run _ _ _ _ _ Hrun3).
  unfold bind. rewrite Hrun4. destruct r as [[]|e]; unfold modify;
    do 2 eexists; (split; [reflexivity |]); simpl; (split; [congruence | exact Hq4]).
Qed.

Lemma connect_outcome_registers w version file name config :
  is_Some (connect_outcome w version file name config) ↔ registers w name config.
Proof.
  unfold connect_outcome, registers.
  destruct (truthy_bool (cfg_disabled config)).
  { split; [by left | by eauto]. }
  destruct (opened w name config) as [t|e].
  - split; [intros _; right; eauto |]. intros _. by destruct (on_client_connect w name).
  - split; [by intros [? ?] |]. by intros [? | [t ?]].
Qed.

(** C2 (as amended): in a reconciliation pass over the desired servers, a
    desired name without registry entry is connected: afterwards the
    registry holds for it what [connectToServer] registers, which is an
    entry exactly when the server is disabled or its transport could be
    constructed and started, and no entry otherwise.  A desired name whose
    stored configuration is not deep-equal to the new one has its
    connection closed and deleted during the pass, and is then connected
    in the same way.  A desired name whose stored configuration is
    deep-equal to the new one keeps its entry as it is.  So when every
    registry entry is desired with a configuration deep-equal to its own,
    the pass leaves the registry as it is, and what it adds to the log is
    no traffic with a server: nothing is started, connected, queried or
    closed. *)
Theorem reconcile_creates_recreates_or_keeps (w : World)
    (newServers : Object McpServerConfig) (h : McpHub) :
  NoDup (Object_keys newServers) →
  let h' := exec (updateServerConnections w newServers) h in
  (∀ name config, (name, config) ∈ newServers →
     match find_connection name (connections h) with
     | None =>
         find_connection name (connections h') =
           connect_outcome w (clientVersion h) (settingsFile h) name config ∧
         (is_Some (find_connection name (connections h')) ↔ registers w name config)
     | Some conn =>
         if deepEqual (JSON_parse (server_config (server conn))) config
         then find_connection name (connections h') = Some conn
         else
           find_connection name (connections h') =
             connect_outcome w (clientVersion h) (settingsFile h) name config ∧
           (is_Some (find_connection name (connections h')) ↔ registers w name config) ∧
           happened_since (effects h) (closing w name conn) h'
     end) ∧
  ((∀ name config, (name, config) ∈ newServers →
      ∃ conn, find_connection name (connections h) = Some conn ∧
              deepEqual (JSON_parse (server_config (server conn))) config = true) →
   (∀ conn, conn ∈ connections h → conn_name conn ∈ Object_keys newServers) →
   connections h' = connections h ∧ quiet_after (effects h) h').
Proof.
  intros Hnodup h'. split.
  - intros name config Hin.
    destruct (updateServerConnections_run w newServers h Hnodup)
      as (r & h1 & Hrun & _ & _ & _ & Hentries).
    pose proof (updateServerConnections_closing w newServers h name config) as Hclosing.
    subst h'. rewrite (exec_run _ _ _ _ Hrun) in *.
    destruct (Hentries name config Hin) as [Hfind _].
    rewrite Hfind. unfold reconciled.
    destruct (find_connection name (connections h)) as [conn|].
    + destruct (deepEqual _ _) eqn:Heq; [done |].
      split; [done |]. split; [apply connect_outcome_registers | by apply Hclosing].
    + split; [done | apply connect_outcome_registers].
  - intros Hsame Hall. by apply updateServerConnections_unchanged.
Qed.

(** Membership in a list that is written out. *)
Ltac in_list :=
  repeat first [ apply list_elem_of_here | apply list_elem_of_further ].

Lemma reconcile_creates_recreates_or_keeps_witness :
  let newServers :=
    [("a", sample_stdio "bun" None); ("b", sample_stdio "python" (Some true));
     ("c", sample_stdio "deno" None)] in
  let h' := exec (updateServerConnections close_throws newServers) sample_hub in
  NoDup (Object_keys newServers) ∧
  (is_Some (find_connection "a" (connections h')) ∧
   (∃ conn, find_connection "a" (connections sample_hub) = Some conn ∧
            happened_since (effects sample_hub) [transport_close "a"; closeFailed "a" "EPIPE"] h')) ∧
  find_connection "b" (connections h') = find_connection "b" (connections sample_hub) ∧
  is_Some (find_connection "c" (connections h')).
Proof.
  intros newServers h'.
  assert (Hnodup : NoDup (Object_keys newServers)).
  { apply (bool_decide_unpack (NoDup (Object_keys newServers))). vm_compute. exact I. }
  split; [exact Hnodup |].
  pose proof (proj1 (reconcile_creates_recreates_or_keeps close_throws newServers sample_hub Hnodup))
    as Hentries.
  assert (Hreg : ∀ name command, registers close_throws name (sample_stdio command None)).
  { intros name command. right. eexists. reflexivity. }
  split; [| split].
  - pose proof (Hentries "a" (sample_stdio "bun" None) ltac:(in_list)) as Ha.
    destruct (find_connection "a" (connections sample_hub)) as [conn|] eqn:Hfind;
      [| vm_compute in Hfind; discriminate].
    assert (Hneq : deepEqual (JSON_parse (server_config (server conn))) (sample_stdio "bun" None) = false).
    { vm_compute in Hfind. injection Hfind as <-. vm_compute. reflexivity. }
    assert (Hclosing : closing close_throws "a" conn = [transport_close "a"; closeFailed "a" "EPIPE"]).
    { vm_compute in Hfind. injection Hfind as <-. vm_compute. reflexivity. }
    rewrite Hneq in Ha. destruct Ha as (_ & Hsome & Hclosed).
    split; [by apply Hsome |]. exists conn. split; [done |]. by rewrite <- Hclosing.
  - pose proof (Hentries "b" (sample_stdio "python" (Some true)) ltac:(in_list)) as Hb.
    destruct (find_connection "b" (connections sample_hub)) as [conn|] eqn:Hfind;
      [| vm_compute in Hfind; discriminate].
    assert (Heq : deepEqual (JSON_parse (server_config (server conn)))
                    (sample_stdio "python" (Some true)) = true).
    { vm_compute in Hfind. injection Hfind as <-. vm_compute. reflexivity. }
    by rewrite Heq in Hb.
  - pose proof (Hentries "c" (sample_stdio "deno" None) ltac:(in_list)) as Hc.
    destruct (find_connection "c" (connections sample_hub)) as [conn|] eqn:Hfind;
      [vm_compute in Hfind; discriminate |].
    destruct Hc as [_ Hsome]. by apply Hsome.
Defined.

(** C2 as stated fails: when the transport of a server cannot be started,
    the pass creates no connection for a desired name without registry
    entry, and it deletes the connection of a desired name whose
    configuration has changed without creating another. *)
Lemma reconcile_may_leave_a_desired_server_unregistered :
  let changed := [("a", sample_stdio "bun" None); ("b", sample_stdio "python" (Some true))] in
  find_connection "c" (connections (new_McpHub "3.0" None)) = None ∧
  find_connection "c"
    (connections (exec (updateServerConnections spawn_fails [("c", sample_stdio "deno" None)])
                    (new_McpHub "3.0" None))) = None ∧
  conn_name <$> connections sample_hub = ["a"; "b"] ∧
  conn_name <$> connections (exec (updateServerConnections spawn_fails changed) sample_hub) = ["b"] ∧
  ¬ ∃ conn, find_connection "a"
              (connections (exec (updateServerConnections spawn_fails changed) sample_hub)) =
            Some conn.
Proof.
  intros changed. split; [reflexivity |]. split; [vm_compute; reflexivity |].
  split; [vm_compute; reflexivity |]. split; [vm_compute; reflexivity |].
  intros (conn & Hfind). vm_compute in Hfind. discriminate.
Qed.

(** *** The handshake, with the events of the transport *)





Section TransportEvents.
Context (name : string) (source : Source) (h : McpHub).
Context (others : list McpConnection) (conn : McpConnection).
Hypothesis Hconns : connections h = others ++ [conn].
Hypothesis Hothers : ∀ c, c ∈ others → conn_name c ≠ name.
Hypothesis Hname : conn_name conn = name.




End TransportEvents.








Lemma reconcile_empty_removes_all_witness :
  connections (exec (updateServerConnections close_throws []) sample_hub) = [] ∧
  result (deleteConnection close_throws "a") sample_hub = Ok tt ∧
  find_connection "a" (connections (exec (deleteConnection close_throws "a") sample_hub)) = None ∧
  effects (exec (deleteConnection close_throws "a") sample_hub) =
    effects sample_hub ++ [transport_close "a"; closeFailed "a" "EPIPE"].
Proof.
  destruct (reconcile_empty_removes_all close_throws sample_hub "a")
    as (Hempty & Hok & Hgone & _ & Hlogged & _).
  split; [exact Hempty |]. split; [exact Hok |]. split; [exact Hgone |].
  eapply Hlogged.
  - vm_compute. reflexivity.
  - vm_compute. eexists. reflexivity.
  - reflexivity.
Defined.

Lemma invocation_is_guarded_witness :
  find_connection "missing-server" (connections sample_hub) = None ∧
  callTool healthy "missing-server" "x" (Some []) sample_hub =
    (Throw ("No connection found for server: missing-server" +:+
            ". Please make sure to use MCP servers available under 'Connected MCP Servers'."),
     sample_hub) ∧
  (server_disabled ∘ server) <$> find_connection "b" (connections sample_hub) = Some (Some true) ∧
  readResource healthy "b" "file:///a" sample_hub =
    (Throw ("Server " +:+ quoted "b" +:+ " is disabled"), sample_hub).
Proof.
  destruct (invocation_is_guarded healthy "missing-server" "file:///a" "x" (Some []) sample_hub)
    as [Hmissing _].
  destruct (invocation_is_guarded healthy "b" "file:///a" "x" (Some []) sample_hub)
    as [_ Hdisabled].
  split; [vm_compute; reflexivity |].
  split; [exact (proj2 (Hmissing ltac:(vm_compute; reflexivity))) |].
  split; [vm_compute; reflexivity |].
  eapply (proj1 (Hdisabled _ ltac:(vm_compute; reflexivity) ltac:(reflexivity))).
Defined.

(** ** The disabled flag *)

Lemma Forall_update_found_first (P : McpConnection → Prop) name f conns :
  (∀ conn, find_connection name conns = Some conn → P (f conn)) →
  Forall P conns → Forall P (update_found name f conns).
Proof.
  unfold find_connection. intros Hf. induction 1 as [|c conns Hc Hconns IH]; simpl; [done |].
  simpl in Hf. case_bool_decide; constructor; auto.
Qed.

(** What [toggleServerDisabledRPC] does to the registry: the flag of the
    entry is set, its client and its transport stay as they are. *)
Lemma toggleServerDisabledRPC_connections w serverName disabled h :
  connections (exec (toggleServerDisabledRPC w serverName disabled) h) =
    match validated w (settingsFile h) ≫= (λ servers, obj_get servers serverName) with
    | Some _ => update_found serverName (with_disabled (Some disabled)) (connections h)
    | None => connections h
    end.
Proof.
  unfold toggleServerDisabledRPC, exec.
  destruct (readAndValidateMcpSettingsFile_run w h) as (h1 & Hrun & (Hc1 & _) & Hfile).
  unfold try_catch. rewrite (bind_run _ _ _ _ _ Hrun).
  destruct (validated w (settingsFile h)) as [servers|]; simpl.
  2: { run_monad. done. }
  destruct (obj_get servers serverName) as [entry|]; simpl.
  2: { run_monad. done. }
  destruct (getMcpSettingsFilePath_run h1) as (h2 & Hrun2 & (Hc2 & _) & _).
  rewrite (bind_run _ _ _ _ _ Hrun2).
  unfold fs_write, findConnection, assign. run_monad.
  destruct (find_connection serverName (connections h2)) as [conn|] eqn:Hfind; simpl.
  - congruence.
  - rewrite Hc2, Hc1 in Hfind. rewrite Hc2, Hc1.
    pose proof (proj1 (find_connection_None _ _) Hfind) as Hnone.
    clear -Hnone. induction (connections h) as [|c conns IH]; [done |]. simpl.
    rewrite bool_decide_false by (apply Hnone; left).
    f_equal. apply IH. intros c' Hc'. apply Hnone. by right.
Qed.

Ltac disabled_leaf' :=
  first
    [ disabled_leaf
    | let h := fresh "h" in
      let Hh := fresh "Hh" in
      intros h Hh; unfold disabled_inv in *; simpl;
      apply Forall_update_found; [| exact Hh];
      intros ? _; unfold disabled_ok; simpl; discriminate ].

(** C1 (as amended): the registry of a new hub has no disabled
    connection that holds a client or a transport, and every operation of
    the hub keeps it so, except [toggleServerDisabledRPC] called with
    [true] for a server whose connection holds a client or a transport:
    that call sets the flag of the connection in the registry and leaves
    its client and its transport in place. *)
Theorem disabled_connections_hold_no_client (w : World) (op : Op) (h : McpHub)
    (version : string) (file : option FileContent) :
  disabled_inv (new_McpHub version file) ∧
  (disabled_inv h →
   (∀ serverName conn,
      op = op_toggleServerDisabledRPC serverName true →
      find_connection serverName (connections h) = Some conn →
      client conn = None ∧ transport conn = None) →
   disabled_inv (run w op h)) ∧
  (∀ serverName disabled,
     connections (exec (toggleServerDisabledRPC w serverName disabled) h) =
       match validated w (settingsFile h) ≫= (λ servers, obj_get servers serverName) with
       | Some _ => update_found serverName (with_disabled (Some disabled)) (connections h)
       | None => connections h
       end).
Proof.
  split; [constructor |]. split; [| intros; apply toggleServerDisabledRPC_connections].
  intros Hinv Hsafe.
  destruct op; simpl;
    try (clear Hsafe; revert h Hinv;
         lazymatch goal with
         | |- ∀ h, disabled_inv h → disabled_inv (exec ?m h) => change (preserves disabled_inv m)
         end;
         solve [preserves_with disabled_leaf']).
  unfold disabled_inv. rewrite toggleServerDisabledRPC_connections.
  destruct (_ ≫= _); [| done].
  apply Forall_update_found_first; [| done].
  intros conn Hfind. destruct disabled.
  - destruct (Hsafe serverName conn eq_refl Hfind) as [Hc Ht]. by intros _.
  - unfold disabled_ok. simpl. discriminate.
Qed.

Lemma sample_hub_disabled_inv : disabled_inv sample_hub.
Proof.
  unfold disabled_inv. vm_compute.
  repeat constructor; intros; discriminate.
Qed.

Lemma disabled_connections_hold_no_client_witness :
  disabled_inv sample_hub ∧
  (∀ conn, find_connection "b" (connections sample_hub) = Some conn →
           client conn = None ∧ transport conn = None) ∧
  disabled_inv (run healthy (op_toggleServerDisabledRPC "b" true) sample_hub) ∧
  disabled_inv (run close_throws (op_restartConnection "a") sample_hub).
Proof.
  assert (Hsafe : ∀ conn, find_connection "b" (connections sample_hub) = Some conn →
                          client conn = None ∧ transport conn = None).
  { intros conn Hfind. vm_compute in Hfind. injection Hfind as <-. split; reflexivity. }
  split; [exact sample_hub_disabled_inv |]. split; [exact Hsafe |]. split.
  - apply (proj1 (proj2 (disabled_connections_hold_no_client healthy
                (op_toggleServerDisabledRPC "b" true) sample_hub "3.0" None))).
    + exact sample_hub_disabled_inv.
    + intros serverName conn Hop. injection Hop as <-. apply Hsafe.
  - apply (proj1 (proj2 (disabled_connections_hold_no_client close_throws
                (op_restartConnection "a") sample_hub "3.0" None))).
    + exact sample_hub_disabled_inv.
    + intros serverName conn Hop. discriminate Hop.
Defined.

(** C1 as stated fails: [toggleServerDisabledRPC] with [true] on a
    connected server leaves a connection in the registry that is disabled
    and still holds its client and its transport. *)
Lemma toggle_disabled_keeps_client_and_transport :
  let h' := exec (toggleServerDisabledRPC healthy "a" true) sample_hub in
  (∃ conn, find_connection "a" (connections sample_hub) = Some conn ∧
           server_status (server conn) = connected) ∧
  (∃ conn, find_connection "a" (connections h') = Some conn ∧
           server_disabled (server conn) = Some true ∧
           client conn = Some (new_Client "3.0") ∧
           transport conn = Some (StdioClientTransport (Some "node") (Some ["server/build/index.js"]))) ∧
  ¬ disabled_inv h'.
Proof.
  intros h'.
  assert (Hafter : ∃ conn, find_connection "a" (connections h') = Some conn ∧
             server_disabled (server conn) = Some true ∧
             client conn = Some (new_Client "3.0") ∧
             transport conn = Some (StdioClientTransport (Some "node") (Some ["server/build/index.js"]))).
  { eexists. split; [vm_compute; reflexivity |]. split; [reflexivity |]. split; reflexivity. }
  split; [eexists; split; [vm_compute; reflexivity | reflexivity] |].
  split; [exact Hafter |].
  destruct Hafter as (conn & Hfind & Hdis & Hclient & _).
  intros Hinv. apply find_connection_Some in Hfind as [Hin _].
  unfold disabled_inv in Hinv. rewrite Forall_forall in Hinv.
  destruct (Hinv conn Hin) as [Hnone _]; [by rewrite Hdis |]. congruence.
Qed.

(** ** Notifications *)

Lemma notificationHandler_pending w name params h :
  notificationCallback h = None →
  pendingNotifications (exec (notificationHandler w name params) h) =
    pendingNotifications h ++ [pending_of w (name, params)] ∧
  notificationCallback (exec (notificationHandler w name params) h) = None.
Proof. intros Hcb. unfold notificationHandler. run_monad. by rewrite Hcb. Qed.

Lemma deliver_pending w arrivals h :
  notificationCallback h = None →
  pendingNotifications (deliver w arrivals h) =
    pendingNotifications h ++ (pending_of w <$> arrivals).
Proof.
  unfold deliver. revert h. induction arrivals as [|[name params] arrivals IH]; intros h Hcb; simpl.
  - by rewrite app_nil_r.
  - destruct (notificationHandler_pending w name params h Hcb) as [Hp Hc].
    rewrite IH by done. rewrite Hp, <- app_assoc. done.
Qed.

(** C4 (as amended): a notification of a server is handed to the
    registered callback, once, with the server's name, the level and the
    message, and the pending queue stays as it is; without a registered
    callback it is appended to the pending queue, which has no bound:
    notifications that arrive while no callback is registered are all
    queued, in the order of their arrival.  [getPendingNotifications]
    answers the queue and empties it, so that a call right after it
    answers the empty list. *)
Theorem notifications_are_routed (w : World) (name : string)
    (params : option NotificationParams)
    (arrivals : list (string * option NotificationParams)) (h : McpHub) :
  (∀ callback, notificationCallback h = Some callback →
     effects (exec (notificationHandler w name params) h) =
       effects h ++
       [call_notificationCallback callback name
          (notification_level params) (notification_message params);
        postMessageToWebview name (notification_level params) (notification_data params)
          (notification_logger params) (Date_now w)] ∧
     pendingNotifications (exec (notificationHandler w name params) h) =
       pendingNotifications h) ∧
  (notificationCallback h = None →
     effects (exec (notificationHandler w name params) h) =
       effects h ++
       [postMessageToWebview name (notification_level params) (notification_data params)
          (notification_logger params) (Date_now w)] ∧
     pendingNotifications (exec (notificationHandler w name params) h) =
       pendingNotifications h ++
       [ {| n_serverName := name; n_level := notification_level params;
            n_message := notification_message params; n_timestamp := Date_now w |} ] ∧
     pendingNotifications (deliver w arrivals h) =
       pendingNotifications h ++ (pending_of w <$> arrivals)) ∧
  result getPendingNotifications h = Ok (pendingNotifications h) ∧
  pendingNotifications (exec getPendingNotifications h) = [] ∧
  result getPendingNotifications (exec getPendingNotifications h) = Ok [].
Proof.
  split; [| split].
  - intros callback Hcb. unfold notificationHandler. run_monad. rewrite Hcb. simpl.
    by rewrite <- app_assoc.
  - intros Hcb. split; [| split].
    + unfold notificationHandler. run_monad. by rewrite Hcb.
    + apply (notificationHandler_pending w name params h Hcb).
    + by apply deliver_pending.
  - done.
Qed.

Lemma notifications_are_routed_witness :
  let h := new_McpHub "3.0" None in
  let params := Some {| p_level := Some "warning"; p_logger := Some "db";
                        p_data := Some "slow query"; p_message := None |} in
  notificationCallback h = None ∧
  pendingNotifications (exec (notificationHandler healthy "a" params) h) =
    [ {| n_serverName := "a"; n_level := "warning"; n_message := "[db] slow query";
         n_timestamp := 1000 |} ] ∧
  notificationCallback (exec (setNotificationCallback 7%nat) h) = Some 7%nat ∧
  effects (exec (notificationHandler healthy "a" params) (exec (setNotificationCallback 7%nat) h)) =
    [call_notificationCallback 7%nat "a" "warning" "[db] slow query";
     postMessageToWebview "a" "warning" "slow query" "db" 1000].
Proof.
  intros h params.
  destruct (notifications_are_routed healthy "a" params [] h) as (_ & Hpending & _).
  destruct (notifications_are_routed healthy "a" params []
              (exec (setNotificationCallback 7%nat) h)) as (Hcallback & _).
  split; [reflexivity |].
  split; [exact (proj1 (proj2 (Hpending eq_refl))) |].
  split; [reflexivity |].
  exact (proj1 (Hcallback 7%nat eq_refl)).
Defined.

(** C4 as stated fails: the pending queue has no bound. *)
Lemma pending_queue_is_unbounded :
  ¬ ∃ bound : nat, ∀ arrivals,
      (length (pendingNotifications (deliver healthy arrivals (new_McpHub "3.0" None))) ≤ bound)%nat.
Proof.
  intros [bound Hbound].
  specialize (Hbound (replicate (S bound) ("a", None))).
  rewrite deliver_pending in Hbound by done.
  simpl in Hbound. rewrite length_fmap, length_replicate in Hbound. lia.
Qed.

(** ** The sorted listing *)

Lemma indexOf_bounds l x : -1 ≤ indexOf l x.
Proof.
  induction l as [|y l IH]; simpl; [lia |].
  case_bool_decide; [lia |]. destruct (Z.ltb_spec (indexOf l x) 0); lia.
Qed.

Lemma indexOf_elem_of l x : x ∈ l ↔ 0 ≤ indexOf l x.
Proof.
  induction l as [|y l IH]; simpl.
  - split; [by intros ?%elem_of_nil | lia].
  - rewrite elem_of_cons. case_bool_decide as Hy.
    + split; [lia | by left].
    + destruct (Z.ltb_spec (indexOf l x) 0) as [Hlt | Hge].
      * split; [| lia]. intros [-> | Hin]; [done |]. apply IH in Hin. lia.
      * split; [lia |]. intros _. right. by apply IH.
Qed.

Lemma indexOf_inj l x y : x ∈ l → indexOf l x = indexOf l y → x = y.
Proof.
  induction l as [|z l IH]; simpl; [by intros ?%elem_of_nil |].
  intros Hin. repeat case_bool_decide; subst; try done.
  - pose proof (indexOf_bounds l y). destruct (Z.ltb_spec (indexOf l y) 0); lia.
  - pose proof (indexOf_bounds l x). destruct (Z.ltb_spec (indexOf l x) 0); lia.
  - apply elem_of_cons in Hin as [-> | Hin]; [done |].
    pose proof (proj1 (indexOf_elem_of l x) Hin).
    destruct (Z.ltb_spec (indexOf l x) 0); [lia |].
    destruct (Z.ltb_spec (indexOf l y) 0); [lia |].
    intros Heq. apply IH; [done | lia].
Qed.

Section Sorting.
Context {A : Type} (key : A → Z).

Let cmp (a b : A) : Z := key a - key b.

Lemma sort_insert_perm x l : sort_insert cmp x l ≡ₚ x :: l.
Proof.
  induction l as [|y l IH]; simpl; [done |].
  destruct (0 <? cmp x y); [| done]. rewrite IH. apply perm_swap.
Qed.

Lemma Array_sort_perm l : Array_sort cmp l ≡ₚ l.
Proof.
  unfold Array_sort. induction l as [|x l IH]; simpl; [done |].
  by rewrite sort_insert_perm, IH.
Qed.

Lemma sort_insert_sorted x l :
  StronglySorted (λ a b, key a ≤ key b) l →
  StronglySorted (λ a b, key a ≤ key b) (sort_insert cmp x l).
Proof.
  induction 1 as [|y l Hl IH Hy]; simpl.
  - repeat constructor.
  - unfold cmp at 1. destruct (Z.ltb_spec 0 (key x - key y)) as [Hlt | Hge].
    + constructor; [done |]. rewrite sort_insert_perm. constructor; [lia | done].
    + constructor; [by constructor |]. constructor; [lia |].
      eapply Forall_impl; [exact Hy |]. intros z Hz. simpl in Hz. lia.
Qed.

Lemma Array_sort_sorted l : StronglySorted (λ a b, key a ≤ key b) (Array_sort cmp l).
Proof.
  unfold Array_sort. induction l as [|x l IH]; simpl; [constructor |].
  by apply sort_insert_sorted.
Qed.

Lemma sorted_strict l :
  NoDup (key <$> l) →
  StronglySorted (λ a b, key a ≤ key b) l → StronglySorted (λ a b, key a < key b) l.
Proof.
  induction 2 as [|x l Hl IH Hx]; [constructor |].
  rewrite fmap_cons in H. apply NoDup_cons in H as [Hnotin Hnodup].
  constructor; [by apply IH |].
  rewrite Forall_forall in Hx. apply Forall_forall. intros y Hy.
  specialize (Hx y Hy). simpl in Hx.
  assert (key x ≠ key y); [| lia].
  intros Heq. apply Hnotin. rewrite Heq. apply list_elem_of_fmap. eauto.
Qed.

(** The sort does not depend on the order of what it is given when the
    keys are pairwise distinct. *)
Lemma Array_sort_unique l l' :
  NoDup (key <$> l) → l' ≡ₚ l → Array_sort cmp l' = Array_sort cmp l.
Proof.
  intros Hnodup Hperm.
  apply (StronglySorted_unique_strong (λ a b, key a < key b)).
  - intros; lia.
  - apply sorted_strict; [| apply Array_sort_sorted].
    by rewrite Array_sort_perm, Hperm.
  - apply sorted_strict; [| apply Array_sort_sorted].
    by rewrite Array_sort_perm.
  - by rewrite !Array_sort_perm.
Qed.
End Sorting.

(** C8 (as amended): the sorted listing holds exactly the servers of the
    registry, in non-decreasing order of the index of their names in the
    key sequence of the settings file, the names that the sequence does
    not hold, of index [-1], coming first; and when the names of the
    registry are pairwise distinct and all in the key sequence, the
    listing is the same whatever the order of the registry. *)
Theorem sorted_servers_follow_settings_order (serverOrder : list string)
    (conns conns' : list McpConnection) :
  getSortedMcpServers serverOrder conns ≡ₚ server <$> conns ∧
  StronglySorted
    (λ s1 s2, indexOf serverOrder (server_name s1) ≤ indexOf serverOrder (server_name s2))
    (getSortedMcpServers serverOrder conns) ∧
  (NoDup (conn_name <$> conns) →
   (∀ conn, conn ∈ conns → conn_name conn ∈ serverOrder) →
   conns' ≡ₚ conns →
   getSortedMcpServers serverOrder conns' = getSortedMcpServers serverOrder conns).
Proof.
  unfold getSortedMcpServers. split; [| split].
  - by rewrite (Array_sort_perm (order_index serverOrder)).
  - assert (Hmap : ∀ l,
      StronglySorted (λ a b, order_index serverOrder a ≤ order_index serverOrder b) l →
      StronglySorted
        (λ s1 s2, indexOf serverOrder (server_name s1) ≤ indexOf serverOrder (server_name s2))
        (server <$> l)).
    { induction 1 as [|c l Hl IH Hc]; [constructor |].
      rewrite fmap_cons. constructor; [done |]. by apply Forall_fmap. }
    apply Hmap. apply (Array_sort_sorted (order_index serverOrder)).
  - intros Hnodup Hall Hperm. f_equal.
    apply (Array_sort_unique (order_index serverOrder)); [| done].
    unfold order_index.
    change (NoDup ((λ conn, indexOf serverOrder (conn_name conn)) <$> conns)).
    rewrite (list_fmap_compose conn_name (indexOf serverOrder)).
    apply NoDup_fmap_2_strong; [| done].
    intros x y Hx Hy Heq. apply list_elem_of_fmap in Hx as (c & -> & Hc).
    eapply indexOf_inj; [by apply Hall | done].
Qed.

Lemma sorted_servers_follow_settings_order_witness :
  let a := disabledConnection "a" (sample_stdio "node" (Some true)) in
  let b := disabledConnection "b" (sample_stdio "python" (Some true)) in
  NoDup (conn_name <$> [a; b]) ∧
  (∀ conn, conn ∈ [a; b] → conn_name conn ∈ ["b"; "a"]) ∧
  [b; a] ≡ₚ [a; b] ∧
  getSortedMcpServers ["b"; "a"] [b; a] = getSortedMcpServers ["b"; "a"] [a; b] ∧
  getSortedMcpServers ["b"; "a"] [a; b] = [server b; server a].
Proof.
  intros a b.
  assert (Hnodup : NoDup (conn_name <$> [a; b])).
  { apply (bool_decide_unpack (NoDup (conn_name <$> [a; b]))). vm_compute. exact I. }
  assert (Hall : ∀ conn, conn ∈ [a; b] → conn_name conn ∈ ["b"; "a"]).
  { intros conn Hin. apply elem_of_cons in Hin as [-> | Hin]; [in_list |].
    apply list_elem_of_singleton in Hin as ->. in_list. }
  split; [exact Hnodup |]. split; [exact Hall |]. split; [apply perm_swap |].
  split; [| vm_compute; reflexivity].
  apply (proj2 (proj2 (sorted_servers_follow_settings_order ["b"; "a"] [a; b] [b; a]))).
  - exact Hnodup.
  - exact Hall.
  - apply perm_swap.
Defined.

(** C8 as stated fails: two connections whose names the key sequence does
    not hold are listed in the order of the registry. *)
Lemma sorted_servers_depend_on_registry_order :
  let x := disabledConnection "x" (sample_stdio "node" (Some true)) in
  let y := disabledConnection "y" (sample_stdio "python" (Some true)) in
  [y; x] ≡ₚ [x; y] ∧
  getSortedMcpServers ["a"] [x; y] = [server x; server y] ∧
  getSortedMcpServers ["a"] [y; x] = [server y; server x] ∧
  getSortedMcpServers ["a"] [y; x] ≠ getSortedMcpServers ["a"] [x; y].
Proof.
  intros x y. split; [apply perm_swap |].
  split; [vm_compute; reflexivity |]. split; [vm_compute; reflexivity |].
  intros Heq. apply (f_equal (fmap server_name)) in Heq. vm_compute in Heq. discriminate.
Qed.

(** ** Auto-approved tools *)

Lemma obj_get_set {V} (o : Object V) k v : obj_get (obj_set o k v) k = Some v.
Proof.
  induction o as [|[k' v'] o IH]; simpl.
  - by rewrite bool_decide_true.
  - case_bool_decide as Hk; simpl.
    + by rewrite bool_decide_true.
    + by rewrite bool_decide_false.
Qed.

Lemma obj_get_set_ne {V} (o : Object V) k k' v :
  k ≠ k' → obj_get (obj_set o k v) k' = obj_get o k'.
Proof.
  intros Hne. induction o as [|[k0 v0] o IH]; simpl.
  - by rewrite bool_decide_false.
  - case_bool_decide as Hk; simpl.
    + subst k0. by rewrite !bool_decide_false.
    + by rewrite IH.
Qed.

Lemma Object_keys_set {V} (o : Object V) k v :
  is_Some (obj_get o k) → Object_keys (obj_set o k v) = Object_keys o.
Proof.
  unfold Object_keys. induction o as [|[k' v'] o IH]; simpl.
  - by intros [? ?].
  - case_bool_decide as Hk; simpl; [by subst | intros ?; f_equal; auto].
Qed.

Lemma splice1_indexOf l x :
  NoDup l → x ∈ l →
  NoDup (splice1 (indexOf l x) l) ∧
  ∀ t, t ∈ splice1 (indexOf l x) l ↔ t ∈ l ∧ t ≠ x.
Proof.
  unfold splice1. induction l as [|y l IH]; [by intros _ ?%elem_of_nil |].
  intros [Hy Hnodup]%NoDup_cons Hin. simpl. case_bool_decide as Hyx.
  - subst y. simpl. split; [done |]. intros t. rewrite elem_of_cons.
    split; [intros Ht; split; [by right | by intros ->] | intros [[-> | Ht] Hne]; done].
  - apply elem_of_cons in Hin as [-> | Hin]; [done |].
    pose proof (proj1 (indexOf_elem_of l x) Hin) as Hge.
    destruct (Z.ltb_spec (indexOf l x) 0) as [Hlt | _]; [lia |].
    destruct (IH Hnodup Hin) as [IHn IHm].
    destruct (Z.ltb_spec (indexOf l x) 0) as [Hlt | _]; [lia |].
    destruct (Z.ltb_spec (1 + indexOf l x) 0) as [Hlt | _]; [lia |].
    replace (Z.to_nat (1 + indexOf l x)) with (S (Z.to_nat (indexOf l x))) by lia.
    simpl. split.
    + apply NoDup_cons. split; [| done]. rewrite IHm. tauto.
    + intros t. rewrite !elem_of_cons, IHm. split; [| tauto].
      intros [-> | [Ht Hne]]; [split; [by left | by intros ->] | tauto].
Qed.

Lemma toggleTool_spec shouldAllow l x :
  NoDup l →
  NoDup (toggleTool shouldAllow l x) ∧
  ∀ t, t ∈ toggleTool shouldAllow l x ↔
       if shouldAllow then t ∈ l ∨ t = x else t ∈ l ∧ t ≠ x.
Proof.
  intros Hnodup. unfold toggleTool.
  destruct (decide (x ∈ l)) as [Hin | Hnotin].
  - pose proof (proj1 (indexOf_elem_of l x) Hin) as Hge.
    destruct (Z.eqb_spec (indexOf l x) (-1)) as [? | _]; [lia |].
    destruct shouldAllow; simpl.
    + split; [done |]. intros t. split; [tauto | intros [? | ->]; done].
    + by apply splice1_indexOf.
  - assert (indexOf l x = -1) as ->.
    { pose proof (indexOf_bounds l x). pose proof (indexOf_elem_of l x). 
      destruct (decide (0 ≤ indexOf l x)); [tauto | lia]. }
    destruct shouldAllow; simpl.
    + split.
      * apply NoDup_app. split; [done |]. split; [| apply NoDup_singleton].
        intros t Ht ->%list_elem_of_singleton. done.
      * intros t. rewrite elem_of_app, list_elem_of_singleton. done.
    + split; [done |]. intros t. split; [| tauto]. intros Ht. split; [done | by intros ->].
Qed.

Lemma toggleTools_spec shouldAllow toolNames l :
  NoDup l →
  NoDup (fold_left (toggleTool shouldAllow) toolNames l) ∧
  ∀ t, t ∈ fold_left (toggleTool shouldAllow) toolNames l ↔
       if shouldAllow then t ∈ l ∨ t ∈ toolNames else t ∈ l ∧ t ∉ toolNames.
Proof.
  revert l. induction toolNames as [|x toolNames IH]; intros l Hnodup; simpl.
  - split; [done |]. intros t. destruct shouldAllow; [| split; [| tauto]].
    + split; [tauto | intros [? | ?%elem_of_nil]; done].
    + intros ?. split; [done | apply not_elem_of_nil].
  - destruct (toggleTool_spec shouldAllow l x Hnodup) as [Hn Hm].
    destruct (IH _ Hn) as [IHn IHm]. split; [done |].
    intros t. rewrite IHm. destruct shouldAllow.
    + rewrite Hm, elem_of_cons. tauto.
    + rewrite Hm, not_elem_of_cons. tauto.
Qed.

Lemma toggleTools_again shouldAllow toolNames l :
  NoDup l →
  let l1 := fold_left (toggleTool shouldAllow) toolNames l in
  fold_left (toggleTool shouldAllow) toolNames l1 = l1.
Proof.
  intros Hnodup l1.
  destruct (toggleTools_spec shouldAllow toolNames l Hnodup) as [_ Hm]. fold l1 in Hm.
  assert (Hfix : ∀ x, x ∈ toolNames → toggleTool shouldAllow l1 x = l1).
  { intros x Hx. unfold toggleTool. destruct shouldAllow; simpl.
    - assert (x ∈ l1) as Hin by (apply Hm; by right).
      apply indexOf_elem_of in Hin.
      destruct (Z.eqb_spec (indexOf l1 x) (-1)); [lia | done].
    - assert (x ∉ l1) as Hnotin by (rewrite Hm; tauto).
      assert (indexOf l1 x = -1) as ->; [| done].
      pose proof (indexOf_bounds l1 x). pose proof (indexOf_elem_of l1 x).
      destruct (decide (0 ≤ indexOf l1 x)); [tauto | lia]. }
  clear Hm. revert Hfix. generalize l1. clear.
  induction toolNames as [|x toolNames IH]; intros l1 Hfix; simpl; [done |].
  rewrite Hfix by left. apply IH. intros y Hy. apply Hfix. by right.
Qed.

Lemma obj_set_same {V} (o : Object V) k v : obj_get o k = Some v → obj_set o k v = o.
Proof.
  induction o as [|[k' v'] o IH]; simpl; [done |].
  case_bool_decide as Hk; [by intros [= ->]; subst | intros ?; f_equal; auto].
Qed.

Lemma settings_entry_inv h serverName entry :
  settings_entry h serverName = Some entry →
  ∃ text servers, settingsFile h = Some (JSONFile text) ∧
                  mcpServers (JSON_parse text) = Some servers ∧
                  obj_get servers serverName = Some entry.
Proof.
  unfold settings_entry. destruct (settingsFile h) as [[|text]|]; try done.
  destruct (mcpServers (JSON_parse text)) as [servers|] eqn:Hs; [| done].
  simpl. eauto.
Qed.

(** What the two variants of [toggleToolAutoApprove] write. *)
Lemma writeAutoApprove_run serverName toolNames shouldAllow h text servers entry :
  settingsFile h = Some (JSONFile text) →
  mcpServers (JSON_parse text) = Some servers →
  obj_get servers serverName = Some entry →
  ∃ written h',
    writeAutoApprove serverName toolNames shouldAllow h = (Ok written, h') ∧
    settingsFile h' = Some (toggled_file servers serverName toolNames shouldAllow entry) ∧
    connections h' = connections h.
Proof.
  intros Hfile Hservers Hentry.
  unfold writeAutoApprove, getMcpSettingsFilePath, fs_readFile, fs_write. run_monad.
  rewrite Hfile. simpl. rewrite Hfile. simpl. rewrite Hservers. simpl. rewrite Hentry. simpl.
  do 2 eexists. split; [reflexivity |]. done.
Qed.

Lemma toggleToolAutoApprove_file serverName toolNames shouldAllow h text servers entry :
  settingsFile h = Some (JSONFile text) →
  mcpServers (JSON_parse text) = Some servers →
  obj_get servers serverName = Some entry →
  settingsFile (exec (toggleToolAutoApprove serverName toolNames shouldAllow) h) =
    Some (toggled_file servers serverName toolNames shouldAllow entry) ∧
  settingsFile (exec (toggleToolAutoApproveRPC serverName toolNames shouldAllow) h) =
    Some (toggled_file servers serverName toolNames shouldAllow entry) ∧
  result (toggleToolAutoApprove serverName toolNames shouldAllow) h = Ok tt.
Proof.
  intros Hfile0 Hservers Hentry.
  destruct (writeAutoApprove_run serverName toolNames shouldAllow h _ _ _ Hfile0 Hservers Hentry)
    as ([servers1 approved] & h1 & Hrun & Hfile & Hc).
  unfold toggleToolAutoApprove, toggleToolAutoApproveRPC, exec, result, try_catch.
  rewrite !(bind_run _ _ _ _ _ Hrun).
  split; [| split].
  - unfold bind at 1, get.
    destruct (find_connection serverName (connections h1)) as [conn|]; [| done].
    destruct (server_tools (server conn)) as [tools|]; [| done].
    unfold bind at 1, assign, modify.
    match goal with |- context [notifyWebviewOfServerChanges ?hx] =>
      destruct (notifyWebviewOfServerChanges_run hx) as (r & h2 & Hrun2 & _ & Hfile2 & _)
    end.
    rewrite Hrun2. simpl in Hfile2. rewrite Hfile in Hfile2. simpl in Hfile2.
    by destruct r.
  - run_monad.
    destruct (find_connection serverName (connections h1)) as [conn|]; [| done].
    by destruct (server_tools (server conn)).
  - unfold bind at 1, get.
    destruct (find_connection serverName (connections h1)) as [conn|]; [| done].
    destruct (server_tools (server conn)) as [tools|]; [| done].
    unfold bind at 1, assign, modify.
    match goal with |- context [notifyWebviewOfServerChanges ?hx] => set (h3 := hx) end.
    assert (Hfile3 : settingsFile h3 = Some (toggled_file servers serverName toolNames shouldAllow entry))
      by done.
    clearbody h3. unfold notifyWebviewOfServerChanges, getMcpSettingsFilePath, fs_readFile.
    run_monad. rewrite Hfile3. simpl. rewrite Hfile3. done.
Qed.

(** C9 (as amended): for a server that has an entry in the settings file
    whose auto-approve array holds no name twice, [toggleToolAutoApprove]
    succeeds and the names read back from the file are those of the array
    together with the given names (flag true), or those of the array that
    are not among the given names (flag false); the array written holds
    no name twice, the variant for RPC writes the same file, and a second
    call with the same arguments leaves the file as the first one left
    it. *)
Theorem autoApprove_toggle_is_idempotent (serverName : string) (toolNames : list string)
    (shouldAllow : bool) (h : McpHub) (entry : McpServerConfig) :
  settings_entry h serverName = Some entry →
  NoDup (read_autoApprove h serverName) →
  let h1 := exec (toggleToolAutoApprove serverName toolNames shouldAllow) h in
  let h2 := exec (toggleToolAutoApprove serverName toolNames shouldAllow) h1 in
  result (toggleToolAutoApprove serverName toolNames shouldAllow) h = Ok tt ∧
  (∀ t, t ∈ read_autoApprove h1 serverName ↔
        if shouldAllow then t ∈ read_autoApprove h serverName ∨ t ∈ toolNames
        else t ∈ read_autoApprove h serverName ∧ t ∉ toolNames) ∧
  NoDup (read_autoApprove h1 serverName) ∧
  settingsFile (exec (toggleToolAutoApproveRPC serverName toolNames shouldAllow) h) =
    settingsFile h1 ∧
  settingsFile h2 = settingsFile h1.
Proof.
  intros Hentry Hnodup h1 h2.
  destruct (settings_entry_inv h serverName entry Hentry) as (text & servers & Hfile0 & Hservers & Hget0).
  destruct (toggleToolAutoApprove_file serverName toolNames shouldAllow h _ _ _ Hfile0 Hservers Hget0)
    as (Hfile & HfileRPC & Hok).
  fold h1 in Hfile.
  assert (Hread : read_autoApprove h serverName = or_empty (cfg_autoApprove entry)).
  { unfold read_autoApprove. by rewrite Hentry. }
  rewrite Hread in *.
  set (l1 := fold_left (toggleTool shouldAllow) toolNames (or_empty (cfg_autoApprove entry))) in *.
  set (entry1 := with_cfg_autoApprove (Some l1) entry).
  set (servers1 := obj_set servers serverName entry1).
  assert (Hfile1 : settingsFile h1 = Some (JSONFile (JSON_stringify {| mcpServers := Some servers1 |})))
    by exact Hfile.
  assert (Hget1 : obj_get servers1 serverName = Some entry1) by apply obj_get_set.
  assert (Hread1 : read_autoApprove h1 serverName = l1).
  { unfold read_autoApprove, settings_entry. rewrite Hfile1. simpl. by rewrite Hget1. }
  destruct (toggleTools_spec shouldAllow toolNames _ Hnodup) as [Hn Hm]. fold l1 in Hn, Hm.
  split; [done |]. split; [by rewrite Hread1 |]. split; [by rewrite Hread1 |].
  split; [congruence |].
  destruct (toggleToolAutoApprove_file serverName toolNames shouldAllow h1 _ _ _ Hfile1 eq_refl Hget1)
    as (Hfile2 & _ & _).
  fold h2 in Hfile2. rewrite Hfile2, Hfile1. unfold toggled_file. do 4 f_equal.
  pose proof (toggleTools_again shouldAllow toolNames _ Hnodup) as Hagain.
  simpl in Hagain. fold l1 in Hagain. simpl. fold l1. rewrite Hagain.
  f_equal. apply obj_set_same. exact Hget1.
Qed.

Lemma autoApprove_toggle_is_idempotent_witness :
  let h1 := exec (toggleToolAutoApprove "a" ["write"; "read"; "write"] true) sample_hub in
  let h2 := exec (toggleToolAutoApprove "a" ["write"; "read"; "write"] true) h1 in
  read_autoApprove sample_hub "a" = ["read"] ∧
  NoDup (read_autoApprove sample_hub "a") ∧
  (∀ t, t ∈ read_autoApprove h1 "a" ↔
        t ∈ read_autoApprove sample_hub "a" ∨ t ∈ ["write"; "read"; "write"]) ∧
  settingsFile h2 = settingsFile h1.
Proof.
  intros h1 h2.
  assert (Hnodup : NoDup (read_autoApprove sample_hub "a")).
  { apply (bool_decide_unpack (NoDup (read_autoApprove sample_hub "a"))). vm_compute. exact I. }
  assert (Hentry : settings_entry sample_hub "a" = Some (sample_stdio "node" None)).
  { vm_compute. reflexivity. }
  destruct (autoApprove_toggle_is_idempotent "a" ["write"; "read"; "write"] true sample_hub
              (sample_stdio "node" None) Hentry Hnodup)
    as (_ & Hset & _ & _ & Hsame).
  split; [vm_compute; reflexivity |]. split; [exact Hnodup |].
  split; [exact Hset | exact Hsame].
Defined.

(** C9 as stated fails: an auto-approve array that holds a name twice
    still holds it after the name was removed once, and a second removal
    changes the set again. *)
Lemma autoApprove_toggle_with_duplicates :
  let config := with_cfg_autoApprove (Some ["read"; "read"]) (sample_stdio "node" None) in
  let h := new_McpHub "3.0" (sample_file [("a", config)]) in
  let h1 := exec (toggleToolAutoApprove "a" ["read"] false) h in
  let h2 := exec (toggleToolAutoApprove "a" ["read"] false) h1 in
  read_autoApprove h "a" = ["read"; "read"] ∧
  read_autoApprove h1 "a" = ["read"] ∧
  read_autoApprove h2 "a" = [] ∧
  ¬ (∀ t, t ∈ read_autoApprove h2 "a" ↔ t ∈ read_autoApprove h1 "a").
Proof.
  intros config h h1 h2.
  assert (H1 : read_autoApprove h1 "a" = ["read"]) by (vm_compute; reflexivity).
  assert (H2 : read_autoApprove h2 "a" = []) by (vm_compute; reflexivity).
  split; [vm_compute; reflexivity |]. split; [exact H1 |]. split; [exact H2 |].
  intros Hsame. specialize (Hsame "read"). rewrite H1, H2 in Hsame.
  apply (not_elem_of_nil "read"). apply Hsame. in_list.
Qed.

(** ** Adding a remote server *)

Lemma readAndValidateMcpSettingsFile_present w h content servers :
  settingsFile h = Some content →
  validated w (settingsFile h) = Some servers →
  readAndValidateMcpSettingsFile w h = (Ok (Some servers), h).
Proof.
  intros Hfile. unfold readAndValidateMcpSettingsFile, validated, getMcpSettingsFilePath, fs_readFile.
  run_monad. rewrite Hfile. simpl. rewrite Hfile. simpl.
  destruct content as [|text]; simpl; [done |].
  destruct (McpSettingsSchema_safeParse w (JSON_parse text)); simpl; [| done].
  by intros [= ->].
Qed.

Lemma addRemoteServer_refused w serverName serverUrl h servers message :
  validated w (settingsFile h) = Some servers →
  addRemoteServer_refusal w servers serverName serverUrl = Some message →
  result (addRemoteServer w serverName serverUrl) h = Throw message ∧
  connections (exec (addRemoteServer w serverName serverUrl) h) = connections h ∧
  settingsFile (exec (addRemoteServer w serverName serverUrl) h) = Some (ensure (settingsFile h)) ∧
  (∀ content, settingsFile h = Some content →
     exec (addRemoteServer w serverName serverUrl) h =
       add_effect (console_error ("Failed to add remote MCP server: " +:+ message)) h).
Proof.
  intros Hvalid Hrefused. unfold addRemoteServer_refusal in Hrefused.
  assert (Hbody : ∀ h1,
    (if bool_decide (is_Some (obj_get servers serverName))
     then throw ("An MCP server with the name " +:+ quoted serverName +:+ " already exists")
     else if negb (url_safeParse w serverUrl)
     then throw ("Invalid server URL: " +:+ serverUrl +:+ ". Please provide a valid URL.")
     else
       let serverConfig := remoteServerConfig serverUrl in
       parsedConfig <- lift (ServerConfigSchema_parse w serverConfig) ;;
       let mcpServers := obj_set servers serverName parsedConfig in
       _ <- getMcpSettingsFilePath ;;
       _ <- fs_write (JSONFile (JSON_stringify
              {| mcpServers := Some (obj_set mcpServers serverName serverConfig) |})) ;;
       _ <- updateServerConnectionsRPC w mcpServers ;;
       let serverOrder := Object_keys mcpServers in
       h <- get ;; ret (getSortedMcpServers serverOrder (connections h))) h1 =
    (Throw message, h1)).
  { intros h1. case_bool_decide; [by injection Hrefused as <- |].
    destruct (negb (url_safeParse w serverUrl)); [by injection Hrefused as <- | done]. }
  repeat split.
  - destruct (readAndValidateMcpSettingsFile_run w h) as (h1 & Hrun & _ & _).
    unfold addRemoteServer, result, try_catch. rewrite (bind_run _ _ _ _ _ Hrun), Hvalid.
    rewrite Hbody. done.
  - destruct (readAndValidateMcpSettingsFile_run w h) as (h1 & Hrun & (Hc & _) & _).
    unfold addRemoteServer, exec, try_catch. rewrite (bind_run _ _ _ _ _ Hrun), Hvalid.
    rewrite Hbody. done.
  - destruct (readAndValidateMcpSettingsFile_run w h) as (h1 & Hrun & _ & Hfile).
    unfold addRemoteServer, exec, try_catch. rewrite (bind_run _ _ _ _ _ Hrun), Hvalid.
    rewrite Hbody. done.
  - intros content Hfile.
    pose proof (readAndValidateMcpSettingsFile_present w h content servers Hfile Hvalid) as Hrun.
    unfold addRemoteServer, exec, try_catch. rewrite (bind_run _ _ _ _ _ Hrun).
    rewrite Hbody. done.
Qed.

(** C10 (as amended): [addRemoteServer] throws when the name is a key of
    the validated [mcpServers], and throws when the name is new and the
    URL fails validation.  In both cases the registry is as before, and a
    settings file that exists is not written: the hub is as before but
    for the error it has logged.  A settings file that was missing has
    been created, empty, before the checks. *)
Theorem addRemoteServer_refuses_without_adding (w : World) (serverName serverUrl : string)
    (h : McpHub) (servers : Object McpServerConfig) :
  validated w (settingsFile h) = Some servers →
  let h' := exec (addRemoteServer w serverName serverUrl) h in
  (is_Some (obj_get servers serverName) →
     let message :=
       "An MCP server with the name " +:+ quoted serverName +:+ " already exists" in
     result (addRemoteServer w serverName serverUrl) h = Throw message ∧
     connections h' = connections h ∧
     settingsFile h' = Some (ensure (settingsFile h)) ∧
     (∀ content, settingsFile h = Some content →
        h' = add_effect (console_error ("Failed to add remote MCP server: " +:+ message)) h)) ∧
  (obj_get servers serverName = None → url_safeParse w serverUrl = false →
     let message := "Invalid server URL: " +:+ serverUrl +:+ ". Please provide a valid URL." in
     result (addRemoteServer w serverName serverUrl) h = Throw message ∧
     connections h' = connections h ∧
     settingsFile h' = Some (ensure (settingsFile h)) ∧
     (∀ content, settingsFile h = Some content →
        h' = add_effect (console_error ("Failed to add remote MCP server: " +:+ message)) h)).
Proof.
  intros Hvalid h'. split.
  - intros Hexists message. apply (addRemoteServer_refused w serverName serverUrl h servers); [done |].
    unfold addRemoteServer_refusal. by rewrite bool_decide_true.
  - intros Hnew Hurl message.
    apply (addRemoteServer_refused w serverName serverUrl h servers); [done |].
    unfold addRemoteServer_refusal. rewrite bool_decide_false, Hurl; [done |].
    rewrite Hnew. by intros [? ?].
Qed.

Lemma addRemoteServer_refuses_without_adding_witness :
  validated healthy (settingsFile sample_hub) = Some sample_servers ∧
  is_Some (obj_get sample_servers "a") ∧
  exec (addRemoteServer healthy "a" "https://example.com/mcp") sample_hub =
    add_effect (console_error ("Failed to add remote MCP server: " +:+
      ("An MCP server with the name " +:+ quoted "a" +:+ " already exists"))) sample_hub ∧
  obj_get sample_servers "r" = None ∧
  url_safeParse healthy "example.com" = false ∧
  exec (addRemoteServer healthy "r" "example.com") sample_hub =
    add_effect (console_error ("Failed to add remote MCP server: " +:+
      ("Invalid server URL: " +:+ "example.com" +:+ ". Please provide a valid URL."))) sample_hub.
Proof.
  assert (Hvalid : validated healthy (settingsFile sample_hub) = Some sample_servers)
    by (vm_compute; reflexivity).
  assert (Hfile : settingsFile sample_hub = sample_file sample_servers)
    by (vm_compute; reflexivity).
  assert (Hexists : is_Some (obj_get sample_servers "a")) by (eexists; reflexivity).
  split; [exact Hvalid |]. split; [exact Hexists |]. split; [| split; [reflexivity |]; split; [reflexivity |]].
  - destruct (proj1 (addRemoteServer_refuses_without_adding healthy "a" "https://example.com/mcp"
                       sample_hub sample_servers Hvalid) Hexists) as (_ & _ & _ & Hsame).
    exact (Hsame _ Hfile).
  - destruct (proj2 (addRemoteServer_refuses_without_adding healthy "r" "example.com"
                       sample_hub sample_servers Hvalid) eq_refl eq_refl) as (_ & _ & _ & Hsame).
    exact (Hsame _ Hfile).
Defined.

(** C10 as stated fails: when the settings file is missing, a refused
    addition leaves a settings file behind, the empty one that
    [getMcpSettingsFilePath] creates. *)
Lemma addRemoteServer_creates_missing_file :
  let h := new_McpHub "3.0" None in
  let h' := exec (addRemoteServer healthy "r" "example.com") h in
  result (addRemoteServer healthy "r" "example.com") h =
    Throw "Invalid server URL: example.com. Please provide a valid URL." ∧
  settingsFile h = None ∧
  settingsFile h' = Some emptySettings ∧
  fs_writeFile emptySettings ∈ effects h'.
Proof.
  intros h h'. split; [vm_compute; reflexivity |]. split; [reflexivity |].
  split; [vm_compute; reflexivity |]. vm_compute. in_list.
Qed.

(** ** Further properties of the hub *)



(** *** One connection per name *)








(** *** The two reconciliation methods *)

Lemma for_of_ok {A} (l : list A) (body : A → M unit) :
  (∀ x h, ∃ h', body x h = (Ok tt, h')) → ∀ h, ∃ h', for_of l body h = (Ok tt, h').
Proof.
  intros Hbody. induction l as [|x l IH]; intros h; simpl; [by eexists |].
  destruct (Hbody x h) as (h1 & Hrun). destruct (IH h1) as (h2 & Hrun2).
  exists h2. by rewrite (bind_run _ _ _ _ _ Hrun).
Qed.

Lemma reconcile_loops_ok w source newServers h :
  ∃ h', reconcile_loops w source newServers h = (Ok tt, h').
Proof.
  unfold reconcile_loops. unfold bind at 1, modify at 1.
  destruct (removeAllFileWatchers_run (set_isConnecting true h)) as (h1 & Hrun1 & _).
  destruct (deleteRemovedServers_run w newServers h1) as (h2 & Hrun2 & _).
  destruct (for_of_ok (Object_entries newServers) (updateOrAddServer w source)) with (h := h2)
    as (h3 & Hrun3).
  { intros [name config] hx.
    destruct (updateOrAddServer_run w source name config hx) as (hx' & Hrun & _). eauto. }
  exists h3. by rewrite (bind_run _ _ _ _ _ Hrun1), (bind_run _ _ _ _ _ Hrun2).
Qed.

Lemma updateServerConnectionsRPC_split w newServers h :
  updateServerConnectionsRPC w newServers h =
    (Ok tt, set_isConnecting false (exec (reconcile_loops w rpc newServers) h)).
Proof.
  destruct (reconcile_loops_ok w rpc newServers h) as (h3 & Hrun).
  rewrite (exec_run _ _ _ _ Hrun). revert Hrun.
  unfold updateServerConnectionsRPC, reconcile_loops, bind, modify.
  destruct (removeAllFileWatchers _) as [[[]|e1] h1]; [| done].
  destruct (deleteRemovedServers _ _ _) as [[[]|e2] h2]; [| done].
  destruct (for_of _ _ _) as [[[]|e3] h3']; [| done].
  by intros [= ->].
Qed.

Lemma updateServerConnections_split w newServers h :
  updateServerConnections w newServers h =
    (_ <- notifyWebviewOfServerChanges ;; modify (set_isConnecting false))
      (exec (reconcile_loops w internal newServers) h).
Proof.
  destruct (reconcile_loops_ok w internal newServers h) as (h3 & Hrun).
  rewrite (exec_run _ _ _ _ Hrun). revert Hrun.
  unfold updateServerConnections, reconcile_loops. unfold bind at 1 2 3 4 5 6 7, modify at 1 2.
  destruct (removeAllFileWatchers _) as [[[]|e1] h1]; [| done].
  destruct (deleteRemovedServers _ _ _) as [[[]|e2] h2]; [| done].
  destruct (for_of _ _ _) as [[[]|e3] h3']; [| done].
  by intros [= ->].
Qed.

Lemma reconcile_loops_source w newServers h :
  reconcile_loops w rpc newServers h = reconcile_loops w internal newServers h.
Proof. reflexivity. Qed.

(** The registry after the loops, one server at a time. *)
Lemma reconcile_loops_run w source (newServers : Object McpServerConfig) h :
  NoDup (Object_keys newServers) →
  let h' := exec (reconcile_loops w source newServers) h in
  clientVersion h' = clientVersion h ∧
  ensure (settingsFile h') = ensure (settingsFile h) ∧
  (∀ name, name ∉ Object_keys newServers → find_connection name (connections h') = None) ∧
  (∀ name config, (name, config) ∈ newServers →
     find_connection name (connections h') =
       reconciled w (clientVersion h) (settingsFile h) name config
         (find_connection name (connections h))).
Proof.
  intros Hnodup h'.
  destruct (updateServerConnections_run w newServers h Hnodup)
    as (r & h4 & Hrun & Hv & Hf & Hnone & Hentries).
  assert (Hh' : h' = exec (reconcile_loops w internal newServers) h).
  { subst h'. by destruct source. }
  rewrite updateServerConnections_split, <- Hh' in Hrun.
  destruct (notifyWebviewOfServerChanges_run h') as (r' & h5 & Hrun5 & (Hc5 & Hv5 & Hf5) & _).
  assert (Hc : connections h4 = connections h' ∧ clientVersion h4 = clientVersion h' ∧
               ensure (settingsFile h4) = ensure (settingsFile h')).
  { revert Hrun. unfold bind. rewrite Hrun5. destruct r' as [[]|e]; intros [= <- <-]; done. }
  destruct Hc as (Hc & Hv' & Hf').
  rewrite <- Hc, <- Hv', <- Hf'.
  split; [done |]. split; [done |]. split; [done |].
  intros name config Hin. by destruct (Hentries name config Hin).
Qed.

Lemma reconcile_loops_isConnecting w source newServers h :
  isConnecting (exec (reconcile_loops w source newServers) h) = true.
Proof.
  assert (Hrest : preserves (λ h, isConnecting h = true)
            (_ <- removeAllFileWatchers ;;
             _ <- deleteRemovedServers w newServers ;;
             for_of (Object_entries newServers) (updateOrAddServer w source))).
  { preserves_with ltac:(intros ? ?; simpl; assumption). }
  unfold reconcile_loops. rewrite exec_bind. unfold result, modify at 1. simpl.
  apply Hrest. done.
Qed.

Lemma updateServerConnections_connections w newServers h :
  connections (exec (updateServerConnections w newServers) h) =
    connections (exec (reconcile_loops w internal newServers) h).
Proof.
  unfold exec at 1. rewrite updateServerConnections_split.
  destruct (notifyWebviewOfServerChanges_run (exec (reconcile_loops w internal newServers) h))
    as (r & h5 & Hrun5 & (Hc5 & _) & _).
  unfold bind. rewrite Hrun5. by destruct r as [[]|e].
Qed.

Lemma updateServerConnectionsRPC_connections w newServers h :
  connections (exec (updateServerConnectionsRPC w newServers) h) =
    connections (exec (reconcile_loops w internal newServers) h).
Proof. unfold exec at 1. by rewrite updateServerConnectionsRPC_split. Qed.

Lemma reconcile_loops_names w source (newServers : Object McpServerConfig) h conn :
  NoDup (Object_keys newServers) →
  conn ∈ connections (exec (reconcile_loops w source newServers) h) →
  conn_name conn ∈ Object_keys newServers.
Proof.
  intros Hnodup Hconn.
  destruct (reconcile_loops_run w source newServers h Hnodup) as (_ & _ & Hnone & _).
  destruct (decide (conn_name conn ∈ Object_keys newServers)) as [|Hnot]; [done |].
  specialize (Hnone _ Hnot). exfalso.
  by apply (proj1 (find_connection_None _ _) Hnone conn Hconn).
Qed.

(** X2: after a reconciliation pass, by either method, every connection
    of the registry is one of a desired server: the connections of the
    servers that are no longer desired are gone. *)
Theorem reconcile_deletes_undesired (w : World) (newServers : Object McpServerConfig)
    (h : McpHub) (conn : McpConnection) :
  NoDup (Object_keys newServers) →
  (conn ∈ connections (exec (updateServerConnections w newServers) h) →
   conn_name conn ∈ Object_keys newServers) ∧
  (conn ∈ connections (exec (updateServerConnectionsRPC w newServers) h) →
   conn_name conn ∈ Object_keys newServers).
Proof.
  intros Hnodup.
  rewrite updateServerConnections_connections, updateServerConnectionsRPC_connections.
  split; by apply reconcile_loops_names.
Qed.

Lemma reconcile_deletes_undesired_witness :
  NoDup (Object_keys [("b", sample_stdio "python" (Some true))]) ∧
  connections sample_hub ≠ [] ∧
  ∀ conn, conn ∈ connections (exec (updateServerConnections close_throws
                                      [("b", sample_stdio "python" (Some true))]) sample_hub) →
          conn_name conn ∈ ["b"].
Proof.
  assert (Hnodup : NoDup (Object_keys [("b", sample_stdio "python" (Some true))])).
  { apply NoDup_singleton. }
  split; [exact Hnodup |]. split; [vm_compute; discriminate |].
  intros conn.
  exact (proj1 (reconcile_deletes_undesired close_throws
                  [("b", sample_stdio "python" (Some true))] sample_hub conn Hnodup)).
Defined.

Ltac unpublished_leaf :=
  idtac;
  let h := fresh "h" in
  let added := fresh "added" in
  let Heq := fresh "Heq" in
  let Hq := fresh "Hq" in
  intros h (added & Heq & Hq); unfold unpublished_after; simpl;
  first
    [ by exists added
    | eexists (added ++ [_]); split;
      [ rewrite Heq, <- app_assoc; reflexivity
      | apply Forall_app; split; [exact Hq | by repeat constructor] ] ].

Lemma updateServerConnectionsRPC_unpublished w newServers log :
  preserves (unpublished_after log) (updateServerConnectionsRPC w newServers).
Proof. preserves_with unpublished_leaf. Qed.

(** X3: [updateServerConnectionsRPC] reconciles the registry exactly as
    [updateServerConnections] does, but it never throws, always lowers
    the [isConnecting] flag, and nothing of what it adds to the log is a
    publication of the servers to the webview. *)
Theorem rpc_reconciliation_does_not_publish (w : World)
    (newServers : Object McpServerConfig) (h : McpHub) :
  connections (exec (updateServerConnectionsRPC w newServers) h) =
    connections (exec (updateServerConnections w newServers) h) ∧
  result (updateServerConnectionsRPC w newServers) h = Ok tt ∧
  isConnecting (exec (updateServerConnectionsRPC w newServers) h) = false ∧
  unpublished_after (effects h) (exec (updateServerConnectionsRPC w newServers) h).
Proof.
  split; [by rewrite updateServerConnections_connections, updateServerConnectionsRPC_connections |].
  split; [unfold result; by rewrite updateServerConnectionsRPC_split |].
  split; [unfold exec; by rewrite updateServerConnectionsRPC_split |].
  apply (updateServerConnectionsRPC_unpublished w newServers (effects h) h).
  exists []. by rewrite app_nil_r.
Qed.

Lemma reconcile_loops_steady w source newServers h :
  clientVersion (exec (reconcile_loops w source newServers) h) = clientVersion h ∧
  ensure (settingsFile (exec (reconcile_loops w source newServers) h)) = ensure (settingsFile h).
Proof.
  assert (Hloop : ∀ (entries : Object McpServerConfig) h0, ∃ h1,
    for_of entries (updateOrAddServer w source) h0 = (Ok tt, h1) ∧
    clientVersion h1 = clientVersion h0 ∧ ensure (settingsFile h1) = ensure (settingsFile h0)).
  { induction entries as [|[n c] entries IH]; intros h0; simpl; [by eexists |].
    destruct (updateOrAddServer_run w source n c h0) as (h1 & Hrun & _ & Hv & Hf & _).
    destruct (IH h1) as (h2 & Hrun2 & Hv2 & Hf2).
    exists h2. rewrite (bind_run _ _ _ _ _ Hrun). split; [done |]. split; congruence. }
  destruct (removeAllFileWatchers_run (set_isConnecting true h)) as (h1 & Hrun1 & (_ & Hv1 & Hf1) & _).
  destruct (deleteRemovedServers_run w newServers h1) as (h2 & Hrun2 & _ & Hv2 & Hs2).
  destruct (Hloop (Object_entries newServers) h2) as (h3 & Hrun3 & Hv3 & Hf3).
  assert (Hexec : exec (reconcile_loops w source newServers) h = h3).
  { unfold reconcile_loops, exec. unfold bind at 1, modify at 1.
    by rewrite (bind_run _ _ _ _ _ Hrun1), (bind_run _ _ _ _ _ Hrun2), Hrun3. }
  rewrite Hexec.
  split; [by rewrite Hv3, Hv2, Hv1 | by rewrite Hf3, Hs2, Hf1].
Qed.

(** X4: [updateServerConnections] ends by publishing the registry, sorted
    by the keys of the settings file, and lowering [isConnecting]; when
    the settings file is not JSON it throws instead, after the registry
    was reconciled, and [isConnecting] stays raised. *)
Theorem reconciliation_publishes_or_stays_connecting (w : World)
    (newServers : Object McpServerConfig) (h : McpHub) :
  let h' := exec (updateServerConnections w newServers) h in
  match ensure (settingsFile h) with
  | NotJSON =>
      result (updateServerConnections w newServers) h = Throw "Unexpected token in JSON" ∧
      isConnecting h' = true
  | JSONFile text =>
      result (updateServerConnections w newServers) h = Ok tt ∧
      isConnecting h' = false ∧
      last (effects h') =
        Some (sendMcpServersUpdate
                (getSortedMcpServers (Object_keys (default [] (mcpServers (JSON_parse text))))
                   (connections h')))
  end.
Proof.
  intros h'. subst h'. unfold exec, result. rewrite updateServerConnections_split.
  pose proof (reconcile_loops_isConnecting w internal newServers h) as Hflag.
  destruct (reconcile_loops_steady w internal newServers h) as [_ Hfile].
  revert Hflag Hfile. generalize (exec (reconcile_loops w internal newServers) h). intros h3 Hflag Hfile.
  rewrite <- Hfile.
  unfold notifyWebviewOfServerChanges, getMcpSettingsFilePath, fs_readFile, fs_write. run_monad.
  destruct (settingsFile h3) as [[|text]|] eqn:Hs; simpl; rewrite ?Hs; simpl.
  - done.
  - split; [done |]. split; [done |]. by rewrite last_snoc.
  - split; [done |]. split; [done |]. by rewrite last_snoc.
Qed.

(** ** A repeated reconciliation pass *)

Lemma connect_outcome_config w version file name config conn :
  connect_outcome w version file name config = Some conn →
  deepEqual (JSON_parse (server_config (server conn))) config = true.
Proof.
  unfold connect_outcome, deepEqual.
  destruct (truthy_bool (cfg_disabled config)).
  { intros [= <-]. simpl. by apply bool_decide_eq_true_2. }
  destruct (opened w name config) as [t|e]; [| done].
  destruct (on_client_connect w name); intros [= <-]; simpl; by apply bool_decide_eq_true_2.
Qed.

Lemma reconciled_config w version file name config current conn :
  reconciled w version file name config current = Some conn →
  deepEqual (JSON_parse (server_config (server conn))) config = true.
Proof.
  unfold reconciled. destruct current as [c|].
  - destruct (deepEqual (JSON_parse (server_config (server c))) config) eqn:Heq.
    + by intros [= <-].
    + apply connect_outcome_config.
  - apply connect_outcome_config.
Qed.

(** X5: a second reconciliation pass with the same desired servers keeps
    every entry the first pass registered, whatever the servers would
    answer now: a server whose handshake failed is not tried again.  When
    every desired server is registered, the second pass changes no
    connection, and nothing of what it adds to the log is traffic with a
    server. *)
Theorem reconcile_again_keeps_entries (w1 w2 : World)
    (newServers : Object McpServerConfig) (h : McpHub) :
  NoDup (Object_keys newServers) →
  let h1 := exec (updateServerConnections w1 newServers) h in
  let h2 := exec (updateServerConnections w2 newServers) h1 in
  (∀ name config conn, (name, config) ∈ newServers →
     find_connection name (connections h1) = Some conn →
     find_connection name (connections h2) = Some conn) ∧
  ((∀ name config, (name, config) ∈ newServers →
      is_Some (find_connection name (connections h1))) →
   connections h2 = connections h1 ∧ quiet_after (effects h1) h2).
Proof.
  intros Hnodup h1 h2.
  assert (Hcfg : ∀ name config conn, (name, config) ∈ newServers →
            find_connection name (connections h1) = Some conn →
            deepEqual (JSON_parse (server_config (server conn))) config = true).
  { intros name config conn Hin Hfind. subst h1.
    rewrite updateServerConnections_connections in Hfind.
    destruct (reconcile_loops_run w1 internal newServers h Hnodup) as (_ & _ & _ & Hentries).
    rewrite (Hentries _ _ Hin) in Hfind. by eapply reconciled_config. }
  split.
  - intros name config conn Hin Hfind. subst h2.
    rewrite updateServerConnections_connections.
    destruct (reconcile_loops_run w2 internal newServers h1 Hnodup) as (_ & _ & _ & Hentries).
    rewrite (Hentries _ _ Hin), Hfind. unfold reconciled.
    by rewrite (Hcfg _ _ _ Hin Hfind).
  - intros Hall. subst h2. apply updateServerConnections_unchanged.
    + intros name config Hin. destruct (Hall _ _ Hin) as [conn Hfind].
      exists conn. split; [done |]. by eapply Hcfg.
    + intros conn Hconn. subst h1. rewrite updateServerConnections_connections in Hconn.
      by eapply reconcile_loops_names.
Qed.

Lemma reconcile_again_keeps_entries_witness :
  NoDup (Object_keys [("a", sample_stdio "node" None)]) ∧
  on_client_connect handshake_fails "a" ≠ on_client_connect healthy "a" ∧
  (∀ name config conn, (name, config) ∈ [("a", sample_stdio "node" None)] →
     find_connection name
       (connections (exec (updateServerConnections handshake_fails
                             [("a", sample_stdio "node" None)])
                       (new_McpHub "1.0" None))) = Some conn →
     find_connection name
       (connections (exec (updateServerConnections healthy [("a", sample_stdio "node" None)])
                       (exec (updateServerConnections handshake_fails
                                [("a", sample_stdio "node" None)])
                          (new_McpHub "1.0" None)))) = Some conn).
Proof.
  assert (Hnodup : NoDup (Object_keys [("a", sample_stdio "node" None)])).
  { apply NoDup_singleton. }
  split; [exact Hnodup |]. split; [vm_compute; discriminate |].
  exact (proj1 (reconcile_again_keeps_entries handshake_fails healthy
                  [("a", sample_stdio "node" None)] (new_McpHub "1.0" None) Hnodup)).
Defined.

(** ** File watchers *)

Ltac same_watchers_leaf := idtac; intros ? ?; simpl; assumption.

Lemma notifyWebviewOfServerChanges_watchers W :
  preserves (λ h, fileWatchers h = W) notifyWebviewOfServerChanges.
Proof. preserves_with same_watchers_leaf. Qed.

Lemma deleteRemovedServers_watchers w newServers W :
  preserves (λ h, fileWatchers h = W) (deleteRemovedServers w newServers).
Proof. preserves_with same_watchers_leaf. Qed.

Lemma removeAllFileWatchers_clears h : fileWatchers (exec removeAllFileWatchers h) = [].
Proof.
  unfold removeAllFileWatchers, exec. unfold bind at 1, get.
  destruct (for_of_ok (fileWatchers h) (λ watcher, perform (watcher_close watcher.1))
              (λ x h0, ex_intro _ _ eq_refl) h) as (h1 & Hrun).
  by rewrite (bind_run _ _ _ _ _ Hrun).
Qed.

Ltac watched_leaf :=
  idtac;
  let h := fresh "h" in
  let Hh := fresh "Hh" in
  let Hs := fresh "Hs" in
  let Hne := fresh "Hne" in
  intros h Hh; unfold watched_by in *; simpl;
  first
    [ exact Hh
    | intros Hs;
      match type of Hs with
      | is_Some (obj_get (obj_set _ ?n _) ?name) =>
          destruct (decide (n = name)) as [|Hne];
          [ right; congruence
          | rewrite (obj_get_set_ne _ _ _ _ Hne) in Hs; by apply Hh ]
      end ].

Lemma updateOrAddServer_watched w source n config W name :
  preserves (watched_by W n name) (updateOrAddServer w source (n, config)).
Proof. preserves_with watched_leaf. Qed.

Lemma updateOrAddServers_watchers w source (entries : Object McpServerConfig) :
  NoDup (Object_keys entries) →
  ∀ h name,
    is_Some (obj_get (fileWatchers (exec (for_of entries (updateOrAddServer w source)) h)) name) →
    is_Some (obj_get (fileWatchers h) name) ∨
    ∃ config, (name, config) ∈ entries ∧ connected_anew name config h.
Proof.
  unfold Object_keys.
  induction entries as [|[n cfg] entries IH]; intros Hnodup h name Hs.
  { by left. }
  apply NoDup_cons in Hnodup as [Hn Hnodup]. simpl in Hn.
  destruct (updateOrAddServer_run w source n cfg h) as (h1 & Hrun1 & Hc1 & _).
  assert (Hother : ∀ name, name ≠ n →
            find_connection name (connections h1) = find_connection name (connections h)).
  { intros name' Hne. rewrite !find_connection_only. f_equal. rewrite Hc1.
    destruct (find_connection n (connections h)) as [conn|];
      [destruct (deepEqual _ _); [done |] |];
      rewrite only_app, only_without_ne, (only_option_list_ne name' n), app_nil_r;
        eauto using connect_outcome_name. }
  unfold exec in Hs. simpl in Hs. rewrite (bind_run _ _ _ _ _ Hrun1) in Hs.
  destruct (IH Hnodup h1 name Hs) as [Hs1 | (config & Hin & Hanew)].
  - pose proof (updateOrAddServer_watched w source n cfg (fileWatchers h) name h) as Hw.
    rewrite (exec_run _ _ _ _ Hrun1) in Hw.
    destruct (Hw ltac:(by intros ?; left) Hs1) as [? | ->]; [by left |].
    destruct (find_connection n (connections h)) as [conn|] eqn:Hfind.
    + destruct (deepEqual (JSON_parse (server_config (server conn))) cfg) eqn:Heq.
      * left. revert Hrun1. unfold updateOrAddServer. unfold bind at 1, get.
        rewrite Hfind, Heq. simpl. by intros [= <-].
      * right. exists cfg. split; [left |]. unfold connected_anew. rewrite Hfind. by intros ? [= <-].
    + right. exists cfg. split; [left |]. unfold connected_anew. by rewrite Hfind.
  - right. exists config. split; [by right |].
    assert (Hne : name ≠ n).
    { intros ->. apply Hn. apply list_elem_of_fmap. by exists (n, config). }
    unfold connected_anew in *. by rewrite <- (Hother _ Hne).
Qed.

Lemma reconcile_loops_watchers w source (newServers : Object McpServerConfig) h name :
  NoDup (Object_keys newServers) →
  is_Some (obj_get (fileWatchers (exec (reconcile_loops w source newServers) h)) name) →
  ∃ config, (name, config) ∈ newServers ∧ connected_anew name config h.
Proof.
  intros Hnodup. unfold reconcile_loops, exec. unfold bind at 1, modify at 1.
  set (h0 := set_isConnecting true h).
  pose proof (removeAllFileWatchers_clears h0) as Hw1.
  destruct (removeAllFileWatchers_run h0) as (h1 & Hrun1 & (Hc1 & _) & _).
  rewrite (exec_run _ _ _ _ Hrun1) in Hw1.
  pose proof (deleteRemovedServers_watchers w newServers [] h1 Hw1) as Hw2.
  destruct (deleteRemovedServers_run w newServers h1) as (h2 & Hrun2 & Hc2 & _).
  rewrite (exec_run _ _ _ _ Hrun2) in Hw2.
  rewrite (bind_run _ _ _ _ _ Hrun1), (bind_run _ _ _ _ _ Hrun2).
  intros Hs.
  destruct (updateOrAddServers_watchers w source (Object_entries newServers) Hnodup h2 name Hs)
    as [Hs2 | (config & Hin & Hanew)].
  { rewrite Hw2 in Hs2. by destruct Hs2. }
  exists config. split; [done |].
  assert (Hfind : find_connection name (connections h2) = find_connection name (connections h)).
  { rewrite Hc2, Hc1. simpl. rewrite !find_connection_only. f_equal.
    unfold only. rewrite list_filter_filter. apply list_filter_iff.
    intros c. split; [tauto |]. intros Hc. split; [done |]. rewrite Hc.
    apply list_elem_of_fmap. by exists (name, config). }
  unfold connected_anew in *. by rewrite <- Hfind.
Qed.

(** X6: after a reconciliation pass a file watcher exists only for a
    desired server that the pass connected anew: one that had no registry
    entry, or one whose stored configuration differs from the new one.  A
    server whose entry the pass keeps is no longer watched, even if it was
    watched before the pass. *)
Theorem watchers_only_for_servers_connected_anew (w : World)
    (newServers : Object McpServerConfig) (h : McpHub) (name : string) :
  NoDup (Object_keys newServers) →
  is_Some (obj_get (fileWatchers (exec (updateServerConnections w newServers) h)) name) →
  ∃ config, (name, config) ∈ newServers ∧ connected_anew name config h.
Proof.
  intros Hnodup Hs. apply (reconcile_loops_watchers w internal); [done |].
  revert Hs. unfold exec at 1. rewrite updateServerConnections_split.
  set (h3 := exec (reconcile_loops w internal newServers) h).
  pose proof (notifyWebviewOfServerChanges_watchers (fileWatchers h3) h3 eq_refl) as Hw.
  unfold exec in Hw. unfold bind.
  destruct (notifyWebviewOfServerChanges h3) as [[[]|e] h4]; simpl in *; by rewrite Hw.
Qed.

Lemma watchers_only_for_servers_connected_anew_witness :
  ∃ config, ("c", config) ∈ [("a", sample_stdio "node" None); ("c", sample_stdio "deno" None)] ∧
            connected_anew "c" config sample_hub.
Proof.
  apply (watchers_only_for_servers_connected_anew healthy
           [("a", sample_stdio "node" None); ("c", sample_stdio "deno" None)] sample_hub "c").
  - apply (bool_decide_unpack (NoDup _)). vm_compute. exact I.
  - vm_compute. eauto.
Defined.

(** ** Restarting a connection *)

Lemma without_update_found name f conns :
  (∀ c, conn_name (f c) = conn_name c) →
  without name (update_found name f conns) = without name conns.
Proof.
  intros Hf. unfold without. induction conns as [|c conns IH]; [done |].
  cbn [update_found]. case_bool_decide as Hc.
  - rewrite !filter_cons, !decide_False; [done | | ]; rewrite ?Hf; by intros [].
  - rewrite !filter_cons, IH. done.
Qed.

Ltac same_flag_leaf := idtac; intros ? ?; simpl; assumption.

Lemma readAndValidateMcpSettingsFile_isConnecting w b :
  preserves (λ h, isConnecting h = b) (readAndValidateMcpSettingsFile w).
Proof. preserves_with same_flag_leaf. Qed.

Lemma notifyWebviewOfServerChanges_isConnecting b :
  preserves (λ h, isConnecting h = b) notifyWebviewOfServerChanges.
Proof. preserves_with same_flag_leaf. Qed.

Lemma validated_ensure w file file' :
  ensure file' = ensure file → validated w file' = validated w file.
Proof. unfold validated. by intros ->. Qed.

Lemma notifyWebviewOfServerChanges_ok h :
  ensure (settingsFile h) ≠ NotJSON →
  ∃ h', notifyWebviewOfServerChanges h = (Ok tt, h') ∧ steady h h' ∧
        isConnecting h' = isConnecting h.
Proof.
  intros Hjson.
  pose proof (notifyWebviewOfServerChanges_isConnecting (isConnecting h) h eq_refl) as Hflag.
  destruct (notifyWebviewOfServerChanges_run h) as (r & h' & Hrun & Hst & _).
  rewrite (exec_run _ _ _ _ Hrun) in Hflag.
  exists h'. split; [| done]. rewrite Hrun. f_equal.
  revert Hrun. unfold notifyWebviewOfServerChanges.
  destruct (getMcpSettingsFilePath_run h) as (h1 & Hrun1 & _ & Hfile).
  rewrite (bind_run _ _ _ _ _ Hrun1). unfold fs_readFile. run_monad. rewrite Hfile.
  destruct (ensure (settingsFile h)); [done |]. simpl. by intros [= <- _].
Qed.

(** Delete and connect again, as both restart methods do. *)
Lemma reconnect_run w serverName config source h :
  ∃ h', (_ <- deleteConnection w serverName ;; connectToServer w serverName config source) h =
          (connect_result w serverName config, h') ∧
        connections h' =
          without serverName (connections h) ++
          option_list (connect_outcome w (clientVersion h) (settingsFile h) serverName config) ∧
        clientVersion h' = clientVersion h ∧
        ensure (settingsFile h') = ensure (settingsFile h).
Proof.
  destruct (deleteConnection_run w serverName h) as (h1 & Hrun1 & Hc1 & Hv1 & Hf1 & _).
  destruct (connectToServer_run w serverName config source h1) as (h2 & Hrun2 & Hc2 & Hv2 & Hf2).
  exists h2. rewrite (bind_run _ _ _ _ _ Hrun1). split; [done |].
  rewrite Hc2, Hc1, without_idemp, Hv1, Hf1. split; [done |]. split; [congruence |].
  by rewrite Hf2, Hf1.
Qed.

Lemma restartConnectionRPC_run w serverName h :
  ∃ h', restartConnectionRPC w serverName h =
          (match validated w (settingsFile h) with
           | None => Throw "Failed to read or validate MCP settings"
           | Some servers => Ok (getSortedMcpServers (Object_keys servers) (restarted w serverName h))
           end, h') ∧
        connections h' = restarted w serverName h ∧ isConnecting h' = false.
Proof.
  unfold restartConnectionRPC. unfold bind at 1, modify at 1. unfold bind at 1, get.
  set (h0 := set_isConnecting true h).
  assert (Hinner : ∃ h5,
    match find_connection serverName (connections h0) with
    | Some connection =>
        let inMemoryConfig := server_config (server connection) in
        _ <- assign serverName (λ conn, with_error (Some EmptyString) (with_status connecting conn)) ;;
        _ <- perform (setTimeoutPromise 500) ;;
        try_catch
          (_ <- deleteConnection w serverName ;;
           connectToServer w serverName (JSON_parse inMemoryConfig) rpc)
          (λ error, perform (console_error
             ("Failed to restart connection for " +:+ serverName +:+ ": " +:+ error)))
    | None => ret tt
    end h0 = (Ok tt, h5) ∧
    connections h5 = restarted w serverName h ∧
    ensure (settingsFile h5) = ensure (settingsFile h)).
  { unfold restarted. change (connections h0) with (connections h).
    destruct (find_connection serverName (connections h)) as [conn|]; [| by exists h0].
    cbn zeta. unfold assign. unfold bind at 1, modify at 1. unfold bind at 1, perform at 1, modify at 1.
    match goal with |- context [try_catch _ _ ?hx] => set (h2 := hx) end.
    destruct (reconnect_run w serverName (JSON_parse (server_config (server conn))) rpc h2)
      as (h4 & Hrun & Hc & Hv & Hf).
    assert (Hc' : connections h4 =
              without serverName (connections h) ++
              option_list (connect_outcome w (clientVersion h) (settingsFile h) serverName
                             (JSON_parse (server_config (server conn))))).
    { rewrite Hc. subst h2 h0. simpl. by rewrite without_update_found. }
    assert (Hf' : ensure (settingsFile h4) = ensure (settingsFile h)) by (by rewrite Hf).
    clearbody h2.
    destruct (connect_result w serverName (JSON_parse (server_config (server conn)))) as [[]|e].
    - exists h4. by rewrite (try_catch_run _ _ _ _ _ Hrun).
    - eexists. rewrite (try_catch_run_throw _ _ _ _ _ Hrun). unfold perform, modify.
      split; [reflexivity |]. done. }
  destruct Hinner as (h5 & Hrun5 & Hc5 & Hf5).
  rewrite (bind_run _ _ _ _ _ Hrun5). unfold bind at 1, modify at 1.
  pose proof (readAndValidateMcpSettingsFile_isConnecting w false (set_isConnecting false h5) eq_refl)
    as Hflag.
  destruct (readAndValidateMcpSettingsFile_run w (set_isConnecting false h5))
    as (h6 & Hrun6 & (Hc6 & _) & _).
  rewrite (exec_run _ _ _ _ Hrun6) in Hflag.
  rewrite (bind_run _ _ _ _ _ Hrun6).
  change (settingsFile (set_isConnecting false h5)) with (settingsFile h5).
  rewrite (validated_ensure w _ _ Hf5).
  exists h6. simpl in Hc6. rewrite Hc6, Hc5.
  destruct (validated w (settingsFile h)); run_monad; by rewrite ?Hc6, ?Hc5.
Qed.

Lemma restartConnection_run w serverName h :
  ensure (settingsFile h) ≠ NotJSON →
  ∃ h', restartConnection w serverName h = (Ok tt, h') ∧
        connections h' = restarted w serverName h ∧ isConnecting h' = false.
Proof.
  intros Hjson.
  unfold restartConnection. unfold bind at 1, modify at 1. unfold bind at 1, get.
  set (h0 := set_isConnecting true h).
  assert (Hinner : ∃ h5,
    match find_connection serverName (connections h0) with
    | Some connection =>
        let config := server_config (server connection) in
        _ <- perform (showMessage INFORMATION ("Restarting " +:+ serverName +:+ " MCP server...")) ;;
        _ <- assign serverName (λ conn, with_error (Some EmptyString) (with_status connecting conn)) ;;
        _ <- notifyWebviewOfServerChanges ;;
        _ <- perform (setTimeoutPromise 500) ;;
        try_catch
          (_ <- deleteConnection w serverName ;;
           _ <- connectToServer w serverName (JSON_parse config) internal ;;
           perform (showMessage INFORMATION (serverName +:+ " MCP server connected")))
          (λ error,
             _ <- perform (console_error
                    ("Failed to restart connection for " +:+ serverName +:+ ": " +:+ error)) ;;
             perform (showMessage ERROR ("Failed to connect to " +:+ serverName +:+ " MCP server")))
    | None => ret tt
    end h0 = (Ok tt, h5) ∧
    connections h5 = restarted w serverName h ∧
    ensure (settingsFile h5) = ensure (settingsFile h)).
  { unfold restarted. change (connections h0) with (connections h).
    destruct (find_connection serverName (connections h)) as [conn|]; [| by exists h0].
    cbn zeta. unfold assign. unfold bind at 1, perform at 1, modify at 1. unfold bind at 1, modify at 1.
    match goal with |- context [bind notifyWebviewOfServerChanges _ ?hx] => set (h2 := hx) end.
    destruct (notifyWebviewOfServerChanges_ok h2 Hjson) as (h3 & Hrun3 & (Hc3 & Hv3 & Hf3) & _).
    rewrite (bind_run _ _ _ _ _ Hrun3). unfold bind at 1, perform at 1, modify at 1.
    match goal with |- context [try_catch _ _ ?hx] => set (h3' := hx) end.
    destruct (deleteConnection_run w serverName h3') as (h3'' & Hrun1 & Hc1 & Hv1 & Hf1 & _).
    destruct (connectToServer_run w serverName (JSON_parse (server_config (server conn)))
                internal h3'') as (h4 & Hrun2 & Hc2 & Hv2 & Hf2).
    assert (Hc' : connections h4 =
              without serverName (connections h) ++
              option_list (connect_outcome w (clientVersion h) (settingsFile h) serverName
                             (JSON_parse (server_config (server conn))))).
    { rewrite Hc2, Hc1, without_idemp, Hv1, Hf1. subst h3'. simpl. rewrite Hc3, Hv3.
      rewrite (connect_outcome_ensure w _ _ (settingsFile h) serverName _ Hf3).
      subst h2 h0. simpl. by rewrite without_update_found. }
    assert (Hf' : ensure (settingsFile h4) = ensure (settingsFile h)).
    { rewrite Hf2, Hf1. subst h3'. simpl. by rewrite Hf3. }
    clearbody h3'. clear Hrun3. clearbody h2.
    unfold try_catch. rewrite (bind_run _ _ _ _ _ Hrun1).
    destruct (connect_result w serverName (JSON_parse (server_config (server conn)))) as [[]|e].
    - rewrite (bind_run _ _ _ _ _ Hrun2). unfold perform, modify.
      eexists. split; [reflexivity |]. done.
    - rewrite (bind_run_throw _ _ _ _ _ Hrun2). unfold bind, perform, modify.
      eexists. split; [reflexivity |]. done. }
  destruct Hinner as (h5 & Hrun5 & Hc5 & Hf5).
  rewrite (bind_run _ _ _ _ _ Hrun5).
  assert (Hjson5 : ensure (settingsFile h5) ≠ NotJSON) by (by rewrite Hf5).
  destruct (notifyWebviewOfServerChanges_ok h5 Hjson5) as (h6 & Hrun6 & (Hc6 & _) & _).
  rewrite (bind_run _ _ _ _ _ Hrun6). unfold modify.
  eexists. split; [reflexivity |]. simpl. by rewrite Hc6.
Qed.

(** X7: restarting a registered server replaces its entry by the one
    [connectToServer] creates from the configuration stored in the entry,
    not from the settings file, and keeps the other entries; restarting an
    unknown server leaves the registry as it is.  Both methods lower
    [isConnecting]; [restartConnectionRPC] answers the sorted servers, or
    throws when the settings are not valid, after the restart was done. *)
Theorem restart_reconnects_from_stored_configuration (w : World) (serverName : string)
    (h : McpHub) :
  ensure (settingsFile h) ≠ NotJSON →
  connections (exec (restartConnection w serverName) h) = restarted w serverName h ∧
  isConnecting (exec (restartConnection w serverName) h) = false ∧
  connections (exec (restartConnectionRPC w serverName) h) = restarted w serverName h ∧
  isConnecting (exec (restartConnectionRPC w serverName) h) = false ∧
  result (restartConnectionRPC w serverName) h =
    match validated w (settingsFile h) with
    | None => Throw "Failed to read or validate MCP settings"
    | Some servers => Ok (getSortedMcpServers (Object_keys servers) (restarted w serverName h))
    end.
Proof.
  intros Hjson.
  destruct (restartConnection_run w serverName h Hjson) as (h1 & Hrun1 & Hc1 & Hi1).
  destruct (restartConnectionRPC_run w serverName h) as (h2 & Hrun2 & Hc2 & Hi2).
  rewrite (exec_run _ _ _ _ Hrun1), (exec_run _ _ _ _ Hrun2), (result_run _ _ _ _ Hrun2).
  done.
Qed.

Lemma restart_reconnects_from_stored_configuration_witness :
  connections (exec (restartConnection handshake_fails "a") sample_hub) =
    restarted handshake_fails "a" sample_hub ∧
  ((λ c, server_status (server c)) <$> restarted handshake_fails "a" sample_hub) ≠
    ((λ c, server_status (server c)) <$> connections sample_hub).
Proof.
  split.
  - apply (restart_reconnects_from_stored_configuration handshake_fails "a" sample_hub).
    vm_compute. discriminate.
  - vm_compute. discriminate.
Defined.

(** ** Requests to a server *)

(** X8: for a registered server that is not disabled and holds a client,
    [callTool] sends exactly one request, with the timeout of the stored
    configuration (the default one, with a log entry, when the
    configuration does not parse), whatever the status of the server; it
    answers the response with [content] filled in, or throws the error of
    the request as it is.  [readResource] sends one request and answers
    what the server answers.  Neither changes the registry. *)
Theorem invocation_sends_one_request (w : World) (serverName toolName uri : string)
    (toolArguments : option (Object string)) (h : McpHub) (conn : McpConnection) :
  find_connection serverName (connections h) = Some conn →
  truthy_bool (server_disabled (server conn)) = false →
  is_Some (client conn) →
  let request := tools_call toolName toolArguments (call_timeout w conn) in
  (result (callTool w serverName toolName toolArguments) h =
     match on_client_request w serverName request with
     | Ok response => Ok (with_content response)
     | Throw error => Throw error
     end ∧
   connections (exec (callTool w serverName toolName toolArguments) h) = connections h ∧
   effects (exec (callTool w serverName toolName toolArguments) h) =
     effects h ++ call_timeout_log w serverName conn ++ [client_request serverName request]) ∧
  (result (readResource w serverName uri) h =
     on_client_request w serverName (resources_read uri) ∧
   connections (exec (readResource w serverName uri) h) = connections h ∧
   effects (exec (readResource w serverName uri) h) =
     effects h ++ [client_request serverName (resources_read uri)]).
Proof.
  intros Hfind Henabled [cl Hclient] request. subst request.
  pose proof (proj2 (find_connection_Some _ _ _ Hfind)) as Hname.
  unfold callTool, readResource, client_request_of, call_timeout, call_timeout_log.
  run_monad. rewrite Hfind, Henabled, Hclient, Hname. split.
  - destruct (ServerConfigSchema_parse w (JSON_parse (server_config (server conn))))
      as [parsedConfig|error]; simpl;
      destruct (on_client_request w serverName _) as [response|error']; simpl;
      rewrite <- ?app_assoc; done.
  - by destruct (on_client_request w serverName (resources_read uri)).
Qed.

Lemma invocation_sends_one_request_witness :
  result (callTool close_throws "a" "read" None) sample_hub = Ok (with_content sample_response) ∧
  connections (exec (callTool close_throws "a" "read" None) sample_hub) = connections sample_hub.
Proof.
  assert (Hconn : ∃ conn, find_connection "a" (connections sample_hub) = Some conn ∧
                          truthy_bool (server_disabled (server conn)) = false ∧
                          is_Some (client conn) ∧
                          on_client_request close_throws "a"
                            (tools_call "read" None (call_timeout close_throws conn)) =
                          Ok sample_response).
  { vm_compute. eexists. split; [reflexivity |]. split; [reflexivity |]. split; [eauto | reflexivity]. }
  destruct Hconn as (conn & Hfind & Henabled & Hclient & Hanswer).
  destruct (invocation_sends_one_request close_throws "a" "read" "file:///x" None sample_hub conn
              Hfind Henabled Hclient) as [(Hresult & Hconns & _) _].
  rewrite Hanswer in Hresult. done.
Defined.

Lemma find_connection_update_found name f conns conn :
  (∀ c, conn_name (f c) = conn_name c) →
  find_connection name conns = Some conn →
  find_connection name (update_found name f conns) = Some (f conn).
Proof.
  intros Hf. unfold find_connection.
  induction conns as [|c conns IH]; [done |]. cbn [update_found List.find].
  case_bool_decide as Hc.
  - intros [= ->]. cbn [List.find]. by rewrite bool_decide_true by (by rewrite Hf).
  - intros Hfind. cbn [List.find]. rewrite bool_decide_false by done. by apply IH.
Qed.

(** X9: enabling a server with [toggleServerDisabledRPC] does not connect
    it: when its registry entry holds no client, as that of a server
    registered while disabled, the entry is enabled and still holds no
    client, so a later [callTool] or [readResource] throws a [TypeError]
    and sends no request: [readResource] leaves the hub as it is, and
    [callTool] adds to the log at most the failure to parse the timeout. *)
Theorem enabled_server_is_not_connected (w : World) (serverName toolName uri : string)
    (toolArguments : option (Object string)) (h : McpHub) (conn : McpConnection)
    (servers : Object McpServerConfig) :
  find_connection serverName (connections h) = Some conn →
  client conn = None →
  validated w (settingsFile h) = Some servers →
  is_Some (obj_get servers serverName) →
  let h' := exec (toggleServerDisabledRPC w serverName false) h in
  find_connection serverName (connections h') = Some (with_disabled (Some false) conn) ∧
  result (callTool w serverName toolName toolArguments) h' =
    Throw "TypeError: Cannot read properties of null (reading 'request')" ∧
  result (readResource w serverName uri) h' =
    Throw "TypeError: Cannot read properties of null (reading 'request')" ∧
  effects (exec (callTool w serverName toolName toolArguments) h') =
    effects h' ++ call_timeout_log w serverName conn ∧
  exec (readResource w serverName uri) h' = h'.
Proof.
  intros Hfind Hclient Hvalid [entry Hentry] h'.
  assert (Hfind' : find_connection serverName (connections h') =
                     Some (with_disabled (Some false) conn)).
  { subst h'. rewrite toggleServerDisabledRPC_connections, Hvalid. simpl. rewrite Hentry.
    by apply find_connection_update_found. }
  clearbody h'. split; [done |].
  unfold callTool, readResource, client_request_of, call_timeout_log. run_monad.
  rewrite Hfind'. simpl. rewrite Hclient.
  destruct (ServerConfigSchema_parse w (JSON_parse (server_config (server conn)))); simpl;
    repeat split; try done.
  by rewrite app_nil_r.
Qed.

Lemma enabled_server_is_not_connected_witness :
  result (callTool healthy "b" "read" None)
    (exec (toggleServerDisabledRPC healthy "b" false) sample_hub) =
    Throw "TypeError: Cannot read properties of null (reading 'request')".
Proof.
  assert (Hconn : ∃ conn servers,
            find_connection "b" (connections sample_hub) = Some conn ∧ client conn = None ∧
            validated healthy (settingsFile sample_hub) = Some servers ∧
            is_Some (obj_get servers "b")).
  { vm_compute. do 2 eexists. split; [reflexivity |]. split; [reflexivity |].
    split; [reflexivity |]. eauto. }
  destruct Hconn as (conn & servers & Hfind & Hclient & Hvalid & Hentry).
  exact (proj1 (proj2 (enabled_server_is_not_connected healthy "b" "read" "file:///x" None
                         sample_hub conn servers Hfind Hclient Hvalid Hentry))).
Defined.

(** ** Disposal *)

Lemma find_connection_NoDup conns conn :
  NoDup (conn_name <$> conns) → conn ∈ conns →
  find_connection (conn_name conn) conns = Some conn.
Proof.
  unfold find_connection. induction conns as [|c conns IH]; intros Hnodup Hin.
  { by apply elem_of_nil in Hin. }
  rewrite fmap_cons in Hnodup. apply NoDup_cons in Hnodup as [Hc Hnodup].
  cbn [List.find]. apply elem_of_cons in Hin as [-> | Hin].
  - by rewrite bool_decide_true.
  - rewrite bool_decide_false; [by apply IH |].
    intros Heq. apply Hc. rewrite Heq. apply list_elem_of_fmap. by exists conn.
Qed.

Lemma find_connection_without_ne name name' conns :
  name ≠ name' → find_connection name (without name' conns) = find_connection name conns.
Proof. intros Hne. by rewrite !find_connection_only, only_without_ne. Qed.

Lemma deleteConnection_watchers w name W :
  preserves (λ h, fileWatchers h = W) (deleteConnection w name).
Proof. preserves_with same_watchers_leaf. Qed.

Lemma dispose_loop w (l : list McpConnection) :
  NoDup (conn_name <$> l) →
  ∀ h, (∀ conn, conn ∈ l → find_connection (conn_name conn) (connections h) = Some conn) →
  ∃ h', for_of l (λ connection,
          try_catch (deleteConnection w (conn_name connection))
            (λ error, perform (console_error
               ("Failed to close connection for " +:+ conn_name connection +:+ ": " +:+ error)))) h =
          (Ok tt, h') ∧
        fileWatchers h' = fileWatchers h ∧
        effects h `prefix_of` effects h' ∧
        (∀ conn, conn ∈ l → happened_since (effects h) (closing w (conn_name conn) conn) h').
Proof.
  induction l as [|c l IH]; intros Hnodup h Hfind.
  { exists h. split; [done |]. split; [done |]. split; [done |].
    by intros conn ?%elem_of_nil. }
  rewrite fmap_cons in Hnodup. apply NoDup_cons in Hnodup as [Hc Hnodup].
  pose proof (deleteConnection_watchers w (conn_name c) (fileWatchers h) h eq_refl) as Hw1.
  destruct (deleteConnection_run w (conn_name c) h) as (h1 & Hrun1 & Hc1 & _ & _ & He1).
  rewrite (exec_run _ _ _ _ Hrun1) in Hw1.
  rewrite (Hfind c) in He1 by left. simpl in He1.
  destruct (IH Hnodup h1) as (h2 & Hrun2 & Hw2 & Hgrow & Hclosed).
  { intros conn Hin. rewrite Hc1, find_connection_without_ne; [apply Hfind; by right |].
    intros Heq. apply Hc. rewrite <- Heq. apply list_elem_of_fmap. by exists conn. }
  assert (Hgrow1 : effects h `prefix_of` effects h1) by (rewrite He1; by apply prefix_app_r).
  exists h2. simpl. rewrite (bind_run _ _ _ tt h1) by (by apply try_catch_run).
  split; [done |]. split; [congruence |]. split; [by transitivity (effects h1) |].
  intros conn [-> | Hin]%elem_of_cons.
  - apply (happened_since_after _ _ h1); [| done].
    exists [], []. by rewrite He1, app_nil_r.
  - apply (happened_since_before _ _ h1); [done | by apply Hclosed].
Qed.

(** X10: [dispose] never throws and leaves no connection and no file
    watcher; every connection of the registry is closed on the way, its
    transport first and then its client, and a [close()] that throws is
    logged and does not keep the others from being closed: the close
    calls of each connection are in what [dispose] adds to the log. *)
Theorem dispose_closes_every_connection (w : World) (h : McpHub) :
  unique_names h →
  result (dispose w) h = Ok tt ∧
  connections (exec (dispose w) h) = [] ∧
  fileWatchers (exec (dispose w) h) = [] ∧
  (∀ conn, conn ∈ connections h →
           happened_since (effects h) (closing w (conn_name conn) conn) (exec (dispose w) h)).
Proof.
  intros Hnodup. unfold dispose.
  pose proof (removeAllFileWatchers_clears h) as Hw1.
  destruct (removeAllFileWatchers_run h) as (h1 & Hrun1 & (Hc1 & _) & _ & He1).
  rewrite (exec_run _ _ _ _ Hrun1) in Hw1.
  destruct (dispose_loop w (connections h1)) with (h := h1)
    as (h2 & Hrun2 & Hw2 & _ & Hclosed).
  { by rewrite Hc1. }
  { intros conn Hin. apply find_connection_NoDup; [by rewrite Hc1 | done]. }
  assert (Hrun : dispose w h = (Ok tt, set_connections (λ _, []) h2)).
  { unfold dispose. rewrite (bind_run _ _ _ _ _ Hrun1). unfold bind at 1, get.
    by rewrite (bind_run _ _ _ _ _ Hrun2). }
  fold (dispose w). rewrite (result_run _ _ _ _ Hrun), (exec_run _ _ _ _ Hrun). simpl.
  split; [done |]. split; [done |]. split; [congruence |].
  intros conn Hin.
  destruct (Hclosed conn) as (before & after & He); [by rewrite Hc1 |].
  exists ((watcher_close <$> Object_keys (fileWatchers h)) ++ before), after.
  simpl. by rewrite He, He1, <- !app_assoc.
Qed.

Lemma dispose_closes_every_connection_witness :
  unique_names sample_hub ∧
  result (dispose close_throws) sample_hub = Ok tt ∧
  connections (exec (dispose close_throws) sample_hub) = [].
Proof.
  assert (Hnodup : unique_names sample_hub).
  { apply (bool_decide_unpack (NoDup _)). vm_compute. exact I. }
  split; [exact Hnodup |].
  destruct (dispose_closes_every_connection close_throws sample_hub Hnodup) as (Hr & Hc & _).
  split; [exact Hr | exact Hc].
Defined.

(** ** Disabling and enabling a server *)


Lemma toggleServerDisabledRPC_run w serverName disabled h servers entry :
  validated w (settingsFile h) = Some servers →
  obj_get servers serverName = Some entry →
  let written := obj_set servers serverName (with_cfg_disabled (Some disabled) entry) in
  ∃ h', toggleServerDisabledRPC w serverName disabled h =
          (Ok (getSortedMcpServers (Object_keys written)
                 (update_found serverName (with_disabled (Some disabled)) (connections h))), h') ∧
        connections h' =
          update_found serverName (with_disabled (Some disabled)) (connections h) ∧
        clientVersion h' = clientVersion h ∧
        settingsFile h' = Some (JSONFile (JSON_stringify {| mcpServers := Some written |})).
Proof.
  intros Hvalid Hentry written.
  pose proof (toggleServerDisabledRPC_connections w serverName disabled h) as Hconns.
  rewrite Hvalid in Hconns. simpl in Hconns. rewrite Hentry in Hconns.
  revert Hconns. unfold toggleServerDisabledRPC, exec.
  destruct (readAndValidateMcpSettingsFile_run w h) as (h1 & Hrun & (Hc1 & Hv1 & _) & Hfile).
  unfold try_catch. rewrite (bind_run _ _ _ _ _ Hrun), Hvalid, Hentry.
  destruct (getMcpSettingsFilePath_run h1) as (h2 & Hrun2 & (Hc2 & Hv2 & _) & _).
  rewrite (bind_run _ _ _ _ _ Hrun2).
  unfold fs_write, findConnection, assign. run_monad.
  destruct (find_connection serverName (connections h2)); simpl; intros Hconns;
    rewrite ?Hconns; (eexists; split; [reflexivity |]); simpl;
    (split; [done |]); (split; [congruence | done]).
Qed.



Lemma closing_with_disabled w name d conn :
  closing w name (with_disabled d conn) = closing w name conn.
Proof. done. Qed.

(** X12: the flag [toggleServerDisabledRPC] sets reaches the connection
    with the next change of the settings file: the stored configuration
    of the server differs now from the one in the file, so the pass that
    [onSettingsFileChanged] starts closes the connection and registers
    what [connectToServer] creates for the configuration with the new
    flag. *)
Theorem settings_change_after_toggle_reconnects (w : World) (serverName : string)
    (disabled : bool) (h : McpHub) (conn : McpConnection)
    (servers : Object McpServerConfig) (entry : McpServerConfig) :
  NoDup (Object_keys servers) →
  validated w (settingsFile h) = Some servers →
  obj_get servers serverName = Some entry →
  McpSettingsSchema_safeParse w
    {| mcpServers := Some (obj_set servers serverName (with_cfg_disabled (Some disabled) entry)) |} =
    Some (obj_set servers serverName (with_cfg_disabled (Some disabled) entry)) →
  find_connection serverName (connections h) = Some conn →
  JSON_parse (server_config (server conn)) ≠ with_cfg_disabled (Some disabled) entry →
  let h1 := exec (toggleServerDisabledRPC w serverName disabled) h in
  let h2 := exec (onSettingsFileChanged w) h1 in
  find_connection serverName (connections h2) =
    connect_outcome w (clientVersion h) (settingsFile h1) serverName
      (with_cfg_disabled (Some disabled) entry) ∧
  happened_since (effects h1) (closing w serverName conn) h2.
Proof.
  intros Hnodup Hvalid Hentry Hschema Hfind Hdiffer h1 h2.
  set (config := with_cfg_disabled (Some disabled) entry) in *.
  set (written := obj_set servers serverName config) in *.
  destruct (toggleServerDisabledRPC_run w serverName disabled h servers entry Hvalid Hentry)
    as (h1' & Hrun1 & Hc1 & Hv1 & Hfile1).
  assert (Hh1 : h1 = h1') by (subst h1; by rewrite (exec_run _ _ _ _ Hrun1)).
  clearbody h1. subst h1'. clear Hrun1.
  assert (Hvalid1 : validated w (settingsFile h1) = Some written).
  { unfold validated, ensure. rewrite Hfile1. simpl. exact Hschema. }
  assert (Hnodup' : NoDup (Object_keys written)).
  { subst written. rewrite Object_keys_set; eauto. }
  assert (Hin : (serverName, config) ∈ written).
  { assert (Hget : obj_get written serverName = Some config) by apply obj_get_set.
    clear -Hget. induction written as [|[k v] o IH]; [done |]. simpl in Hget.
    case_bool_decide; [injection Hget as ->; subst; left | right; auto]. }
  assert (Hfind1 : find_connection serverName (connections h1) =
                     Some (with_disabled (Some disabled) conn)).
  { rewrite Hc1. by apply find_connection_update_found. }
  destruct (updateServerConnections_run w written h1 Hnodup')
    as (r & h2' & Hrun2 & Hv2 & _ & _ & Hentries).
  destruct (Hentries serverName config Hin) as [Hafter _].
  assert (Hneq : deepEqual (JSON_parse (server_config (server (with_disabled (Some disabled) conn))))
                   config = false).
  { unfold deepEqual. by apply bool_decide_eq_false_2. }
  pose proof (updateServerConnections_closing w written h1 serverName config _
                Hnodup' Hin Hfind1 Hneq) as Hclosed.
  rewrite (exec_run _ _ _ _ Hrun2), closing_with_disabled in Hclosed.
  rewrite Hfind1 in Hafter. unfold reconciled in Hafter. rewrite Hneq, Hv1 in Hafter.
  assert (Hrun : ∃ r' h2'', onSettingsFileChanged w h1 = (r', h2'') ∧
                   connections h2'' = connections h2' ∧
                   effects h2' `prefix_of` effects h2'').
  { unfold onSettingsFileChanged.
    rewrite (bind_run _ _ _ _ _ (readAndValidateMcpSettingsFile_present w h1 _ _ Hfile1 Hvalid1)).
    unfold try_catch. fold written. rewrite Hrun2. destruct r as [[]|e]; [by do 2 eexists |].
    unfold perform, modify. do 2 eexists. split; [reflexivity |]. simpl. split; [done |].
    by apply prefix_app_r. }
  destruct Hrun as (r' & h2'' & Hrun & Hc2 & Hgrow).
  subst h2. rewrite (exec_run _ _ _ _ Hrun), Hc2. split; [done |].
  by apply (happened_since_after _ _ h2').
Qed.

Lemma settings_change_after_toggle_reconnects_witness :
  find_connection "a"
    (connections (exec (onSettingsFileChanged close_throws)
                    (exec (toggleServerDisabledRPC close_throws "a" true) sample_hub))) =
    connect_outcome close_throws (clientVersion sample_hub)
      (settingsFile (exec (toggleServerDisabledRPC close_throws "a" true) sample_hub)) "a"
      (with_cfg_disabled (Some true) (sample_stdio "node" None)).
Proof.
  assert (Hconn : ∃ conn, find_connection "a" (connections sample_hub) = Some conn ∧
            JSON_parse (server_config (server conn)) ≠
              with_cfg_disabled (Some true) (sample_stdio "node" None)).
  { vm_compute. eexists. split; [reflexivity | discriminate]. }
  destruct Hconn as (conn & Hfind & Hdiffer).
  assert (Hnodup : NoDup (Object_keys sample_servers)).
  { apply (bool_decide_unpack (NoDup _)). vm_compute. exact I. }
  assert (Hvalid : validated close_throws (settingsFile sample_hub) = Some sample_servers).
  { vm_compute. reflexivity. }
  exact (proj1 (settings_change_after_toggle_reconnects close_throws "a" true sample_hub conn
                  sample_servers (sample_stdio "node" None) Hnodup Hvalid eq_refl eq_refl
                  Hfind Hdiffer)).
Defined.

(** ** Changing the settings of a server *)



Lemma obj_get_delete {V} (o : Object V) k : obj_get (obj_delete o k) k = None.
Proof.
  unfold obj_delete. induction o as [|[k' v'] o IH]; [done |].
  destruct (decide (k' ≠ k)) as [Hne|Heq].
  - rewrite (filter_cons_True (λ e : string * V, e.1 ≠ k)) by done.
    cbn [obj_get]. by rewrite bool_decide_false.
  - by rewrite (filter_cons_False (λ e : string * V, e.1 ≠ k)) by done.
Qed.







(** ** Reading the settings before a pass *)

Lemma readAndValidateMcpSettingsFile_quiet_after w log :
  preserves (quiet_after log) (readAndValidateMcpSettingsFile w).
Proof. preserves_with quiet_after_leaf. Qed.

Lemma reconciled_ensure w version file file' name config current :
  ensure file = ensure file' →
  reconciled w version file name config current =
    reconciled w version file' name config current.
Proof.
  intros Hf. unfold reconciled.
  destruct current as [conn|]; [destruct (deepEqual _ _); [done |] |];
    by apply connect_outcome_ensure.
Qed.

Lemma elem_of_Object_keys {V} (o : Object V) k : k ∈ Object_keys o → ∃ v, (k, v) ∈ o.
Proof. intros ([k' v] & -> & Hin)%list_elem_of_fmap. by exists v. Qed.

Lemma updateServerConnections_steady w (newServers : Object McpServerConfig) h h1 name :
  NoDup (Object_keys newServers) →
  steady h h1 →
  find_connection name (connections (exec (updateServerConnections w newServers) h1)) =
    find_connection name (connections (exec (updateServerConnections w newServers) h)).
Proof.
  intros Hnodup (Hc & Hv & Hf).
  destruct (updateServerConnections_run w newServers h Hnodup)
    as (r & h' & Hrun & _ & _ & Hnone & Hentries).
  destruct (updateServerConnections_run w newServers h1 Hnodup)
    as (r1 & h1' & Hrun1 & _ & _ & Hnone1 & Hentries1).
  rewrite (exec_run _ _ _ _ Hrun), (exec_run _ _ _ _ Hrun1).
  destruct (decide (name ∈ Object_keys newServers)) as [Hin|Hout].
  - apply elem_of_Object_keys in Hin as [config Hin].
    rewrite (proj1 (Hentries _ _ Hin)), (proj1 (Hentries1 _ _ Hin)), Hc, Hv.
    by apply reconciled_ensure.
  - by rewrite Hnone, Hnone1.
Qed.

(** X15: the settings are validated before the registry is touched.  With
    settings that are not valid, [initializeMcpServers] and the handler
    of a change of the settings file leave the registry as it is, and
    nothing of what they add to the log is traffic with a server; with
    valid settings they reconcile the registry as
    [updateServerConnections] does with the servers of the file.  The
    handler never throws. *)
Theorem settings_are_validated_before_reconciling (w : World) (h : McpHub) :
  result (onSettingsFileChanged w) h = Ok tt ∧
  match validated w (settingsFile h) with
  | None =>
      result (initializeMcpServers w) h = Ok tt ∧
      connections (exec (initializeMcpServers w) h) = connections h ∧
      connections (exec (onSettingsFileChanged w) h) = connections h ∧
      quiet_after (effects h) (exec (initializeMcpServers w) h) ∧
      quiet_after (effects h) (exec (onSettingsFileChanged w) h)
  | Some servers =>
      NoDup (Object_keys servers) →
      ∀ name,
        find_connection name (connections (exec (initializeMcpServers w) h)) =
          find_connection name (connections (exec (updateServerConnections w servers) h)) ∧
        find_connection name (connections (exec (onSettingsFileChanged w) h)) =
          find_connection name (connections (exec (updateServerConnections w servers) h))
  end.
Proof.
  pose proof (readAndValidateMcpSettingsFile_quiet_after w (effects h) h) as Hquiet.
  destruct (readAndValidateMcpSettingsFile_run w h) as (h1 & Hrun & Hst & _).
  rewrite (exec_run _ _ _ _ Hrun) in Hquiet.
  specialize (Hquiet ltac:(exists []; by rewrite app_nil_r)).
  assert (Hinit : initializeMcpServers w h =
            match validated w (settingsFile h) with
            | Some servers => updateServerConnections w servers h1
            | None => (Ok tt, h1)
            end).
  { unfold initializeMcpServers. rewrite (bind_run _ _ _ _ _ Hrun).
    by destruct (validated w (settingsFile h)). }
  assert (Hchanged : onSettingsFileChanged w h =
            match validated w (settingsFile h) with
            | Some servers =>
                try_catch (updateServerConnections w servers)
                  (λ error, perform (console_error
                     ("Failed to process MCP settings change: " +:+ error))) h1
            | None => (Ok tt, h1)
            end).
  { unfold onSettingsFileChanged. rewrite (bind_run _ _ _ _ _ Hrun).
    by destruct (validated w (settingsFile h)). }
  unfold exec, result. rewrite Hinit, Hchanged. clear Hinit Hchanged.
  destruct (validated w (settingsFile h)) as [servers|].
  - split.
    + unfold try_catch. by destruct (updateServerConnections w servers h1) as [[[]|e] h2].
    + intros Hnodup name.
      pose proof (updateServerConnections_steady w servers h h1 name Hnodup Hst) as Hsame.
      unfold exec in Hsame. rewrite <- Hsame. split; [done |].
      unfold try_catch. by destruct (updateServerConnections w servers h1) as [[[]|e] h2].
  - simpl. destruct Hst as (Hc & _). done.
Qed.
